(* ===== verification/_CoqProject ===== *)
-Q . S2P
Prelude.v
JsString.v
JsDate.v
DataUrl.v
Regex.v
ListStore.v
View.v
Login.v
CreatePost.v
Home.v
Notifications.v
Profile.v
Welcome.v
Timers.v
PushConfirmation.v
App.v
AppCompose.v
