(* ===== verification/Prelude.v ===== *)
(** * Bartr: a verification development of the Bartr screen components

    The program (src/client/pages/*.tsx) is a React single-page app of seven
    screens bound to routes: Welcome ([/]), Login ([/login]), Home ([/home]),
    CreatePost ([/create-post]), PushConfirmation ([/push-confirmation]),
    Notifications ([/notifications]) and Profile ([/profile]).  Every screen
    keeps its state in [useState] hooks that live as long as the screen is
    mounted; screens talk to each other only through navigation (react-router
    [Link] and [navigate], or [window.location.href] assignments), and one
    screen (PushConfirmation) schedules a browser timer in a [useEffect] whose
    cleanup cancels it.  The route table (App.tsx) is not among the sources
    and is modelled from the specification (section 6).

    ** Files, in dependency order

    - [Prelude] (this file): JavaScript strings as lists of UTF-16 code units
      ([jsstr], a code unit is a [Z] in [0, 2^16)), the embedding [js] of
      ASCII literals, strict equality [jseqb] (the [===] of the code) and
      string truthiness, [file] (a picked [File]) and the [effect]s a
      handler can request (client navigation, [window.location] assignment,
      [console.log], [FileReader.readAsDataURL]); the hint databases
      [bartr]/[bartr_rw], the shared Ltac and generic list lemmas.
    - [JsString]: the built-ins the code calls on strings: [trim] (ECMA-262
      white space and line terminators, per code unit), [charAt(0)] and
      number to string.
    - [DataUrl]: the base64 data URL a [FileReader.readAsDataURL] produces
      (RFC 2397, RFC 4648), its decoder [unbase64] and the parser
      [parse_data_url], with the round trip [parse_data_url (data_url f)]
      for every file of bytes whose MIME type has no [;].
    - [JsDate]: [Date.parse] of date-only strings (UTC midnight),
      calendar/day-number conversions (proved inverse for 2000-2099 by
      evaluation) and [toLocaleDateString] in a fixed time zone.
    - [Regex]: the fragment of ECMAScript regular expressions the code uses
      (anchors, classes, [\d], [{n}], sequence, alternation), a
      backtracking matcher in continuation-passing style and [test].
    - [ListStore]: the list mutations the screens repeat
      ([filter] by id, [map] by id, [map] of all), against the typeclass
      interface [Keyed]; their contracts (spec 4.2 and 8), and the abstract
      collection [without D l] that repeated removals refine.
    - [View]: a screen's JSX as a tree of [node]s (boxes, links, buttons
      with [disabled], inputs with [maxLength], selects, switches, file
      inputs); [dispatch] of a user event along a path of child indices with
      click bubbling and disabled buttons; [react] (one event: handlers run,
      then the enclosing [Link] navigates); [reach], the states of a mounted
      screen, with the invariant principle [reach_inv]; [nest_ok], under
      which one event runs at most one handler; [links] of a view.
    - [Login], [CreatePost], [Home], [Notifications], [Profile], [Welcome]:
      one Module per screen file with its state record, initial state (the
      [useState] arguments), setters, handlers (same names as the source),
      an [action] per [onClick]/[onChange] of the JSX, [run] dispatching an
      action to its handler, and [view] (the render function).  CreatePost
      also has a [world] with the [FileReader] reads in flight, completing in
      any order ([wstep]), or in the order they were started ([fifo_step]).  Profile's view takes the browser's
      [toLocaleDateString] as a Section variable.
    - [Timers]: the host's [setTimeout]/[clearTimeout], page unload and the
      order in which due timers run (earliest due first); the typeclass
      interface [TimerHost] with its laws [TimerHostLaws], against which
      the scoped use of a timer is proved, and its instance for the host.
    - [PushConfirmation]: the screen, its effect body [effect_setup] and its
      cleanup [effect_cleanup].
    - [App]: the router ([route_of_path], [mount], [unmount]), the app state
      (mounted screen with its state, browser, console), [apply_effect]
      (same-path navigation keeps the screen, other navigation unmounts and
      mounts, a page load drops every timer), [tick] (time passes, due
      timers run), [app_step] and [app_reach] from [/] at time 0.
    - [AppCompose]: the screens inside the app.  [screen_ok] reads off a
      mounted screen the predicate of its own file ([reach], or
      [world_reachable] for CreatePost with its pending reads); each app
      step is a stutter, a fresh mount or one step of that model
      ([screen_ok_step], a simulation), so every reachable app satisfies
      it; the ways home ([way_home]), the events taking each edge of the
      navigation table ([edges]) and the preview race run in the app.

    ** What the theorems show (claims C1-C34, most important first)

    - timers (App): every pending timer is the redirect of the mounted
      confirmation screen (C1); it lands on /home within 5000 ms
      (C2); once the screen is left nothing fires
      (C4, Scenario E); the
      effect's setup and cleanup form a scoped resource, proved against the
      [TimerHost] interface (C17);
    - composition (AppCompose): every mounted screen is a reachable state
      of its own model, so the screens' theorems hold inside the app
      (C14); Home is at most two events away from every
      state (C15); every edge of the navigation table is
      taken from every state of its screen (C16);
    - navigation (App): the confirmation is entered only from a valid form
      (C5); every step follows the navigation table
      [nav_targets] (C12); no dead link (C13);
    - validation and submission: the disabled submit button (C6,
      Scenarios A and B), [handleSubmit]'s
      weaker guard (C7), the phone regex
      (C8), the phone step (C9,
      C10, Scenario C), the OTP step (C11), the
      Login error states, where the OTP message is never shown
      (C27), input bounds (C29,
      C30), resend (C31);
    - list store and feeds: the [removeById] contract
      (C18), dismissing a post
      (C19), the reachable feeds are exactly the seed minus a set
      of dismissed ids (C20), so no created post ever reaches
      the feed,
      anonymous cards (C32);
    - notifications: mark all read (C21, Scenario D), one read (C22), the bulk update
      equals the single update folded over the ids (C23), the unread count
      never rises (C28), only read flags change
      (C33), inert response buttons (C34);
    - host interaction: the FileReader race on the image preview, in the whole app
      (C24) and, when reads complete in pick order, the preview
      decodes back to the chosen file (C25, a base64
      and data URL round trip), the badge dates the Badges tab shows a day early
      west of UTC (C26).

    ** Bounds and fuel

    [fire] runs due timers with fuel; [tick] gives it the number of active
    timers, enough since each run removes its timer and the only callback
    (the redirect) schedules none.  Integers are unbounded
    [Z]: the clock and delays are far below 2^53 in every run considered.
    The calendar round trip is checked for the years 2000-2099, which
    contain every date of the code; the time zone offset is bounded by a
    day (|offset| < 1440 minutes), which every real zone satisfies.

    ** Not modelled

    Styling and layout ([className]), icon shapes, the UI library beyond its
    event semantics, the Google button (inert), locales other than en-US,
    daylight-saving changes of the zone offset, and the file picker's
    internals (a pick is an optional [file]).  React's batching is not modelled: every
    handler writes each state variable at most once, so applying its
    updates in order gives React's result.  The app's events are the DOM events
    of the mounted screen, the passing of time and the completion of
    [FileReader]s: the browser's back and forward buttons and URLs typed
    in the address bar are not events of the model, so the navigation
    theorems ([confirmation_entry], [navigation_graph], [no_dead_links])
    are about in-app navigation.  A Radix [Avatar]
    renders its [AvatarImage] and its [AvatarFallback] as two nodes; which
    one the browser shows depends on the image loading, which is not
    modelled.  The source lines the map does not cover
    are the [import] lines of the seven files and closing braces; every
    function, handler, state hook and JSX element is translated.  The
    browser (timers, page loads, [FileReader], data URLs) is modelled from
    the HTML and ECMAScript standards as far as the code calls it, not as
    repository code.
*)

From Stdlib Require Import String Ascii.
From stdpp Require Import base list decidable.
From Stdlib Require Import ZArith Lia.

(** String literals of the source, for every file that imports the prelude. *)
Export String.StringSyntax.

(** ** JavaScript strings *)

(** A JS string value: its UTF-16 code units. *)
Abbreviation jsstr := (list Z).

(** The code units of an ASCII literal of the source. *)
Fixpoint js (s : string) : jsstr :=
  match s with
  | EmptyString => []
  | String a s' => Z.of_N (N_of_ascii a) :: js s'
  end.
Arguments js s%_string.

(** A code unit is a 16-bit value. *)
Definition code_unit_ok (c : Z) : Prop := (0 <= c < 65536)%Z.

Definition jsstr_ok (s : jsstr) : Prop := Forall code_unit_ok s.

(** Strict equality [a === b] on strings. *)
Definition jseqb (a b : jsstr) : bool := bool_decide (a = b).

(** [ToBoolean] of a string: only the empty string is falsy. *)
Definition truthy_str (s : jsstr) : bool := negb (bool_decide (s = [])).

Declare Scope js_scope.
Delimit Scope js_scope with js.
Infix "===" := jseqb (at level 70, no associativity) : js_scope.
Notation "a !== b" := (negb (jseqb a b)) (at level 70, no associativity) : js_scope.

(** ** Effects a handler can request from its environment *)

(** A file chosen in a file picker: its name, MIME type and bytes. *)
Record file : Type := mkFile { file_name : jsstr; file_type : jsstr; file_bytes : list Z }.

#[export] Instance file_eq_dec : EqDecision file.
Proof. solve_decision. Defined.

Inductive effect : Type :=
  | Navigate (to : jsstr)          (** react-router [navigate(to)] or a [Link] *)
  | AssignLocation (href : jsstr)  (** [window.location.href = href]: a full page load *)
  | ConsoleLog (args : list jsstr) (** [console.log(...)] *)
  | ReadAsDataURL (f : file).      (** [new FileReader().readAsDataURL(f)] with an [onload] *)

#[export] Instance effect_eq_dec : EqDecision effect.
Proof. solve_decision. Defined.

(** ** Automation *)

Create HintDb bartr discriminated.
Create Rewrite HintDb bartr_rw.

(** Turn the boolean tests of the model into propositions. *)
(** [lia] treats [/] and [mod] as atoms: [zlia] first turns them into
    their Euclidean equations. *)
Ltac zlia := Z.to_euclidean_division_equations; lia.

Ltac bool_to_prop :=
  repeat match goal with
  | H : _ && _ = true |- _ => apply andb_true_iff in H as [? ?]
  | H : _ || _ = false |- _ => apply orb_false_iff in H as [? ?]
  | H : negb _ = true |- _ => apply negb_true_iff in H
  | H : negb _ = false |- _ => apply negb_false_iff in H
  | H : bool_decide _ = true |- _ => apply bool_decide_eq_true in H
  | H : bool_decide _ = false |- _ => apply bool_decide_eq_false in H
  | H : (_ =? _)%nat = true |- _ => apply Nat.eqb_eq in H
  | H : (_ =? _)%nat = false |- _ => apply Nat.eqb_neq in H
  | H : (_ <? _)%nat = true |- _ => apply Nat.ltb_lt in H
  | H : (_ <? _)%nat = false |- _ => apply Nat.ltb_ge in H
  | H : (_ <=? _)%Z = true |- _ => apply Z.leb_le in H
  | H : (_ <=? _)%Z = false |- _ => apply Z.leb_gt in H
  end.

(** Membership in a list given element by element. *)
Ltac elem_of_list :=
  repeat first [apply elem_of_cons; left; reflexivity | apply elem_of_cons; right].

(** ** Generic lemmas on the string model *)

Lemma jseqb_true a b : jseqb a b = true <-> a = b.
Proof. apply bool_decide_eq_true. Qed.

Lemma jseqb_false a b : jseqb a b = false <-> a <> b.
Proof. apply bool_decide_eq_false. Qed.

Lemma jseqb_refl a : jseqb a a = true.
Proof. by apply jseqb_true. Qed.

Lemma truthy_str_true s : truthy_str s = true <-> s <> [].
Proof. unfold truthy_str. rewrite negb_true_iff. apply bool_decide_eq_false. Qed.

Lemma length_js s : length (js s) = String.length s.
Proof. induction s; simpl; auto. Qed.

Lemma js_ok s : jsstr_ok (js s).
Proof.
  induction s as [|a s IH]; constructor; auto.
  unfold code_unit_ok. pose proof (N_ascii_bounded a). lia.
Qed.

#[export] Hint Rewrite jseqb_refl length_js : bartr_rw.
#[export] Hint Resolve js_ok jseqb_refl : bartr.

(** ** Generic lemmas on lists *)

Lemma filter_length_le {A} (f : A -> bool) (l : list A) :
  length (List.filter f l) <= length l.
Proof. induction l as [|x l IH]; simpl; [lia|]. destruct (f x); simpl; lia. Qed.

Lemma filter_all_true {A} (f : A -> bool) (l : list A) :
  Forall (fun x => f x = true) l -> List.filter f l = l.
Proof. induction 1 as [|x l Hx _ IH]; simpl; [done|]. by rewrite Hx, IH. Qed.

Lemma map_id_Forall {A} (f : A -> A) (l : list A) :
  Forall (fun x => f x = x) l -> List.map f l = l.
Proof. induction 1 as [|x l Hx _ IH]; simpl; [done|]. by rewrite Hx, IH. Qed.

Lemma sublist_map {A B} (f : A -> B) (l1 l2 : list A) :
  l1 `sublist_of` l2 -> List.map f l1 `sublist_of` List.map f l2.
Proof. induction 1; simpl; by constructor. Qed.

Lemma filter_filter_and {A} (f g : A -> bool) (l : list A) :
  List.filter f (List.filter g l) = List.filter (fun x => g x && f x) l.
Proof. induction l as [|x l IH]; simpl; [done|]. destruct (g x); simpl; [destruct (f x)|]; simpl; by rewrite IH. Qed.

Lemma filter_ext_eq {A} (f g : A -> bool) (l : list A) :
  (forall x, f x = g x) -> List.filter f l = List.filter g l.
Proof. intros H. induction l as [|x l IH]; simpl; [done|]. by rewrite H, IH. Qed.

#[export] Hint Resolve filter_length_le sublist_map : bartr.
