(* ===== verification/JsString.v ===== *)
(** * JsString: the ECMAScript string built-ins the screens call

    [String.prototype.trim] (CreatePost.tsx lines 49 and 57) removes the
    longest prefix and the longest suffix made of WhiteSpace and
    LineTerminator code points (ECMA-262, TrimString).  Every such code point
    lies in the Basic Multilingual Plane, so the code-unit view of [jsstr]
    gives the same result.  [charAt(0)] (Home.tsx line 132, Notifications.tsx
    line 155) is the first code unit, or the empty string.  These are models
    of the language's library, not of the repository's code. *)

From Stdlib Require Import ZArith Lia DecimalString.
From stdpp Require Import base list decidable.
From S2P Require Import Prelude.

(** WhiteSpace: TAB, VT, FF, ZWNBSP and the Zs category (SPACE, NBSP,
    OGHAM SPACE MARK, U+2000..U+200A, NNBSP, MMSP, IDEOGRAPHIC SPACE);
    LineTerminator: LF, CR, LS, PS. *)
Definition is_js_space (c : Z) : bool :=
  ((c =? 9) || (c =? 11) || (c =? 12) || (c =? 32) || (c =? 160)
  || (c =? 0xFEFF) || (c =? 0x1680) || ((0x2000 <=? c) && (c <=? 0x200A))
  || (c =? 0x202F) || (c =? 0x205F) || (c =? 0x3000)
  || (c =? 10) || (c =? 13) || (c =? 0x2028) || (c =? 0x2029))%Z.

(** Drop the longest prefix of white space. *)
Fixpoint trim_start (s : jsstr) : jsstr :=
  match s with
  | [] => []
  | c :: s' => if is_js_space c then trim_start s' else s
  end.

(** Drop the longest suffix of white space. *)
Definition trim_end (s : jsstr) : jsstr := rev (trim_start (rev s)).

(** [s.trim()] *)
Definition trim (s : jsstr) : jsstr := trim_end (trim_start s).

(** [s.charAt(0)] *)
Definition charAt0 (s : jsstr) : jsstr :=
  match s with
  | [] => []
  | c :: _ => [c]
  end.

(** [String(n)] for a non-negative integer [n] (a length in the code):
    its decimal digits. *)
Definition js_of_nat (n : nat) : jsstr := js (NilZero.string_of_uint (Nat.to_uint n)).

(** ** Lemmas *)




(** [trim_start] removes a prefix of white space and stops at the first
    code unit that is not white space. *)
Lemma trim_start_spec s :
  exists p, s = p ++ trim_start s /\ Forall (fun c => is_js_space c = true) p /\
    match trim_start s with [] => True | c :: _ => is_js_space c = false end.
Proof.
  induction s as [|c s IH]; simpl.
  - by exists [].
  - destruct (is_js_space c) eqn:Hc.
    + destruct IH as (p & Hs & Hp & Hh). exists (c :: p). rewrite Hs at 1. auto.
    + exists []. auto.
Qed.

Lemma trim_start_all_space s :
  trim_start s = [] <-> Forall (fun c => is_js_space c = true) s.
Proof.
  induction s as [|c s IH]; simpl; [split; auto|].
  rewrite Forall_cons_iff. destruct (is_js_space c) eqn:Hc.
  - rewrite IH. tauto.
  - split; [discriminate|intros [? _]; congruence].
Qed.

Lemma trim_start_app_nonspace p s :
  Forall (fun c => is_js_space c = true) p -> trim_start (p ++ s) = trim_start s.
Proof. induction 1 as [|c p Hc _ IH]; simpl; [done|]. by rewrite Hc. Qed.

Lemma trim_start_length s : length (trim_start s) <= length s.
Proof. induction s as [|c s IH]; simpl; [lia|]. destruct (is_js_space c); simpl; lia. Qed.

Lemma trim_start_idem s : trim_start (trim_start s) = trim_start s.
Proof.
  induction s as [|c s IH]; simpl; [done|].
  destruct (is_js_space c) eqn:Hc; [done|]. simpl. by rewrite Hc.
Qed.

Lemma trim_length s : length (trim s) <= length s.
Proof.
  unfold trim, trim_end. rewrite length_rev.
  pose proof (trim_start_length (rev (trim_start s))).
  pose proof (trim_start_length s). rewrite length_rev in *. lia.
Qed.

(** [trim] yields the empty string exactly on all-white-space input: the
    condition [!description.trim()] of CreatePost. *)
Lemma trim_nil_iff s : trim s = [] <-> Forall (fun c => is_js_space c = true) s.
Proof.
  unfold trim, trim_end.
  split.
  - intros H. apply (f_equal (@rev Z)) in H. rewrite rev_involutive in H. simpl in H.
    apply trim_start_all_space, Forall_rev in H. rewrite rev_involutive in H.
    destruct (trim_start_spec s) as (p & Hs & Hp & _). rewrite Hs.
    apply Forall_app; split; auto.
  - intros H. apply trim_start_all_space in H. by rewrite H.
Qed.

(** [trim] yields a non-empty string exactly when some code unit is not
    white space. *)
Lemma trim_nonnil_iff s : trim s <> [] <-> exists c, c ∈ s /\ is_js_space c = false.
Proof.
  rewrite trim_nil_iff. induction s as [|c s IH].
  - split; [intros H; exfalso; apply H; constructor|].
    intros (c & Hc & _). by apply not_elem_of_nil in Hc.
  - rewrite Forall_cons_iff. destruct (is_js_space c) eqn:Hc.
    + split.
      * intros H. destruct (proj1 IH) as (d & Hd & Hs); [tauto|].
        exists d. split; [by apply elem_of_cons; right|done].
      * intros (d & Hd & Hs) [_ Hf]. apply elem_of_cons in Hd as [->|Hd]; [congruence|].
        apply (proj2 IH); [|done]. by exists d.
    + split; [intros _; exists c; split; [apply elem_of_cons; by left|done]|].
      intros _ [H _]. congruence.
Qed.

(** A string that already begins and ends with non-white-space code units is
    its own trim. *)
Lemma trim_start_nonspace_head c s : is_js_space c = false -> trim_start (c :: s) = c :: s.
Proof. simpl. by intros ->. Qed.

Lemma trim_id c s d :
  is_js_space c = false -> is_js_space d = false -> trim (c :: s ++ [d]) = c :: s ++ [d].
Proof.
  intros Hc Hd. unfold trim, trim_end. rewrite trim_start_nonspace_head by done.
  rewrite app_comm_cons, rev_app_distr.
  change (rev [d] ++ rev (c :: s)) with (d :: rev (c :: s)).
  rewrite trim_start_nonspace_head by done.
  change (d :: rev (c :: s)) with ([d] ++ rev (c :: s)).
  by rewrite rev_app_distr, rev_involutive.
Qed.

#[export] Hint Resolve trim_length trim_start_length : bartr.
