(* ===== verification/JsDate.v ===== *)
(** * JsDate: [new Date(s).toLocaleDateString()] for date-only strings

    Profile.tsx line 250 renders [new Date(badge.earnedDate).toLocaleDateString()]
    for the ISO dates of [mockBadges] ("2024-01-15", ...).  ECMA-262 (Date
    Time String Format) reads a date-only form [YYYY-MM-DD] as midnight
    UTC; [toLocaleDateString] shows the calendar date of that instant in
    the host's time zone ([LocalTime(t) = t + offset]).  The time zone is a
    fixed offset in minutes east of UTC (no daylight saving change is near
    the dates of the code), and the format is the en-US one, [M/D/YYYY].

    Day numbers and calendar dates are converted by the closed forms of
    ECMA-262's [MakeDay] / [YearFromTime], [MonthFromTime], [DateFromTime]
    (proleptic Gregorian calendar, day 0 = 1970-01-01).  This is a model of
    the language's library, not of the repository's code. *)

From Stdlib Require Import ZArith Lia.
From stdpp Require Import base list decidable.
From S2P Require Import Prelude JsString.

Local Open Scope Z_scope.

Definition msPerDay : Z := 86400000.

Definition is_leap (y : Z) : bool := (y mod 4 =? 0) && (negb (y mod 100 =? 0) || (y mod 400 =? 0)).

Definition days_in_month (y m : Z) : Z :=
  if m =? 2 then (if is_leap y then 29 else 28)
  else if (m =? 4) || (m =? 6) || (m =? 9) || (m =? 11) then 30
  else 31.

Definition valid_date (y m d : Z) : bool :=
  (1 <=? m) && (m <=? 12) && (1 <=? d) && (d <=? days_in_month y m).

(** The day number of a calendar date (MakeDay). *)
Definition days_from_civil (y m d : Z) : Z :=
  let y' := if m <=? 2 then y - 1 else y in
  let era := y' / 400 in
  let yoe := y' - era * 400 in
  let mp := (m + 9) mod 12 in
  let doy := (153 * mp + 2) / 5 + d - 1 in
  let doe := yoe * 365 + yoe / 4 - yoe / 100 + doy in
  era * 146097 + doe - 719468.

(** The calendar date of a day number (YearFromTime, MonthFromTime, DateFromTime). *)
Definition civil_from_days (z : Z) : Z * Z * Z :=
  let z' := z + 719468 in
  let era := z' / 146097 in
  let doe := z' - era * 146097 in
  let yoe := (doe - doe / 1460 + doe / 36524 - doe / 146096) / 365 in
  let doy := doe - (365 * yoe + yoe / 4 - yoe / 100) in
  let mp := (5 * doy + 2) / 153 in
  let d := doy - (153 * mp + 2) / 5 + 1 in
  let m := if mp <? 10 then mp + 3 else mp - 9 in
  (if m <=? 2 then yoe + era * 400 + 1 else yoe + era * 400, m, d).

Definition digit (c : Z) : option Z := if (48 <=? c) && (c <=? 57) then Some (c - 48) else None.

Fixpoint digits_value (acc : Z) (l : jsstr) : option Z :=
  match l with
  | [] => Some acc
  | c :: l' => match digit c with Some v => digits_value (acc * 10 + v) l' | None => None end
  end.

(** [Date.parse] on the date-only form [YYYY-MM-DD]: its time value, or
    [None] (NaN) for any other string or an impossible date. *)
Definition parse_date_only (s : jsstr) : option Z :=
  match s with
  | [y1; y2; y3; y4; h1; m1; m2; h2; d1; d2] =>
      if (h1 =? 45) && (h2 =? 45) then
        match digits_value 0 [y1; y2; y3; y4], digits_value 0 [m1; m2], digits_value 0 [d1; d2] with
        | Some y, Some m, Some d =>
            if valid_date y m d then Some (days_from_civil y m d * msPerDay) else None
        | _, _, _ => None
        end
      else None
  | _ => None
  end.

Definition js_of_Z (z : Z) : jsstr :=
  if z <? 0 then js "-" ++ js_of_nat (Z.to_nat (- z)) else js_of_nat (Z.to_nat z).

(** en-US [M/D/YYYY]. *)
Definition format_en_US (ymd : Z * Z * Z) : jsstr :=
  let '(y, m, d) := ymd in js_of_Z m ++ js "/" ++ js_of_Z d ++ js "/" ++ js_of_Z y.

(** [toLocaleDateString()] of a time value in a zone [offset] minutes east of UTC. *)
Definition toLocaleDateString (offset : Z) (t : option Z) : jsstr :=
  match t with
  | None => js "Invalid Date"
  | Some t => format_en_US (civil_from_days ((t + offset * 60000) / msPerDay))
  end.

(** [new Date(s).toLocaleDateString()] *)
Definition date_string_locale (offset : Z) (s : jsstr) : jsstr :=
  toLocaleDateString offset (parse_date_only s).

(** ** Laws *)

(** The next day of the month is the next day number. *)
Lemma days_from_civil_succ y m d : days_from_civil y m (d + 1) = days_from_civil y m d + 1.
Proof. unfold days_from_civil. lia. Qed.

(** A zone west of UTC (less than a day) sees a UTC midnight on the
    previous local day; a zone east of it, or UTC, on the same day. *)
Lemma local_day D offset :
  -1440 < offset < 1440 ->
  (D * msPerDay + offset * 60000) / msPerDay = if offset <? 0 then D - 1 else D.
Proof.
  intros Ho. unfold msPerDay. destruct (offset <? 0) eqn:Hs.
  - apply Z.ltb_lt in Hs. symmetry. apply Z.div_unique with (r := 86400000 + offset * 60000); lia.
  - apply Z.ltb_ge in Hs. symmetry. apply Z.div_unique with (r := offset * 60000); lia.
Qed.

(** The dates checked by [roundtrip_range]. *)
Definition dates_in (y0 n : Z) : list (Z * Z * Z) :=
  y ← (fun k => y0 + Z.of_nat k) <$> seq 0 (Z.to_nat n);
  m ← (fun k => 1 + Z.of_nat k) <$> seq 0 12;
  d ← (fun k => 1 + Z.of_nat k) <$> seq 0 (Z.to_nat (days_in_month y m));
  mret (y, m, d).

Lemma elem_of_dates_in y0 n y m d :
  y0 <= y < y0 + n -> valid_date y m d = true -> (y, m, d) ∈ dates_in y0 n.
Proof.
  intros Hy Hv. unfold valid_date in Hv. rewrite !andb_true_iff, !Z.leb_le in Hv.
  destruct Hv as [[[? ?] ?] ?].
  unfold dates_in. apply list_elem_of_bind. exists y. split.
  2:{ apply list_elem_of_fmap. exists (Z.to_nat (y - y0)). split; [lia|]. apply elem_of_seq. lia. }
  apply list_elem_of_bind. exists m. split.
  2:{ apply list_elem_of_fmap. exists (Z.to_nat (m - 1)). split; [lia|]. apply elem_of_seq. lia. }
  apply list_elem_of_bind. exists d. split; [by apply list_elem_of_ret|].
  apply list_elem_of_fmap. exists (Z.to_nat (d - 1)). split; [lia|]. apply elem_of_seq. lia.
Qed.

Definition roundtrip_range (y0 n : Z) : bool :=
  forallb (fun '(y, m, d) => bool_decide (civil_from_days (days_from_civil y m d) = (y, m, d)))
    (dates_in y0 n).

Lemma roundtrip_range_spec y0 n y m d :
  roundtrip_range y0 n = true -> y0 <= y < y0 + n -> valid_date y m d = true ->
  civil_from_days (days_from_civil y m d) = (y, m, d).
Proof.
  intros Hr Hy Hv. unfold roundtrip_range in Hr. rewrite forallb_forall in Hr.
  specialize (Hr (y, m, d) (proj1 (list_elem_of_In _ _) (elem_of_dates_in y0 n y m d Hy Hv))).
  by apply bool_decide_eq_true in Hr.
Qed.

(** The two conversions are inverse on every valid date of the years
    2000-2099 (those of the code), checked by evaluation. *)
Lemma civil_from_days_roundtrip y m d :
  2000 <= y < 2100 -> valid_date y m d = true -> civil_from_days (days_from_civil y m d) = (y, m, d).
Proof. intros Hy. apply (roundtrip_range_spec 2000 100); [vm_compute; reflexivity|lia]. Qed.

(** A date-only string shows its own date east of UTC and the day before
    west of it. *)
Lemma date_string_locale_parsed offset s D :
  -1440 < offset < 1440 -> parse_date_only s = Some (D * msPerDay) ->
  date_string_locale offset s = format_en_US (civil_from_days (if offset <? 0 then D - 1 else D)).
Proof. intros Ho Hp. unfold date_string_locale, toLocaleDateString. rewrite Hp, local_day by done. done. Qed.
