(* ===== verification/DataUrl.v ===== *)
(** * DataUrl: the result of [FileReader.readAsDataURL] and its decoding

    CreatePost.tsx (lines 40-44) reads the picked file with
    [readAsDataURL] and stores [e.target.result] as [imagePreview], which
    the [<img src>] of line 147 displays.  The result is the data URL
    [data:<type>;base64,<bytes>] (File API, RFC 2397); [base64] is the
    RFC 4648 encoding with padding.  [parse_data_url] is the inverse an
    image element applies: it strips the scheme, splits the media type at
    its [;], and decodes the base64 digits, failing ([None]) on anything
    malformed.  This is a model of the host, not of the repository's
    code. *)

From Stdlib Require Import ZArith Lia.
From stdpp Require Import base list decidable.
From S2P Require Import Prelude.

Local Open Scope Z_scope.

(** ** Encoding *)

Definition b64_digit (n : Z) : Z :=
  (if n <? 26 then 65 + n
   else if n <? 52 then 97 + (n - 26)
   else if n <? 62 then 48 + (n - 52)
   else if n =? 62 then 43 else 47)%Z.

(** Three bytes make four digits; a last group of one or two bytes is
    padded with [=]. *)
Fixpoint base64 (bs : list Z) : jsstr :=
  match bs with
  | a :: b :: c :: rest =>
      [b64_digit (Z.shiftr a 2);
       b64_digit (Z.lor (Z.shiftl (Z.land a 3) 4) (Z.shiftr b 4));
       b64_digit (Z.lor (Z.shiftl (Z.land b 15) 2) (Z.shiftr c 6));
       b64_digit (Z.land c 63)] ++ base64 rest
  | [a; b] =>
      [b64_digit (Z.shiftr a 2);
       b64_digit (Z.lor (Z.shiftl (Z.land a 3) 4) (Z.shiftr b 4));
       b64_digit (Z.shiftl (Z.land b 15) 2); 61%Z]
  | [a] => [b64_digit (Z.shiftr a 2); b64_digit (Z.shiftl (Z.land a 3) 4); 61%Z; 61%Z]
  | [] => []
  end.

(** The [result] of [readAsDataURL(f)]: [data:<type>;base64,<bytes>]. *)
Definition data_url (f : file) : jsstr :=
  js "data:" ++ file_type f ++ js ";base64," ++ base64 (file_bytes f).


(** Base64 output has four digits per started group of three bytes. *)
Lemma length_base64 bs : length (base64 bs) = (4 * ((length bs + 2) / 3))%nat.
Proof.
  induction bs as [bs IH] using (induction_ltof1 _ (@length Z)); unfold ltof in IH.
  destruct bs as [|a [|b [|c rest]]]; try reflexivity.
  cbn [base64]. rewrite length_app, IH by (simpl; lia). cbn [length].
  assert (Hd : ((S (S (S (length rest))) + 2) / 3 = (length rest + 2) / 3 + 1)%nat).
  { rewrite <- (Nat.div_add (length rest + 2) 1 3) by lia. f_equal. lia. }
  rewrite Hd. lia.
Qed.
(** ** Decoding *)

(** The value of a base64 digit; [=] and anything else is not a digit. *)
Definition b64_value (c : Z) : option Z :=
  if (65 <=? c) && (c <=? 90) then Some (c - 65)
  else if (97 <=? c) && (c <=? 122) then Some (c - 71)
  else if (48 <=? c) && (c <=? 57) then Some (c + 4)
  else if c =? 43 then Some 62
  else if c =? 47 then Some 63
  else None.

(** Four digits give three bytes; [xx==] and [xxx=] end the input with one
    or two bytes. *)
Fixpoint unbase64 (s : jsstr) : option (list Z) :=
  match s with
  | [] => Some []
  | c1 :: c2 :: c3 :: c4 :: rest =>
      match b64_value c1, b64_value c2 with
      | Some v1, Some v2 =>
          let a := v1 * 4 + v2 / 16 in
          if (c3 =? 61) && (c4 =? 61) then (if rest is [] then Some [a] else None)
          else match b64_value c3 with
               | Some v3 =>
                   let b := (v2 mod 16) * 16 + v3 / 4 in
                   if c4 =? 61 then (if rest is [] then Some [a; b] else None)
                   else match b64_value c4, unbase64 rest with
                        | Some v4, Some bs => Some (a :: b :: ((v3 mod 4) * 64 + v4) :: bs)
                        | _, _ => None
                        end
               | None => None
               end
      | _, _ => None
      end
  | _ => None
  end.

Fixpoint strip_prefix (p s : jsstr) : option jsstr :=
  match p, s with
  | [], _ => Some s
  | c :: p', d :: s' => if c =? d then strip_prefix p' s' else None
  | _ :: _, [] => None
  end.

(** The code units before the first [c], and the rest from [c] on. *)
Fixpoint split_at (c : Z) (s : jsstr) : jsstr * jsstr :=
  match s with
  | [] => ([], [])
  | d :: s' => if d =? c then ([], s) else let '(t, r) := split_at c s' in (d :: t, r)
  end.

Definition parse_data_url (s : jsstr) : option (jsstr * list Z) :=
  match strip_prefix (js "data:") s with
  | Some r =>
      let '(ty, rest) := split_at 59 r in
      match strip_prefix (js ";base64,") rest with
      | Some b => match unbase64 b with Some bs => Some (ty, bs) | None => None end
      | None => None
      end
  | None => None
  end.

(** A file as a picker delivers it: bytes, and a media type without [;]. *)
Definition byte_ok (b : Z) : Prop := 0 <= b < 256.

Definition file_ok (f : file) : Prop := (59 ∉ file_type f) /\ Forall byte_ok (file_bytes f).

(** ** Round trip *)

(** A property of the integers of [lo, lo + n) checked by evaluation. *)
Lemma range_check (P : Z -> bool) lo n :
  forallb P ((fun k => lo + Z.of_nat k) <$> seq 0 n) = true -> forall z, lo <= z < lo + Z.of_nat n -> P z = true.
Proof.
  intros H z Hz. rewrite forallb_forall in H. apply H, list_elem_of_In, list_elem_of_fmap.
  exists (Z.to_nat (z - lo)). split; [lia|]. apply elem_of_seq. lia.
Qed.

Lemma b64_value_digit n : 0 <= n < 64 -> b64_value (b64_digit n) = Some n.
Proof.
  intros Hn.
  pose proof (range_check (fun n => match b64_value (b64_digit n) with Some m => m =? n | None => false end)
                0 64%nat ltac:(vm_compute; reflexivity) n ltac:(lia)) as H.
  cbv beta in H. destruct (b64_value (b64_digit n)); [apply Z.eqb_eq in H; congruence|discriminate].
Qed.

Lemma b64_digit_not_pad n : 0 <= n < 64 -> (b64_digit n =? 61) = false.
Proof.
  intros Hn. apply Z.eqb_neq. intros H. pose proof (b64_value_digit n Hn) as Hv.
  rewrite H in Hv. discriminate.
Qed.

(** Two bit fields side by side are their sum. *)
Lemma lor_shiftl_4 x y : 0 <= x < 4 -> 0 <= y < 16 -> Z.lor (Z.shiftl x 4) y = x * 16 + y.
Proof.
  intros Hx Hy.
  assert (Hc : forallb (fun x => forallb (fun y => Z.lor (Z.shiftl x 4) y =? x * 16 + y)
                 ((fun k => 0 + Z.of_nat k) <$> seq 0 16%nat)) ((fun k => 0 + Z.of_nat k) <$> seq 0 4%nat) = true)
    by (vm_compute; reflexivity).
  pose proof (range_check _ 0 4%nat Hc x ltac:(lia)) as H. cbv beta in H. apply Z.eqb_eq.
  apply (range_check (fun y => Z.lor (Z.shiftl x 4) y =? x * 16 + y) 0 16%nat); [exact H|lia].
Qed.

Lemma lor_shiftl_2 x y : 0 <= x < 16 -> 0 <= y < 4 -> Z.lor (Z.shiftl x 2) y = x * 4 + y.
Proof.
  intros Hx Hy.
  assert (Hc : forallb (fun x => forallb (fun y => Z.lor (Z.shiftl x 2) y =? x * 4 + y)
                 ((fun k => 0 + Z.of_nat k) <$> seq 0 4%nat)) ((fun k => 0 + Z.of_nat k) <$> seq 0 16%nat) = true)
    by (vm_compute; reflexivity).
  pose proof (range_check _ 0 16%nat Hc x ltac:(lia)) as H. cbv beta in H. apply Z.eqb_eq.
  apply (range_check (fun y => Z.lor (Z.shiftl x 2) y =? x * 4 + y) 0 4%nat); [exact H|lia].
Qed.

Lemma shiftr_div a k : 0 <= k -> Z.shiftr a k = a / 2 ^ k.
Proof. apply Z.shiftr_div_pow2. Qed.

Lemma land_mod a k : 0 <= k -> Z.land a (Z.ones k) = a mod 2 ^ k.
Proof. apply Z.land_ones. Qed.

Lemma shiftl_mul a k : 0 <= k -> Z.shiftl a k = a * 2 ^ k.
Proof. apply Z.shiftl_mul_pow2. Qed.

(** Shifts and masks of a byte as divisions and remainders. *)
Lemma byte_fields x k : 0 <= k -> Z.shiftr x k = x / 2 ^ k /\ Z.land x (Z.ones k) = x mod 2 ^ k.
Proof. intros Hk. split; [by apply shiftr_div|by apply land_mod]. Qed.

(** The digits of a group of three bytes, as numbers. *)
Lemma group_digits a b c :
  byte_ok a -> byte_ok b -> byte_ok c ->
  Z.shiftr a 2 = a / 4 /\
  Z.lor (Z.shiftl (Z.land a 3) 4) (Z.shiftr b 4) = (a mod 4) * 16 + b / 16 /\
  Z.lor (Z.shiftl (Z.land b 15) 2) (Z.shiftr c 6) = (b mod 16) * 4 + c / 64 /\
  Z.land c 63 = c mod 64 /\
  Z.shiftl (Z.land a 3) 4 = (a mod 4) * 16 /\ Z.shiftl (Z.land b 15) 2 = (b mod 16) * 4.
Proof.
  unfold byte_ok. intros Ha Hb Hc.
  destruct (byte_fields a 2) as [Ea1 Ea2]; [lia|]. destruct (byte_fields b 4) as [Eb1 Eb2]; [lia|].
  destruct (byte_fields c 6) as [Ec1 Ec2]; [lia|].
  change (Z.ones 2) with 3 in Ea2. change (Z.ones 4) with 15 in Eb2. change (Z.ones 6) with 63 in Ec2.
  change (2 ^ 2) with 4 in Ea1, Ea2. change (2 ^ 4) with 16 in Eb1, Eb2. change (2 ^ 6) with 64 in Ec1, Ec2.
  rewrite Ea1, Ea2, Eb1, Eb2, Ec1, Ec2, lor_shiftl_4, lor_shiftl_2, !shiftl_mul by zlia.
  change (2 ^ 4) with 16. change (2 ^ 2) with 4. repeat split; lia.
Qed.

Lemma digit_range_1 a : byte_ok a -> 0 <= a / 4 < 64.
Proof. unfold byte_ok. zlia. Qed.

Lemma digit_range_2 a b : byte_ok a -> byte_ok b -> 0 <= (a mod 4) * 16 + b / 16 < 64.
Proof. unfold byte_ok. zlia. Qed.

Lemma digit_range_3 b c : byte_ok b -> byte_ok c -> 0 <= (b mod 16) * 4 + c / 64 < 64.
Proof. unfold byte_ok. zlia. Qed.

Lemma digit_range_4 c : 0 <= c mod 64 < 64.
Proof. zlia. Qed.

(** Decoding the base64 of bytes gives the bytes back. *)
Lemma unbase64_base64 bs : Forall byte_ok bs -> unbase64 (base64 bs) = Some bs.
Proof.
  induction bs as [bs IH] using (induction_ltof1 _ (@length Z)); unfold ltof in IH.
  intros Hf. destruct bs as [|a [|b [|c rest]]]; [reflexivity|..].
  - apply Forall_cons_iff in Hf as [Ha _].
    destruct (group_digits a 0 0 Ha) as (E1 & _ & _ & _ & E5 & _); [unfold byte_ok; lia..|].
    cbn [base64]. rewrite E1, E5. cbn [unbase64].
    rewrite (b64_value_digit (a / 4)) by (by apply digit_range_1).
    rewrite (b64_value_digit ((a mod 4) * 16)) by (unfold byte_ok in *; zlia).
    rewrite Z.eqb_refl. cbn.
    do 2 f_equal. unfold byte_ok in Ha. zlia.
  - apply Forall_cons_iff in Hf as [Ha Hf]. apply Forall_cons_iff in Hf as [Hb _].
    destruct (group_digits a b 0 Ha Hb) as (E1 & E2 & _ & _ & _ & E6); [unfold byte_ok; lia|].
    cbn [base64]. rewrite E1, E2, E6. cbn [unbase64].
    rewrite (b64_value_digit (a / 4)) by (by apply digit_range_1).
    rewrite (b64_value_digit ((a mod 4) * 16 + b / 16)) by (by apply digit_range_2).
    rewrite (b64_digit_not_pad ((b mod 16) * 4)) by (unfold byte_ok in *; zlia).
    rewrite (b64_value_digit ((b mod 16) * 4)) by (unfold byte_ok in *; zlia).
    rewrite Z.eqb_refl. cbn. unfold byte_ok in *. do 3 f_equal; zlia.
  - apply Forall_cons_iff in Hf as [Ha Hf]. apply Forall_cons_iff in Hf as [Hb Hf].
    apply Forall_cons_iff in Hf as [Hc Hf].
    destruct (group_digits a b c Ha Hb Hc) as (E1 & E2 & E3 & E4 & _ & _).
    cbn [base64 app]. rewrite E1, E2, E3, E4. cbn [unbase64].
    rewrite (b64_value_digit (a / 4)) by (by apply digit_range_1).
    rewrite (b64_value_digit ((a mod 4) * 16 + b / 16)) by (by apply digit_range_2).
    rewrite (b64_digit_not_pad ((b mod 16) * 4 + c / 64)) by (by apply digit_range_3).
    rewrite (b64_value_digit ((b mod 16) * 4 + c / 64)) by (by apply digit_range_3).
    rewrite (b64_digit_not_pad (c mod 64)) by (apply digit_range_4).
    rewrite (b64_value_digit (c mod 64)) by (apply digit_range_4).
    rewrite IH by (simpl; lia || done). cbn. unfold byte_ok in *. do 2 f_equal; [zlia|].
    f_equal; [zlia|]. f_equal. zlia.
Qed.

Lemma strip_prefix_app p s : strip_prefix p (p ++ s) = Some s.
Proof. induction p as [|c p IH]; simpl; [done|]. by rewrite Z.eqb_refl. Qed.

Lemma split_at_app c t s : c ∉ t -> split_at c (t ++ c :: s) = (t, c :: s).
Proof.
  induction t as [|d t IH]; simpl; intros Hc; [by rewrite Z.eqb_refl|].
  apply not_elem_of_cons in Hc as [Hd Hc].
  destruct (Z.eqb_spec d c) as [->|_]; [done|]. by rewrite IH.
Qed.

(** Reading back the data URL of a file gives its media type and bytes. *)
Lemma parse_data_url_roundtrip f :
  file_ok f -> parse_data_url (data_url f) = Some (file_type f, file_bytes f).
Proof.
  intros [Ht Hb]. unfold parse_data_url, data_url. rewrite strip_prefix_app.
  change (js ";base64,") with (59 :: js "base64,"). rewrite <- app_comm_cons, split_at_app by done.
  change (59 :: js "base64," ++ base64 (file_bytes f)) with (js ";base64," ++ base64 (file_bytes f)).
  by rewrite strip_prefix_app, unbase64_base64.
Qed.
