(* ===== verification/Regex.v ===== *)
(** * Regex: the fragment of ECMAScript regular expressions used by Login

    Login.tsx line 15 tests the phone number with [/^[6-9]\d{9}$/].  This
    file models the regular expressions built from the assertions [^] and
    [$] (no [m] flag: they hold only at the ends of the input), character
    classes of code-unit ranges ([\d] is [[0-9]]: ASCII digits only, as
    without the [u] flag), sequence, alternation and the exact quantifier
    [{n}].  The matcher follows the continuation-passing semantics of
    ECMA-262 (a matcher takes a position and a continuation), and [test]
    is [RegExp.prototype.test] for a non-global regex: try every start
    position from 0 to the length of the input. *)

From Stdlib Require Import ZArith Lia.
From stdpp Require Import base list decidable.
From S2P Require Import Prelude.

Inductive regex : Type :=
  | RBegin                          (** [^] *)
  | REnd                            (** [$] *)
  | RClass (ranges : list (Z * Z))  (** [[a-b...]]: one code unit in a range *)
  | RSeq (r1 r2 : regex)            (** [r1 r2] *)
  | RAlt (r1 r2 : regex)            (** [r1|r2] *)
  | RRepeat (r : regex) (n : nat).  (** [r{n}] *)

(** [\d] *)
Definition RDigit : regex := RClass [(48, 57)%Z].

Definition in_class (rs : list (Z * Z)) (c : Z) : bool :=
  existsb (fun '(lo, hi) => (lo <=? c) && (c <=? hi))%Z rs.

(** The matcher of [r] on input [s] at position [i] with continuation [k]. *)
Fixpoint matcher (r : regex) (s : jsstr) (i : nat) (k : nat -> bool) {struct r} : bool :=
  match r with
  | RBegin => (i =? 0) && k i
  | REnd => (i =? length s) && k i
  | RClass rs =>
      match s !! i with
      | Some c => in_class rs c && k (S i)
      | None => false
      end
  | RSeq r1 r2 => matcher r1 s i (fun j => matcher r2 s j k)
  | RAlt r1 r2 => matcher r1 s i k || matcher r2 s i k
  | RRepeat r' n =>
      (fix rep (n : nat) (j : nat) : bool :=
         match n with
         | 0 => k j
         | S n' => matcher r' s j (fun j' => rep n' j')
         end) n i
  end.

(** [re.test(s)] for a regex without the [g] and [y] flags. *)
Definition test (r : regex) (s : jsstr) : bool :=
  existsb (fun i => matcher r s i (fun _ => true)) (seq 0 (S (length s))).

(** ** Computing the matcher *)

Lemma matcher_repeat_S r n s i k :
  matcher (RRepeat r (S n)) s i k = matcher r s i (fun j => matcher (RRepeat r n) s j k).
Proof. reflexivity. Qed.

(** [n] repetitions of a one-code-unit class read the next [n] code units. *)
Lemma matcher_repeat_class rs n s i k :
  i <= length s ->
  matcher (RRepeat (RClass rs) n) s i k =
  bool_decide (i + n <= length s) && forallb (in_class rs) (take n (drop i s)) && k (i + n).
Proof.
  revert i. induction n as [|n IH]; intros i Hi.
  - simpl. rewrite bool_decide_true by lia. by rewrite Nat.add_0_r.
  - rewrite matcher_repeat_S. change (matcher (RClass rs) s i ?k') with
      (match s !! i with Some c => in_class rs c && k' (S i) | None => false end).
    destruct (s !! i) as [c|] eqn:E.
    + apply lookup_lt_Some in E as Hlt. rewrite (drop_S _ _ _ E). cbn [take forallb].
      rewrite IH by lia. replace (S i + n) with (i + S n) by lia.
      destruct (in_class rs c); simpl; [done|by rewrite !andb_false_r].
    + apply lookup_ge_None in E. rewrite bool_decide_false by lia. done.
Qed.

(** A regex that starts with [^] can only match at position 0. *)
Lemma test_begin r s : test (RSeq RBegin r) s = matcher r s 0 (fun _ => true).
Proof.
  unfold test. cbn [seq existsb].
  assert (Hrest : existsb (fun i => matcher (RSeq RBegin r) s i (fun _ => true))
                    (seq 1 (length s)) = false).
  { apply not_true_iff_false. rewrite existsb_exists. intros (i & Hin & Hm).
    apply in_seq in Hin. destruct i as [|i]; [lia|]. discriminate. }
  by rewrite Hrest, orb_false_r.
Qed.

Lemma matcher_end s i k : matcher REnd s i k = (i =? length s) && k i.
Proof. reflexivity. Qed.

Lemma matcher_class rs s i k :
  matcher (RClass rs) s i k =
  match s !! i with Some c => in_class rs c && k (S i) | None => false end.
Proof. reflexivity. Qed.

Lemma matcher_seq r1 r2 s i k :
  matcher (RSeq r1 r2) s i k = matcher r1 s i (fun j => matcher r2 s j k).
Proof. reflexivity. Qed.

Lemma in_class_range lo hi c : in_class [(lo, hi)] c = true <-> (lo <= c <= hi)%Z.
Proof. unfold in_class. simpl. rewrite orb_false_r, andb_true_iff, !Z.leb_le. done. Qed.

Lemma forallb_class_range lo hi l :
  forallb (in_class [(lo, hi)]) l = true <-> Forall (fun c => lo <= c <= hi)%Z l.
Proof.
  rewrite forallb_forall, Forall_forall.
  split; intros H c Hc; [apply in_class_range|apply in_class_range, H]; auto.
Qed.

#[export] Hint Rewrite matcher_seq matcher_end matcher_class test_begin : bartr_rw.
