(* ===== verification/ListStore.v ===== *)
(** * ListStore: the list-mutation pattern shared by Home and Notifications

    The screens keep an array of records with an [id] field in [useState]
    and replace it wholesale:
    - Home.tsx line 74: [posts.filter(post => post.id !== postId)];
    - Notifications.tsx lines 89-91:
      [notifications.map(n => n.id === id ? { ...n, isRead: true } : n)];
    - Notifications.tsx line 95: [notifications.map(n => ({ ...n, isRead: true }))].
    The interface [Keyed] is what these operations need of an element (its
    [id]); the laws below are proved once against it and instantiated for
    [Post] and [Notification] in their files. *)

From Stdlib Require Import ZArith Lia.
From stdpp Require Import base list decidable.
From S2P Require Import Prelude.

(** An element with a string key ([x.id]). *)
Class Keyed (A : Type) := key : A -> jsstr.

Section Store.
Context {A : Type} `{Keyed A}.

(** The ids of a collection, in order. *)
Definition ids (l : list A) : list jsstr := List.map key l.

(** [l.filter(x => x.id !== id)] *)
Definition removeById (id : jsstr) (l : list A) : list A :=
  List.filter (fun x => negb (jseqb (key x) id)) l.

(** [l.map(x => x.id === id ? f(x) : x)] *)
Definition updateById (id : jsstr) (f : A -> A) (l : list A) : list A :=
  List.map (fun x => if jseqb (key x) id then f x else x) l.

(** [l.map(x => f(x))] *)
Definition updateAll (f : A -> A) (l : list A) : list A := List.map f l.

(** ** Removal *)

Lemma removeById_sublist id l : removeById id l `sublist_of` l.
Proof.
  induction l as [|x l IH]; simpl; [constructor|].
  destruct (negb _); [by apply sublist_skip|by apply sublist_cons].
Qed.

Lemma elem_of_removeById x id l : x ∈ removeById id l <-> x ∈ l /\ key x <> id.
Proof.
  unfold removeById. rewrite !list_elem_of_In, filter_In, negb_true_iff, jseqb_false. done.
Qed.

Lemma removeById_absent id l : id ∉ ids l -> removeById id l = l.
Proof.
  intros Hn. apply filter_all_true, Forall_forall. intros x Hx.
  apply negb_true_iff, jseqb_false. intros <-. apply Hn.
  apply list_elem_of_In, in_map, Hx.
Qed.

Lemma removeById_gone id l : id ∉ ids (removeById id l).
Proof.
  unfold ids. rewrite list_elem_of_In, in_map_iff. intros (x & Hk & Hx).
  apply list_elem_of_In, elem_of_removeById in Hx. tauto.
Qed.

(** With unique ids, removing a present id drops exactly one element. *)
Lemma removeById_length_present id l :
  NoDup (ids l) -> id ∈ ids l -> S (length (removeById id l)) = length l.
Proof.
  induction l as [|x l IH]; simpl; intros Hnd Hin; [by apply not_elem_of_nil in Hin|].
  inversion Hnd as [|? ? Hx Hnd']; subst. apply elem_of_cons in Hin.
  destruct (jseqb (key x) id) eqn:E; simpl.
  - apply jseqb_true in E. subst id. by rewrite removeById_absent.
  - apply jseqb_false in E. destruct Hin as [->|Hin]; [done|]. by rewrite IH.
Qed.

Lemma removeById_NoDup id l : NoDup (ids l) -> NoDup (ids (removeById id l)).
Proof.
  induction l as [|x l IH]; simpl; [done|]. intros Hnd.
  inversion Hnd as [|? ? Hx Hnd']; subst.
  destruct (negb _); simpl; [|auto]. constructor; auto.
  intros Hin. apply Hx, list_elem_of_In.
  apply list_elem_of_In, in_map_iff in Hin as (y & Hy & Hin).
  apply list_elem_of_In, elem_of_removeById in Hin as [Hin _].
  rewrite <- Hy. apply in_map, list_elem_of_In, Hin.
Qed.

(** ** Removal of a set of ids *)

(** The abstract collection: [l] without the elements whose id is in [D]. *)
Definition without (D : list jsstr) (l : list A) : list A :=
  List.filter (fun x => negb (bool_decide (key x ∈ D))) l.

Lemma without_nil l : without [] l = l.
Proof. apply filter_all_true, Forall_forall. intros x _. by rewrite bool_decide_false by apply not_elem_of_nil. Qed.

Lemma removeById_without k D l : removeById k (without D l) = without (k :: D) l.
Proof.
  unfold removeById, without. rewrite filter_filter_and. apply filter_ext_eq. intros x.
  unfold jseqb. repeat case_bool_decide; simpl; try done; rewrite elem_of_cons in *; tauto.
Qed.

(** ** Update of one element *)

Lemma length_updateById id f l : length (updateById id f l) = length l.
Proof. apply length_map. Qed.

Lemma updateById_absent id f l : id ∉ ids l -> updateById id f l = l.
Proof.
  intros Hn. apply map_id_Forall, Forall_forall. intros x Hx.
  destruct (jseqb (key x) id) eqn:E; [|done].
  apply jseqb_true in E. subst id. exfalso. apply Hn, list_elem_of_In, in_map, Hx.
Qed.

Section KeyPreserving.
Variable f : A -> A.
Hypothesis f_key : forall x, key (f x) = key x.

Lemma ids_updateById id l : ids (updateById id f l) = ids l.
Proof.
  unfold ids, updateById. rewrite map_map. apply map_ext. intros x.
  destruct (jseqb (key x) id); auto.
Qed.

Lemma ids_updateAll l : ids (updateAll f l) = ids l.
Proof. unfold ids, updateAll. rewrite map_map. apply map_ext, f_key. Qed.

Hypothesis f_idem : forall x, f (f x) = f x.

(** Updating the ids [ks] one after the other patches exactly the elements
    whose id is among them. *)
Lemma fold_updateById ks l :
  fold_left (fun l k => updateById k f l) ks l =
  List.map (fun x => if bool_decide (key x ∈ ks) then f x else x) l.
Proof.
  revert l. induction ks as [|k ks IH]; intros l; cbn [fold_left].
  - symmetry. apply map_id_Forall, Forall_forall. intros x _.
    by rewrite bool_decide_false by apply not_elem_of_nil.
  - rewrite IH. unfold updateById. rewrite map_map. apply map_ext. intros x.
    destruct (jseqb (key x) k) eqn:E.
    + apply jseqb_true in E. rewrite f_key, f_idem.
      rewrite (bool_decide_true (key x ∈ k :: ks)) by (rewrite E; apply list_elem_of_here).
      by destruct (bool_decide (key x ∈ ks)).
    + apply jseqb_false in E. rewrite (bool_decide_ext (key x ∈ k :: ks) (key x ∈ ks)); [done|].
      rewrite elem_of_cons. tauto.
Qed.

(** The bulk update is the single update folded over the collection's ids. *)
Lemma updateAll_fold l : updateAll f l = fold_left (fun l k => updateById k f l) (ids l) l.
Proof.
  rewrite fold_updateById. unfold updateAll. apply map_ext_in. intros x Hx.
  rewrite bool_decide_true; [done|]. apply list_elem_of_In, in_map, Hx.
Qed.
End KeyPreserving.

(** ** The contracts of the operations *)

(** C18: On a collection with unique ids, [removeById] of a present id
    drops exactly that element and keeps the others in order; of an
    absent id it returns the collection unchanged. *)
Theorem removeById_contract id l :
  NoDup (ids l) ->
  (id ∈ ids l -> S (length (removeById id l)) = length l /\
                 removeById id l `sublist_of` l /\ id ∉ ids (removeById id l)) /\
  (id ∉ ids l -> removeById id l = l).
Proof.
  intros Hnd. split; [|apply removeById_absent].
  intros Hin. split; [by apply removeById_length_present|]. split; [apply removeById_sublist|].
  apply removeById_gone.
Qed.

End Store.

(** A keyed pair, for concrete runs. *)
#[local] Instance pair_keyed : Keyed (jsstr * Z) := fst.

Lemma removeById_contract_witness :
  (js "2" ∈ ids [(js "1", 0%Z); (js "2", 1%Z)] ->
     S (length (removeById (js "2") [(js "1", 0%Z); (js "2", 1%Z)])) = 2 /\
     removeById (js "2") [(js "1", 0%Z); (js "2", 1%Z)] `sublist_of` [(js "1", 0%Z); (js "2", 1%Z)] /\
     js "2" ∉ ids (removeById (js "2") [(js "1", 0%Z); (js "2", 1%Z)])) /\
  (js "2" ∉ ids [(js "1", 0%Z); (js "2", 1%Z)] ->
     removeById (js "2") [(js "1", 0%Z); (js "2", 1%Z)] = [(js "1", 0%Z); (js "2", 1%Z)]).
Proof.
  apply (removeById_contract (js "2") [(js "1", 0%Z); (js "2", 1%Z)]).
  apply (bool_decide_unpack _). vm_compute. reflexivity.
Defined.

#[export] Hint Resolve removeById_sublist removeById_gone removeById_NoDup : bartr.
#[export] Hint Rewrite @length_updateById : bartr_rw.
