(* ===== verification/View.v ===== *)
(** * View: what a screen renders, as far as it decides what the user can do

    A screen's JSX is modelled as a list of [node]s: text, images, boxes
    (a [div] with or without [onClick]), react-router [Link]s, [Button]s
    (with their [disabled] attribute and [onClick]), text inputs (with
    [value], [maxLength] and [onChange]), switches, selects and file inputs.
    Styling ([className]) and SVG icons are not modelled.  Handlers are
    values of the screen's action type [A].

    A user interaction targets a node by its path of child indices.  A click
    bubbles from the target to the root, collecting the [onClick] handlers
    on the way (innermost first) and the [to] of an enclosing [Link]; a click
    inside a disabled button is not dispatched at all.  A change event calls
    the [onChange] of its target; a text input never delivers a value longer
    than its [maxLength]. *)

From Stdlib Require Import ZArith Lia.
From stdpp Require Import base list decidable sets.
From S2P Require Import Prelude.

Inductive node (A : Type) : Type :=
  | NText (s : jsstr)
  | NImg (src : jsstr) (alt : jsstr)
  | NBox (onClick : option A) (kids : list (node A))
  | NLink (to : jsstr) (kids : list (node A))
  | NButton (disabled : bool) (onClick : option A) (kids : list (node A))
  | NInput (id : jsstr) (value : jsstr) (maxLength : option nat) (onChange : jsstr -> A)
  | NSwitch (checked : bool) (onChange : bool -> A)
  | NSelect (value : jsstr) (options : list jsstr) (onChange : jsstr -> A)
  | NFileInput (accept : jsstr) (onChange : option file -> A).

Arguments NText {A} s.
Arguments NImg {A} src alt.
Arguments NBox {A} onClick kids.
Arguments NLink {A} to kids.
Arguments NButton {A} disabled onClick kids.
Arguments NInput {A} id value maxLength onChange.
Arguments NSwitch {A} checked onChange.
Arguments NSelect {A} value options onChange.
Arguments NFileInput {A} accept onChange.

(** The events a user can cause. *)
Inductive uevent : Type :=
  | UClick
  | UInput (v : jsstr)
  | USwitch (b : bool)
  | USelect (v : jsstr)
  | UFile (f : option file).

#[export] Instance uevent_eq_dec : EqDecision uevent.
Proof. solve_decision. Defined.

(** What the dispatch of one event produces: the handlers to run, in order,
    and the target of the enclosing [Link], if any. *)
Record response (A : Type) : Type := mkResponse { handlers : list A; goto : option jsstr }.
Arguments mkResponse {A} handlers goto.
Arguments handlers {A} r.
Arguments goto {A} r.

Section Dispatch.
Context {A : Type}.

Definition children (n : node A) : list (node A) :=
  match n with
  | NBox _ k | NLink _ k | NButton _ _ k => k
  | _ => []
  end.

(** The event at its target, before bubbling. *)
Definition at_target (n : node A) (ev : uevent) : option (response A) :=
  match n, ev with
  | _, UClick => Some (mkResponse [] None)
  | NInput _ _ ml f, UInput v =>
      match ml with
      | Some m => if bool_decide (length v <= m) then Some (mkResponse [f v] None) else None
      | None => Some (mkResponse [f v] None)
      end
  | NSwitch _ f, USwitch b => Some (mkResponse [f b] None)
  | NSelect _ opts f, USelect v =>
      if bool_decide (v ∈ opts) then Some (mkResponse [f v] None) else None
  | NFileInput _ f, UFile fo => Some (mkResponse [f fo] None)
  | _, _ => None
  end.

(** A click passing through node [n] on its way up. *)
Definition bubble (n : node A) (r : response A) : option (response A) :=
  match n with
  | NButton true _ _ => None
  | NButton false (Some h) _ | NBox (Some h) _ => Some (mkResponse (handlers r ++ [h]) (goto r))
  | NLink to _ => Some (mkResponse (handlers r) (Some (default to (goto r))))
  | _ => Some r
  end.

Definition pass (ev : uevent) (n : node A) (r : response A) : option (response A) :=
  match ev, n with
  | UClick, _ => bubble n r
  | _, NButton true _ _ => None
  | _, _ => Some r
  end.

(** Dispatch of [ev] at [path] in the node list [ns]. *)
Fixpoint dispatch (ns : list (node A)) (path : list nat) (ev : uevent) : option (response A) :=
  match path with
  | [] => None
  | i :: p =>
      match ns !! i with
      | None => None
      | Some n =>
          match (match p with [] => at_target n ev | _ => dispatch (children n) p ev end) with
          | None => None
          | Some r => pass ev n r
          end
      end
  end.

(** ** The handlers a view offers *)

(** [offers_node n h]: some event dispatched inside [n] can run [h]. *)
Fixpoint offers_node (n : node A) (h : A) : Prop :=
  let offers_list := fix go (l : list (node A)) : Prop :=
    match l with [] => False | n' :: l' => offers_node n' h \/ go l' end in
  match n with
  | NText _ | NImg _ _ => False
  | NBox oh k => oh = Some h \/ offers_list k
  | NLink _ k => offers_list k
  | NButton true _ _ => False
  | NButton false oh k => oh = Some h \/ offers_list k
  | NInput _ _ ml f => exists v, h = f v /\ (forall m, ml = Some m -> length v <= m)
  | NSwitch _ f => exists b, h = f b
  | NSelect _ opts f => exists v, v ∈ opts /\ h = f v
  | NFileInput _ f => exists fo, h = f fo
  end.

Fixpoint offers (ns : list (node A)) (h : A) : Prop :=
  match ns with [] => False | n :: ns' => offers_node n h \/ offers ns' h end.

Lemma offers_lookup ns i n h : ns !! i = Some n -> offers_node n h -> offers ns h.
Proof.
  revert i. induction ns as [|n' ns IH]; intros [|i] Hi Hn; simpl in Hi; simplify_eq/=; auto.
  right. by eapply IH.
Qed.

Lemma offers_children n h :
  offers (children n) h -> (forall oh k, n <> NButton true oh k) -> offers_node n h.
Proof.
  intros Hk Hn.
  assert (Hl : forall l, offers l h ->
    (fix go (l : list (node A)) : Prop :=
       match l with [] => False | n' :: l' => offers_node n' h \/ go l' end) l).
  { induction l; simpl; tauto. }
  destruct n as [| |oh k|to k|[] oh k| | | |]; simpl in *;
    try done; try (right; by apply Hl); try (by apply Hl).
  exfalso. by apply (Hn oh k).
Qed.

Lemma at_target_offers n ev r h :
  at_target n ev = Some r -> h ∈ handlers r -> offers_node n h.
Proof.
  intros Ht Hh. destruct ev, n; simpl in Ht; try discriminate;
    try (injection Ht as <-; simpl in Hh; by apply not_elem_of_nil in Hh).
  - destruct maxLength as [m|].
    + case_bool_decide; [|discriminate]. injection Ht as <-. simpl in Hh.
      apply list_elem_of_singleton in Hh as ->. exists v. split; [done|]. by intros ? [= <-].
    + injection Ht as <-. apply list_elem_of_singleton in Hh as ->. exists v. by split.
  - injection Ht as <-. apply list_elem_of_singleton in Hh as ->. by exists b.
  - case_bool_decide; [|discriminate]. injection Ht as <-.
    apply list_elem_of_singleton in Hh as ->. by exists v.
  - injection Ht as <-. apply list_elem_of_singleton in Hh as ->. by exists f.
Qed.

Lemma pass_offers ev n r r' h :
  pass ev n r = Some r' -> h ∈ handlers r' ->
  h ∈ handlers r \/ (offers_node n h /\ forall oh k, n <> NButton true oh k).
Proof.
  intros Hp Hh. destruct ev; destruct n as [| |oh k|to k|[] oh k| | | |];
    simpl in Hp; try discriminate; try (injection Hp as <-; by left).
  all: try (destruct oh as [h'|]; injection Hp as <-; simpl in Hh;
    [apply elem_of_app in Hh as [Hh|Hh]; [by left|];
     apply list_elem_of_singleton in Hh as ->; right; split; [by left|done]
    |by left]).
Qed.

(** Every handler a dispatch runs is offered by the view. *)
Lemma dispatch_offers ns path ev r h :
  dispatch ns path ev = Some r -> h ∈ handlers r -> offers ns h.
Proof.
  revert ns r. induction path as [|i p IH]; intros ns r Hd Hh; simpl in Hd; [discriminate|].
  destruct (ns !! i) as [n|] eqn:Hi; [|discriminate].
  apply (offers_lookup _ _ _ _ Hi).
  destruct (match p with [] => at_target n ev | _ => dispatch (children n) p ev end)
    as [r0|] eqn:Hr0; [|discriminate].
  destruct (pass_offers ev n r0 r h Hd Hh) as [H0|[H0 _]]; [|done].
  destruct p as [|j p].
  - by eapply at_target_offers.
  - apply offers_children; [by eapply IH|].
    intros oh k ->. destruct ev; simpl in Hd; [|discriminate..].
    simpl in Hd. discriminate.
Qed.
End Dispatch.

(** ** At most one click handler per event

  In the screens of this code no element with an [onClick] contains
  another one, so an event runs at most one handler.  [nest_ok] checks
  this on a view. *)

Section Nesting.
Context {A : Type}.

Definition has_click (oh : option A) : bool := match oh with Some _ => true | None => false end.

Fixpoint no_click (n : node A) : bool :=
  match n with
  | NBox oh k | NButton _ oh k => negb (has_click oh) && forallb no_click k
  | NLink _ k => forallb no_click k
  | _ => true
  end.

Fixpoint nest_ok (n : node A) : bool :=
  match n with
  | NBox (Some _) k | NButton _ (Some _) k => forallb no_click k
  | NBox None k | NButton _ None k | NLink _ k => forallb nest_ok k
  | _ => true
  end.

Lemma lookup_forallb (f : node A -> bool) ns i n :
  forallb f ns = true -> ns !! i = Some n -> f n = true.
Proof.
  intros Hf Hi. rewrite forallb_forall in Hf. apply Hf, list_elem_of_In.
  by eapply list_elem_of_lookup_2.
Qed.

Lemma at_target_click (n : node A) : at_target n UClick = Some (mkResponse [] None).
Proof. by destruct n. Qed.

Lemma dispatch_no_click (ns : list (node A)) p r :
  forallb no_click ns = true -> dispatch ns p UClick = Some r -> handlers r = [].
Proof.
  revert ns r. induction p as [|i p IH]; intros ns r Hns Hd; simpl in Hd; [discriminate|].
  destruct (ns !! i) as [n|] eqn:Hi; [|discriminate].
  pose proof (lookup_forallb _ _ _ _ Hns Hi) as Hn.
  destruct (match p with [] => at_target n UClick | _ => dispatch (children n) p UClick end)
    as [r0|] eqn:Hr0; [|discriminate].
  assert (H0 : handlers r0 = []).
  { destruct p; [rewrite at_target_click in Hr0; by injection Hr0 as <-|].
    eapply IH; [|exact Hr0]. destruct n; simpl in Hn |- *; bool_to_prop; done. }
  destruct n as [| |[]|to k|[] [] k| | | |]; simpl in Hn, Hd; bool_to_prop;
    simplify_eq/=; done.
Qed.

(** A change event runs the handler of its target only. *)
Lemma dispatch_change (ns : list (node A)) p ev r :
  ev <> UClick -> dispatch ns p ev = Some r -> length (handlers r) <= 1.
Proof.
  intros Hev. revert ns r. induction p as [|i p IH]; intros ns r Hd; simpl in Hd; [discriminate|].
  destruct (ns !! i) as [n|]; [|discriminate].
  destruct (match p with [] => at_target n ev | _ => dispatch (children n) p ev end)
    as [r0|] eqn:Hr0; [|discriminate].
  assert (length (handlers r0) <= 1).
  { destruct p; [|by eapply IH].
    destruct ev, n; simpl in Hr0; try done; repeat case_match; simplify_eq/=; lia. }
  destruct ev; [done|..]; destruct n as [| | | |[] ? ?| | | |]; simpl in Hd; simplify_eq/=; done.
Qed.

(** One event runs at most one handler in a view whose elements satisfy [nest_ok]. *)
Lemma dispatch_single (ns : list (node A)) p ev r :
  forallb nest_ok ns = true -> dispatch ns p ev = Some r -> length (handlers r) <= 1.
Proof.
  intros Hns0 Hd0. destruct (decide (ev = UClick)) as [->|Hev]; [|by eapply dispatch_change].
  revert Hns0 Hd0.
  revert ns r. induction p as [|i p IH]; intros ns r Hns Hd; simpl in Hd; [discriminate|].
  destruct (ns !! i) as [n|] eqn:Hi; [|discriminate].
  pose proof (lookup_forallb _ _ _ _ Hns Hi) as Hn.
  destruct (match p with [] => at_target n UClick | _ => dispatch (children n) p UClick end)
    as [r0|] eqn:Hr0; [|discriminate].
  assert (Hsub : forallb no_click (children n) = true -> handlers r0 = []).
  { intros Hk. destruct p; [rewrite at_target_click in Hr0; by injection Hr0 as <-|].
    by eapply dispatch_no_click. }
  destruct n as [| |[h|] k|to k|[] [h|] k| | | |]; simpl in Hn, Hd, Hsub; simplify_eq/=;
    try (rewrite Hsub by done; simpl; lia);
    (destruct p; [simpl in Hr0; simplify_eq/=; lia|]);
    rewrite ?app_nil_r; by eapply IH.
Qed.
End Nesting.

(** ** Where a click can navigate *)

Section Links.
Context {A : Type}.

(** The [to] of the [Link]s of a node, in document order. *)
Fixpoint node_links (n : node A) : list jsstr :=
  match n with
  | NLink to k =>
      to :: (fix go (l : list (node A)) : list jsstr :=
               match l with [] => [] | n' :: l' => node_links n' ++ go l' end) k
  | NBox _ k | NButton _ _ k =>
      (fix go (l : list (node A)) : list jsstr :=
         match l with [] => [] | n' :: l' => node_links n' ++ go l' end) k
  | _ => []
  end.

Fixpoint links (ns : list (node A)) : list jsstr :=
  match ns with [] => [] | n :: ns' => node_links n ++ links ns' end.

(** The inner recursion of [node_links] is [links]. *)
Lemma links_fix k :
  (fix go (l : list (node A)) : list jsstr :=
     match l with [] => [] | n' :: l' => node_links n' ++ go l' end) k = links k.
Proof. induction k as [|m k IH]; simpl; [done|]. by rewrite IH. Qed.

Lemma links_app l1 l2 : links (l1 ++ l2) = links l1 ++ links l2.
Proof. induction l1 as [|n l1 IH]; simpl; [done|]. by rewrite IH, app_assoc. Qed.

Lemma links_map_nil {B} (f : B -> node A) l :
  (forall x, node_links (f x) = []) -> links (map f l) = [].
Proof. intros Hf. induction l as [|x l IH]; simpl; [done|]. by rewrite Hf, IH. Qed.

Lemma links_children n : links (children n) ⊆ node_links n.
Proof. destruct n; simpl; rewrite ?links_fix; set_solver. Qed.

Lemma links_lookup ns i n : ns !! i = Some n -> node_links n ⊆ links ns.
Proof.
  revert i. induction ns as [|m ns IH]; intros [|i] Hi; simplify_eq/=; [set_solver|].
  specialize (IH i Hi). set_solver.
Qed.

(** The target of a click's [Link] is the [to] of a link of the view. *)
Lemma dispatch_goto (ns : list (node A)) path ev r to :
  dispatch ns path ev = Some r -> goto r = Some to -> to ∈ links ns.
Proof.
  revert ns r. induction path as [|i p IH]; intros ns r Hd Hg; simpl in Hd; [discriminate|].
  destruct (ns !! i) as [n|] eqn:Hi; [|discriminate]. apply (links_lookup _ _ _ Hi).
  destruct (match p with [] => at_target n ev | _ => dispatch (children n) p ev end)
    as [r0|] eqn:Hr0; [|discriminate].
  assert (H0 : goto r0 = Some to -> to ∈ node_links n).
  { intros Hg0. destruct p as [|j p].
    - destruct ev, n; simpl in Hr0; repeat case_match; simplify_eq/=.
    - apply links_children. by eapply IH. }
  destruct ev; destruct n as [| |[]|to' k|[] [] k| | | |]; simpl in Hd; simplify_eq/=; auto.
  destruct (goto r0) as [x|]; simpl; [by apply H0|left].
Qed.
End Links.

(** ** A screen: its view, its handlers and its reachable states *)

Section Screen.
Context {S A : Type} (view : S -> list (node A)) (run : S -> A -> S * list effect) (init : S).

(** The handlers of one event, run in order; effects accumulate. *)
Definition run_list (s : S) (hs : list A) : S * list effect :=
  fold_left (fun acc h => let '(s1, e1) := acc in let '(s2, e2) := run s1 h in (s2, e1 ++ e2))
    hs (s, []).

(** A [Link] navigates after the handlers of the click have run. *)
Definition link_effect (g : option jsstr) : list effect :=
  match g with Some to => [Navigate to] | None => [] end.

(** The screen's reaction to one user event. *)
Definition react (s : S) (path : list nat) (ev : uevent) : option (S * list effect) :=
  match dispatch (view s) path ev with
  | None => None
  | Some r => let '(s', e) := run_list s (handlers r) in Some (s', e ++ link_effect (goto r))
  end.

(** The states of a mounted screen. *)
Inductive reach : S -> Prop :=
  | reach_init : reach init
  | reach_step s path ev s' e : reach s -> react s path ev = Some (s', e) -> reach s'.

Lemma run_list_nil s : run_list s [] = (s, []).
Proof. reflexivity. Qed.

Lemma run_list_single s h : run_list s [h] = run s h.
Proof. unfold run_list. simpl. by destruct (run s h). Qed.

Hypothesis view_nest : forall s, forallb nest_ok (view s) = true.

(** An event either runs no handler or exactly one handler offered by the view. *)
Lemma react_cases s path ev s' e :
  react s path ev = Some (s', e) ->
  exists r, dispatch (view s) path ev = Some r /\
    ((handlers r = [] /\ s' = s /\ e = link_effect (goto r)) \/
     (exists h, handlers r = [h] /\ offers (view s) h /\
        s' = fst (run s h) /\ e = snd (run s h) ++ link_effect (goto r))).
Proof.
  unfold react. destruct (dispatch (view s) path ev) as [r|] eqn:Hd; [|discriminate].
  intros Hr. exists r. split; [done|].
  pose proof (dispatch_single _ _ _ _ (view_nest s) Hd) as Hlen.
  destruct (handlers r) as [|h [|h' hs]] eqn:Hh; simpl in Hlen; [| |lia].
  - left. rewrite run_list_nil in Hr. by injection Hr as <- <-.
  - right. exists h. rewrite run_list_single in Hr. destruct (run s h) eqn:Hrun.
    injection Hr as <- <-. repeat split; auto.
    eapply dispatch_offers; [exact Hd|]. rewrite Hh. by apply list_elem_of_singleton.
Qed.

(** Every effect of an event comes from a handler the view offers or is
    the navigation of one of the view's links. *)
Lemma react_effects s path ev s' e x :
  react s path ev = Some (s', e) -> x ∈ e ->
  (exists h, offers (view s) h /\ x ∈ snd (run s h)) \/ (exists to, x = Navigate to /\ to ∈ links (view s)).
Proof.
  intros Hr Hx. destruct (react_cases _ _ _ _ _ Hr) as (r & Hd & [(_ & _ & ->)|(h & _ & Hh & _ & ->)]).
  2: apply elem_of_app in Hx as [Hx|Hx]; [left; by exists h|].
  all: destruct (goto r) as [to|] eqn:Hg; simpl in Hx; [|by apply not_elem_of_nil in Hx].
  all: apply list_elem_of_singleton in Hx as ->; right; exists to; split; [done|].
  all: by eapply dispatch_goto.
Qed.

Section Invariant.
Variable inv : S -> Prop.
Hypothesis inv_init : inv init.
Hypothesis inv_run : forall s h, inv s -> offers (view s) h -> inv (fst (run s h)).

Lemma react_inv s path ev s' e : inv s -> react s path ev = Some (s', e) -> inv s'.
Proof.
  intros Hs Hr. destruct (react_cases _ _ _ _ _ Hr) as (r & _ & [(_ & -> & _)|(h & _ & Hh & -> & _)]);
    auto.
Qed.

Lemma reach_inv s : reach s -> inv s.
Proof. induction 1; eauto using react_inv. Qed.
End Invariant.
End Screen.

(** ** What a view shows *)

Section Content.
Context {A : Type}.

(** The text nodes of a node, in document order. *)
Fixpoint node_texts (n : node A) : list jsstr :=
  match n with
  | NText s => [s]
  | NBox _ k | NLink _ k | NButton _ _ k =>
      (fix go (l : list (node A)) : list jsstr :=
         match l with [] => [] | n' :: l' => node_texts n' ++ go l' end) k
  | _ => []
  end.

(** The image sources of a node, in document order. *)
Fixpoint node_images (n : node A) : list jsstr :=
  match n with
  | NImg src _ => [src]
  | NBox _ k | NLink _ k | NButton _ _ k =>
      (fix go (l : list (node A)) : list jsstr :=
         match l with [] => [] | n' :: l' => node_images n' ++ go l' end) k
  | _ => []
  end.
End Content.
