(* ===== verification/Login.v ===== *)
(** * Login: src/client/pages/Login.tsx

    State (lines 9-12): the step ['phone' | 'otp'], the phone number, the
    OTP and the error messages.  [validatePhone] (lines 14-17) tests the
    regex [/^[6-9]\d{9}$/]; [handlePhoneSubmit] (lines 19-26) moves to the
    OTP step or sets the phone error; [handleOtpSubmit] (lines 28-36) sets
    the OTP error or leaves for [/home] with a full page load.  The view
    (lines 38-187) renders the phone form or the OTP form; its buttons are
    disabled unless the phone has 10 code units, resp. the OTP has 6. *)

From Stdlib Require Import ZArith Lia.
From stdpp Require Import base list decidable.
From S2P Require Import Prelude Regex View.

Module Login.

Inductive step_t : Type := StepPhone | StepOtp.

#[export] Instance step_eq_dec : EqDecision step_t.
Proof. solve_decision. Defined.

(** [{phone?: string, otp?: string}] *)
Record errors_t : Type := mkErrors { err_phone : option jsstr; err_otp : option jsstr }.

Definition no_errors : errors_t := mkErrors None None.

Record state : Type := mkState {
  step : step_t;
  phoneNumber : jsstr;
  otp : jsstr;
  errors : errors_t
}.

(** [useState('phone')], [useState('')], [useState('')], [useState({})] *)
Definition initial : state := mkState StepPhone [] [] no_errors.

Definition set_step (s : state) (v : step_t) : state :=
  mkState v (phoneNumber s) (otp s) (errors s).
Definition set_phoneNumber (s : state) (v : jsstr) : state :=
  mkState (step s) v (otp s) (errors s).
Definition set_otp (s : state) (v : jsstr) : state :=
  mkState (step s) (phoneNumber s) v (errors s).
Definition set_errors (s : state) (v : errors_t) : state :=
  mkState (step s) (phoneNumber s) (otp s) v.

(** [/^[6-9]\d{9}$/] *)
Definition phoneRegex : regex :=
  RSeq RBegin (RSeq (RClass [(54, 57)%Z]) (RSeq (RRepeat RDigit 9) REnd)).

Definition validatePhone (phone : jsstr) : bool := test phoneRegex phone.

Definition phone_error_msg : jsstr := js "Please enter a valid 10-digit mobile number".
Definition otp_error_msg : jsstr := js "Please enter a valid 6-digit OTP".

Definition handlePhoneSubmit (s : state) : state :=
  if negb (validatePhone (phoneNumber s)) then
    set_errors s (mkErrors (Some phone_error_msg) None)
  else
    set_step (set_errors s no_errors) StepOtp.

Definition handleOtpSubmit (s : state) : state * list effect :=
  if negb (length (otp s) =? 6) then
    (set_errors s (mkErrors None (Some otp_error_msg)), [])
  else
    (set_errors s no_errors, [AssignLocation (js "/home")]).

(** The handlers the view binds. *)
Inductive action : Type :=
  | SetPhoneNumber (v : jsstr)  (** [onChange={(e) => setPhoneNumber(e.target.value)}] *)
  | SetOtp (v : jsstr)          (** [onChange={(e) => setOtp(e.target.value)}] *)
  | PhoneSubmit                 (** [onClick={handlePhoneSubmit}] *)
  | OtpSubmit                   (** [onClick={handleOtpSubmit}] *)
  | Resend.                     (** [onClick={() => setStep('phone')}] *)

Definition run (s : state) (a : action) : state * list effect :=
  match a with
  | SetPhoneNumber v => (set_phoneNumber s v, [])
  | SetOtp v => (set_otp s v, [])
  | PhoneSubmit => (handlePhoneSubmit s, [])
  | OtpSubmit => handleOtpSubmit s
  | Resend => (set_step s StepPhone, [])
  end.

(** [{e && (<p>{e}</p>)}] for an optional message [e]. *)
Definition error_line (e : option jsstr) : list (node action) :=
  match e with
  | Some m => if truthy_str m then [NBox None [NText m]] else [NText m]
  | None => []
  end.

Definition phone_form (s : state) : node action :=
  NBox None [
    NBox None ([NText (js "Mobile Number");
                NBox None [NInput (js "phone") (phoneNumber s) (Some 10) SetPhoneNumber]]
               ++ error_line (err_phone (errors s)));
    NButton (negb (length (phoneNumber s) =? 10)) (Some PhoneSubmit) [NText (js "Send OTP")];
    NBox None [NBox None []; NText (js "OR"); NBox None []];
    NButton false None [NText (js "Continue with Google")]].

Definition otp_form (s : state) : node action :=
  NBox None [
    NBox None ([NText (js "Enter OTP");
                NInput (js "otp") (otp s) (Some 6) SetOtp]
               ++ error_line (err_otp (errors s)));
    NButton (negb (length (otp s) =? 6)) (Some OtpSubmit) [NText (js "Verify & Continue")];
    NBox None [NText (js "Didn't receive the code?");
               NButton false (Some Resend) [NText (js "Resend OTP")]]].

Definition view (s : state) : list (node action) :=
  [NBox None [
    (* header *)
    NBox None [NLink (js "/") [];
               NText (if step s is StepPhone then js "Welcome Back" else js "Verify OTP");
               NBox None []];
    (* logo *)
    NBox None [NBox None [];
               NText (if step s is StepPhone then js "Enter your mobile number to continue"
                      else js "We've sent a 6-digit code to +91 " ++ phoneNumber s)];
    (* form content *)
    NBox None [if step s is StepPhone then phone_form s else otp_form s;
               NBox None [NLink (js "/home") [NButton false None [NText (js "Skip for now")]]]];
    (* terms *)
    NBox None [NText (js "By continuing, you agree to our"); NText (js " ");
               NText (js "Terms of Service"); NText (js " and"); NText (js " ");
               NText (js "Privacy Policy")]]].

(** The states of a mounted Login screen. *)
Definition reachable : state -> Prop := reach view run initial.

(** ** Validation *)

(** C8: [validatePhone] accepts exactly the strings of ten code units whose
    first is one of 6-9 and whose nine others are ASCII digits: the regex
    [/^[6-9]\d{9}$/] tested by the backtracking matcher. *)
Theorem validatePhone_iff (s : jsstr) :
  validatePhone s = true <->
  length s = 10 /\ exists c t, s = c :: t /\ (54 <= c <= 57)%Z /\ Forall (fun d => 48 <= d <= 57)%Z t.
Proof.
  unfold validatePhone, phoneRegex, RDigit. rewrite test_begin, matcher_seq, matcher_class.
  destruct s as [|c t]; simpl (_ !! 0).
  - split; [discriminate|]. intros [H _]. discriminate.
  - rewrite matcher_seq, matcher_repeat_class by (simpl; lia). rewrite matcher_end.
    simpl (drop 1 _). rewrite drop_0. simpl length.
    split.
    + intros H. apply andb_prop in H as [Hc H].
      apply andb_prop in H as [[Hb Hd]%andb_prop [He _]%andb_prop].
      apply in_class_range in Hc. apply Nat.eqb_eq in He.
      rewrite take_ge in Hd by lia. apply forallb_class_range in Hd.
      split; [lia|]. eauto.
    + intros (Hlen & c' & t' & [= <- <-] & Hc & Hd). simpl in Hlen.
      rewrite take_ge by lia. apply in_class_range in Hc as ->.
      apply forallb_class_range in Hd as ->. rewrite bool_decide_true by lia.
      simpl in Hlen |- *. injection Hlen as ->. reflexivity.
Qed.
(** ** The view *)

Lemma login_view_nest s : forallb nest_ok (view s) = true.
Proof.
  destruct s as [st ph o [ep eo]]; unfold view, phone_form, otp_form, error_line.
  destruct st, ep, eo; simpl; repeat case_match; reflexivity.
Qed.

(** The handlers the Login view offers in each step. *)
Lemma login_view_offers s h :
  offers (view s) h ->
  (step s = StepPhone /\
    ((exists v, h = SetPhoneNumber v /\ length v <= 10) \/
     (h = PhoneSubmit /\ length (phoneNumber s) = 10))) \/
  (step s = StepOtp /\
    ((exists v, h = SetOtp v /\ length v <= 6) \/
     (h = OtpSubmit /\ length (otp s) = 6) \/ h = Resend)).
Proof.
  destruct s as [st ph o [ep eo]]; unfold view, phone_form, otp_form, error_line; simpl.
  destruct st; simpl; repeat case_match; simpl; bool_to_prop; intros Hoff;
    naive_solver.
Qed.
(** ** Invariant of the mounted screen *)

Definition login_inv (s : state) : Prop :=
  (step s = StepOtp -> validatePhone (phoneNumber s) = true) /\
  length (phoneNumber s) <= 10 /\ length (otp s) <= 6 /\
  (errors s = no_errors \/ (step s = StepPhone /\ errors s = mkErrors (Some phone_error_msg) None)).

Lemma login_inv_run s h : login_inv s -> offers (view s) h -> login_inv (fst (run s h)).
Proof.
  intros (Hv & Hp & Ho & He) Hoff. apply login_view_offers in Hoff.
  destruct s as [st ph o [ep eo]]; simpl in *.
  destruct Hoff as [(-> & [(v & -> & Hl)|(-> & Hl)]) | (-> & [(v & -> & Hl)|[(-> & Hl)| ->]])];
    unfold login_inv; simpl.
  - done.
  - unfold handlePhoneSubmit. simpl. destruct (validatePhone ph) eqn:E; simpl.
    + repeat split; auto; try lia; try discriminate; first [by left|by right].
    + repeat split; auto; try lia; try discriminate; first [by left|by right].
  - done.
  - unfold handleOtpSubmit. simpl. rewrite Hl. simpl. repeat split; auto; try lia; try discriminate; first [by left|by right].
  - destruct He as [He|[? _]]; [|discriminate]. repeat split; auto; try lia; try discriminate; first [by left|by right].
Qed.

Lemma reachable_inv s : reachable s -> login_inv s.
Proof.
  apply (reach_inv view run initial login_view_nest login_inv); [|exact login_inv_run].
  unfold login_inv. simpl. repeat split; [discriminate|lia|lia|by left].
Qed.

(** ** Behaviour of the buttons *)

(** The path of the "Send OTP" / "Verify & Continue" button, of the
    "Resend OTP" button and of the "Skip for now" link in the view. *)
Definition submit_button : list nat := [0; 2; 0; 1].
Definition resend_button : list nat := [0; 2; 0; 2; 1].
Definition skip_link : list nat := [0; 2; 1; 0; 0].
Definition phone_input : list nat := [0; 2; 0; 0; 1; 0].
Definition otp_input : list nat := [0; 2; 0; 0; 1].
Lemma react_submit_phone ph o e :
  react view run (mkState StepPhone ph o e) submit_button UClick =
  if length ph =? 10 then Some (handlePhoneSubmit (mkState StepPhone ph o e), []) else None.
Proof. unfold react. simpl. by destruct (length ph =? 10). Qed.

(** ** Properties *)

(** C9: In every state of the mounted Login screen, the OTP step is shown
    only for a phone number that passes [validatePhone]: the phone input
    is rendered only in the phone step and the step changes to OTP only
    after the regex test succeeds. *)
Theorem otp_step_requires_valid_phone s :
  reachable s -> step s = StepOtp -> validatePhone (phoneNumber s) = true.
Proof. intros Hr. apply (reachable_inv s Hr). Qed.

(** C27: The error state of every reachable Login screen: either no
    message is shown, or the phone step shows the phone message of
    [handlePhoneSubmit].  The OTP message of [handleOtpSubmit] is never
    set, since "Verify & Continue" is disabled exactly when
    [otp.length !== 6], the condition of that error branch, and the phone
    message never survives into the OTP step. *)
Theorem login_errors s :
  reachable s ->
  errors s = no_errors \/ (step s = StepPhone /\ errors s = mkErrors (Some phone_error_msg) None).
Proof. intros Hr. apply (reachable_inv s Hr). Qed.

(** C30: The [maxLength] attributes bound the inputs of every reachable
    state: at most 10 code units of phone number and 6 of OTP. *)
Theorem login_input_bounds s :
  reachable s -> length (phoneNumber s) <= 10 /\ length (otp s) <= 6.
Proof. intros Hr. pose proof (reachable_inv s Hr) as (_ & ? & ? & _). done. Qed.

(** C10: Clicking "Send OTP" in the phone step does nothing unless the
    number has 10 code units; then it moves to the OTP step with the errors
    cleared when [validatePhone] accepts the number, and otherwise stays in
    the phone step with the phone error message. *)
Theorem send_otp_click s :
  step s = StepPhone ->
  react view run s submit_button UClick =
  if length (phoneNumber s) =? 10 then
    if validatePhone (phoneNumber s)
    then Some (mkState StepOtp (phoneNumber s) (otp s) no_errors, [])
    else Some (mkState StepPhone (phoneNumber s) (otp s) (mkErrors (Some phone_error_msg) None), [])
  else None.
Proof.
  destruct s as [st ph o e]; simpl. intros ->. rewrite react_submit_phone.
  destruct (length ph =? 10); [|done]. unfold handlePhoneSubmit. simpl.
  by destruct (validatePhone ph).
Qed.

(** C11: Clicking "Verify & Continue" in the OTP step does nothing unless
    the OTP has 6 code units, whatever they are; then it clears the errors
    and assigns [window.location.href = '/home']. *)
Theorem verify_click s :
  step s = StepOtp ->
  react view run s submit_button UClick =
  if length (otp s) =? 6
  then Some (mkState StepOtp (phoneNumber s) (otp s) no_errors, [AssignLocation (js "/home")])
  else None.
Proof.
  destruct s as [st ph o e]; simpl. intros ->.
  unfold react, view, otp_form, run_list, run, handleOtpSubmit. simpl.
  destruct (length o =? 6) eqn:E; simpl; rewrite ?E; reflexivity.
Qed.

(** C31: "Resend OTP" returns to the phone step and keeps the phone number,
    the OTP already typed and the errors. *)
Theorem resend_click s :
  step s = StepOtp ->
  react view run s resend_button UClick =
  Some (mkState StepPhone (phoneNumber s) (otp s) (errors s), []).
Proof. destruct s as [st ph o e]; simpl. intros ->. reflexivity. Qed.

(** "Skip for now" navigates to [/home] in both steps and changes no
    state: skipping and a successful OTP both end on the home route. *)
Theorem skip_click s :
  react view run s skip_link UClick = Some (s, [Navigate (js "/home")]).
Proof. by destruct s as [[] ph o e]. Qed.

(** ** Concrete runs (Scenario C of the specification) *)

Definition typed (v : jsstr) : state := mkState StepPhone v [] no_errors.

Lemma reachable_typed v : length v <= 10 -> reachable (typed v).
Proof.
  intros Hv. eapply reach_step with (path := phone_input) (ev := UInput v); [apply reach_init|].
  unfold react. simpl. rewrite bool_decide_true by done. reflexivity.
Qed.

Lemma reachable_otp_step : reachable (mkState StepOtp (js "9876543210") [] no_errors).
Proof.
  eapply reach_step with (s := typed (js "9876543210")) (path := submit_button) (ev := UClick);
    [apply reachable_typed; simpl; lia|].
  unfold typed. rewrite react_submit_phone. vm_compute. reflexivity.
Qed.

Lemma otp_step_requires_valid_phone_witness :
  validatePhone (js "9876543210") = true.
Proof.
  exact (otp_step_requires_valid_phone _ reachable_otp_step eq_refl).
Defined.

Lemma login_errors_witness :
  no_errors = no_errors \/ (StepOtp = StepPhone /\ no_errors = mkErrors (Some phone_error_msg) None).
Proof. exact (login_errors _ reachable_otp_step). Defined.

Lemma login_input_bounds_witness :
  length (js "9876543210") <= 10 /\ length (@nil Z) <= 6.
Proof. exact (login_input_bounds _ reachable_otp_step). Defined.

(** Scenario C: 9876543210 moves to the OTP step; 1234567890 stays with
    the error message. *)
Lemma send_otp_click_witness :
  react view run (typed (js "9876543210")) submit_button UClick =
    Some (mkState StepOtp (js "9876543210") [] no_errors, []) /\
  react view run (typed (js "1234567890")) submit_button UClick =
    Some (mkState StepPhone (js "1234567890") [] (mkErrors (Some phone_error_msg) None), []).
Proof.
  split; [rewrite (send_otp_click (typed (js "9876543210")) eq_refl)
         |rewrite (send_otp_click (typed (js "1234567890")) eq_refl)]; vm_compute; reflexivity.
Defined.

Lemma verify_click_witness :
  react view run (mkState StepOtp (js "9876543210") (js "123456") no_errors) submit_button UClick =
    Some (mkState StepOtp (js "9876543210") (js "123456") no_errors, [AssignLocation (js "/home")]).
Proof.
  rewrite (verify_click (mkState StepOtp (js "9876543210") (js "123456") no_errors) eq_refl).
  reflexivity.
Defined.

Lemma resend_click_witness :
  react view run (mkState StepOtp (js "9876543210") (js "12") no_errors) resend_button UClick =
    Some (mkState StepPhone (js "9876543210") (js "12") no_errors, []).
Proof. exact (resend_click (mkState StepOtp (js "9876543210") (js "12") no_errors) eq_refl). Defined.
End Login.
