(* ===== verification/CreatePost.v ===== *)
(** * CreatePost: src/client/pages/CreatePost.tsx

    State (lines 19-23): the category (a string, [""] until one is chosen),
    the description, the anonymous flag, the selected image and its preview.
    [categories] (lines 25-34) is the table of the four options.
    [handleImageUpload] (lines 36-46) stores the first chosen file and
    starts a [FileReader] whose [onload] later sets the preview.
    [handleSubmit] (lines 48-55) returns when no category is chosen or the
    trimmed description is empty, and otherwise navigates to
    [/push-confirmation].  [isFormValid] (line 57) enables the submit button.
    The view is lines 59-199.

    The [FileReader]s started by the handler complete later, in any order:
    [world] pairs the screen state with the reads still pending, and
    [wstep] lets the user act or any pending read complete.  [fifo_step]
    is the same with the reads completing in the order they were started;
    under it the preview always ends as the data URL of the selected image,
    which [DataUrl.parse_data_url] decodes back to that file. *)

From Stdlib Require Import ZArith Lia.
From stdpp Require Import base list decidable relations.
From S2P Require Import Prelude JsString DataUrl View.

Module CreatePost.

Record state : Type := mkState {
  category : jsstr;
  description : jsstr;
  isAnonymous : bool;
  selectedImage : option file;
  imagePreview : jsstr
}.

(** [useState("")], [useState("")], [useState(false)], [useState(null)], [useState("")] *)
Definition initial : state := mkState [] [] false None [].

Definition set_category (s : state) (v : jsstr) : state :=
  mkState v (description s) (isAnonymous s) (selectedImage s) (imagePreview s).
Definition set_description (s : state) (v : jsstr) : state :=
  mkState (category s) v (isAnonymous s) (selectedImage s) (imagePreview s).
Definition set_isAnonymous (s : state) (v : bool) : state :=
  mkState (category s) (description s) v (selectedImage s) (imagePreview s).
Definition set_selectedImage (s : state) (v : option file) : state :=
  mkState (category s) (description s) (isAnonymous s) v (imagePreview s).
Definition set_imagePreview (s : state) (v : jsstr) : state :=
  mkState (category s) (description s) (isAnonymous s) (selectedImage s) v.

(** One entry of [categories]: its value and label. *)
Record category_option : Type := mkOption { opt_value : jsstr; opt_label : jsstr }.

Definition categories : list category_option :=
  [mkOption (js "help") (js "Help"); mkOption (js "work") (js "Work");
   mkOption (js "services") (js "Services"); mkOption (js "alert") (js "Alert")].

(** [handleImageUpload]: [files?.[0]] is [fo]. *)
Definition handleImageUpload (s : state) (fo : option file) : state * list effect :=
  match fo with
  | Some f => (set_selectedImage s (Some f), [ReadAsDataURL f])
  | None => (s, [])
  end.

Definition handleSubmit (s : state) : state * list effect :=
  if negb (truthy_str (category s)) || negb (truthy_str (trim (description s))) then (s, [])
  else (s, [Navigate (js "/push-confirmation")]).

(** [category && description.trim().length > 10], as a condition. *)
Definition isFormValid (s : state) : bool :=
  truthy_str (category s) && (10 <? length (trim (description s))).

Inductive action : Type :=
  | SetCategory (v : jsstr)          (** [onValueChange={setCategory}] *)
  | SetDescription (v : jsstr)       (** [onChange={(e) => setDescription(e.target.value)}] *)
  | ImageUpload (fo : option file)   (** [onChange={handleImageUpload}] *)
  | SetIsAnonymous (b : bool)        (** [onCheckedChange={setIsAnonymous}] *)
  | Submit                           (** [onClick={handleSubmit}] *)
  | PreviewLoaded (result : jsstr).  (** [reader.onload]: [setImagePreview(e.target.result)] *)

Definition run (s : state) (a : action) : state * list effect :=
  match a with
  | SetCategory v => (set_category s v, [])
  | SetDescription v => (set_description s v, [])
  | ImageUpload fo => handleImageUpload s fo
  | SetIsAnonymous b => (set_isAnonymous s b, [])
  | Submit => handleSubmit s
  | PreviewLoaded r => (set_imagePreview s r, [])
  end.

(** "📍" is U+1F4CD, two UTF-16 code units. *)
Definition pin : jsstr := [0xD83D; 0xDCCD]%Z.

Definition view (s : state) : list (node action) :=
  [NBox None [
    (* header *)
    NBox None [NLink (js "/home") []; NText (js "Create Post"); NBox None []];
    (* location *)
    NBox None [NBox None [NText (js "Posting to Koramangala, Bangalore")]];
    (* form *)
    NBox None [
      NBox None [NText (js "Category *");
                 NSelect (category s) (map opt_value categories) SetCategory];
      NBox None [NText (js "Description *");
                 NInput (js "description") (description s) (Some 500) SetDescription;
                 NBox None [NText (js "Be specific and clear about your request");
                            NText (js_of_nat (length (description s)) ++ js "/500")]];
      NBox None [NText (js "Add Photo (Optional)");
                 NBox None [NFileInput (js "image/*") ImageUpload;
                            NBox None (if truthy_str (imagePreview s)
                                       then [NImg (imagePreview s) (js "Preview")]
                                       else [NBox None [NText (js "Tap to add photo")]])]];
      NBox None [NBox None [NText (js "Post anonymously");
                            NText (js "Hide your identity from others")];
                 NSwitch (isAnonymous s) SetIsAnonymous];
      NBox None [NText (pin ++ js " Push Range: 2 km radius");
                 NText (js "Your post will reach approximately 50-100 nearby users")]];
    (* bottom action *)
    NBox None [NButton (negb (isFormValid s)) (Some Submit) [NText (js "Push to Nearby Users")];
               NText (js "Your post will be live for 24 hours")]]].

(** Paths of the submit button and of the inputs in [view]. *)
Definition submit_button : list nat := [0; 3; 0].
Definition category_select : list nat := [0; 2; 0; 1].
Definition description_input : list nat := [0; 2; 1; 1].
Definition file_input : list nat := [0; 2; 2; 1; 0].

(** The states of the mounted screen. *)
Definition reachable : state -> Prop := reach view run initial.

(** ** The screen with its pending [FileReader]s *)

Record world : Type := mkWorld { page : state; pending : list file }.

Definition reads (e : list effect) : list file :=
  omap (fun x => match x with ReadAsDataURL f => Some f | _ => None end) e.

Inductive wstep : world -> world -> Prop :=
  | wstep_user w path ev s' e :
      react view run (page w) path ev = Some (s', e) ->
      wstep w (mkWorld s' (pending w ++ reads e))
  | wstep_load w i f :
      pending w !! i = Some f ->
      wstep w (mkWorld (fst (run (page w) (PreviewLoaded (data_url f)))) (delete i (pending w))).

Definition world_reachable (w : world) : Prop := rtc wstep (mkWorld initial []) w.

(** ** The view *)

Lemma createpost_view_nest s : forallb nest_ok (view s) = true.
Proof. unfold view. simpl. repeat case_match; reflexivity. Qed.

Lemma createpost_view_offers s h :
  offers (view s) h ->
  (exists v, h = SetCategory v /\ v ∈ map opt_value categories) \/
  (exists v, h = SetDescription v /\ length v <= 500) \/
  (exists fo, h = ImageUpload fo) \/
  (exists b, h = SetIsAnonymous b) \/
  (h = Submit /\ isFormValid s = true).
Proof.
  unfold view. simpl. repeat case_match; simpl; bool_to_prop; intros Hoff; naive_solver.
Qed.

(** The submit guard of [handleSubmit] passes on every valid form. *)
Lemma handleSubmit_valid s :
  isFormValid s = true -> handleSubmit s = (s, [Navigate (js "/push-confirmation")]).
Proof.
  unfold isFormValid, handleSubmit. intros H. bool_to_prop.
  destruct (truthy_str (category s)); [|discriminate]. simpl.
  destruct (trim (description s)) eqn:E; [simpl in *; lia|]. done.
Qed.

(** ** Invariant *)

Definition cp_inv (s : state) : Prop :=
  length (description s) <= 500 /\ (category s = [] \/ category s ∈ map opt_value categories).

Lemma cp_inv_run s h : cp_inv s -> offers (view s) h -> cp_inv (fst (run s h)).
Proof.
  intros [Hd Hc] Hoff. apply createpost_view_offers in Hoff.
  destruct Hoff as [(v & -> & Hv)|[(v & -> & Hv)|[(fo & ->)|[(b & ->)|(-> & Hv)]]]];
    simpl; try (split; auto; done).
  - destruct fo; simpl; split; auto.
  - by rewrite handleSubmit_valid.
Qed.

Lemma cp_inv_load s r : cp_inv s -> cp_inv (fst (run s (PreviewLoaded r))).
Proof. done. Qed.

Lemma world_inv w : world_reachable w -> cp_inv (page w).
Proof.
  unfold world_reachable.
  enough (forall w0, rtc wstep w0 w -> cp_inv (page w0) -> cp_inv (page w)) as H.
  { intros Hr. apply (H _ Hr). split; [simpl; lia|by left]. }
  intros w0 Hr. induction Hr as [w|w1 w2 w3 Hs _ IH]; [done|]. intros Hi. apply IH.
  destruct Hs as [w path ev s' e Hr|w i f _]; simpl; [|by apply cp_inv_load].
  destruct (react_cases view run createpost_view_nest _ _ _ _ _ Hr)
    as (r & _ & [(_ & -> & _)|(h & _ & Hh & -> & _)]); [done|].
  by apply cp_inv_run.
Qed.

(** ** Reads completing in the order they were started *)

(** The browser completes the reads in pick order: a load always takes
    the oldest pending read. *)
Inductive fifo_step : world -> world -> Prop :=
  | fifo_user w path ev s' e :
      react view run (page w) path ev = Some (s', e) ->
      fifo_step w (mkWorld s' (pending w ++ reads e))
  | fifo_load w f rest :
      pending w = f :: rest ->
      fifo_step w (mkWorld (fst (run (page w) (PreviewLoaded (data_url f)))) rest).

Definition fifo_reachable (w : world) : Prop := rtc fifo_step (mkWorld initial []) w.

(** With reads in order, the selected image is the last pending read, and
    with none pending the preview is the data URL of the selected image. *)
Definition fifo_inv (w : world) : Prop :=
  match pending w with
  | [] => (selectedImage (page w) = None /\ imagePreview (page w) = []) \/
          exists g, selectedImage (page w) = Some g /\ imagePreview (page w) = data_url g
  | _ => selectedImage (page w) = last (pending w)
  end.

Lemma reads_app e1 e2 : reads (e1 ++ e2) = reads e1 ++ reads e2.
Proof. induction e1 as [|x e1 IH]; simpl; [done|]. destruct x; simpl; by rewrite IH. Qed.

Lemma reads_link g : reads (link_effect g) = [].
Proof. by destruct g. Qed.

(** A user event either leaves the image fields and the reads alone, or
    selects a file and starts its read. *)
Lemma react_image s path ev s' e :
  react view run s path ev = Some (s', e) ->
  (selectedImage s' = selectedImage s /\ imagePreview s' = imagePreview s /\ reads e = []) \/
  (exists f, selectedImage s' = Some f /\ imagePreview s' = imagePreview s /\ reads e = [f]).
Proof.
  intros Hr. destruct (react_cases view run createpost_view_nest _ _ _ _ _ Hr)
    as (r & _ & [(_ & -> & ->)|(h & _ & Hh & -> & ->)]); [left; by rewrite reads_link|].
  rewrite reads_app, reads_link, app_nil_r.
  apply createpost_view_offers in Hh as [(v & -> & _)|[(v & -> & _)|[(fo & ->)|[(b & ->)|(-> & Hv)]]]];
    try (left; done).
  - destruct fo as [f|]; [right; by exists f|by left].
  - left. cbn [run]. by rewrite (handleSubmit_valid s Hv).
Qed.

Lemma fifo_inv_step w w' : fifo_inv w -> fifo_step w w' -> fifo_inv w'.
Proof.
  intros Hi Hs. destruct Hs as [w path ev s' e Hr|w f rest Hp]; unfold fifo_inv in *; simpl.
  - destruct (react_image _ _ _ _ _ Hr) as [(Hsel & Hpre & ->)|(f & Hsel & Hpre & ->)].
    + rewrite app_nil_r, Hsel, Hpre. done.
    + rewrite Hsel. destruct (pending w ++ [f]) eqn:E; [by destruct (pending w)|].
      rewrite <- E. by rewrite last_snoc.
  - rewrite Hp in Hi. destruct rest as [|f' rest]; simpl.
    + right. exists f. split; [done|]. done.
    + rewrite Hi. apply last_cons_cons.
Qed.

Lemma fifo_reachable_inv w : fifo_reachable w -> fifo_inv w.
Proof.
  unfold fifo_reachable.
  enough (forall w0, rtc fifo_step w0 w -> fifo_inv w0 -> fifo_inv w) as H.
  { intros Hr. apply (H _ Hr). by left. }
  intros w0 Hr. induction Hr as [w|w1 w2 w3 Hs _ IH]; [done|]. intros Hi. apply IH.
  by eapply fifo_inv_step.
Qed.

(** ** Properties *)

(** C6: Clicking "Push to Nearby Users" navigates to [/push-confirmation]
    with the form unchanged when the form is valid, and is not dispatched
    (the button is disabled) otherwise. *)
Theorem submit_click s :
  react view run s submit_button UClick =
  if isFormValid s then Some (s, [Navigate (js "/push-confirmation")]) else None.
Proof.
  unfold react, view. simpl. destruct (isFormValid s) eqn:E; simpl; [|done].
  rewrite run_list_single. simpl. by rewrite handleSubmit_valid.
Qed.

(** C7: [handleSubmit] on its own only requires a category and a
    description that is not all white space: the 10-character minimum is
    enforced only by the [disabled] attribute of its button. *)
Theorem handleSubmit_navigates_iff s :
  snd (handleSubmit s) = [Navigate (js "/push-confirmation")] <->
  category s <> [] /\ exists c, c ∈ description s /\ is_js_space c = false.
Proof.
  unfold handleSubmit. rewrite <- trim_nonnil_iff, <- !truthy_str_true.
  destruct (truthy_str (category s)), (truthy_str (trim (description s))); simpl;
    intuition congruence.
Qed.

(** C29: Every reachable state of the screen, pending image reads included,
    has a description of at most 500 code units and a category that is
    empty or one of the four option values. *)
Theorem description_and_category_bounds w :
  world_reachable w ->
  length (description (page w)) <= 500 /\
  (category (page w) = [] \/ category (page w) ∈ [js "help"; js "work"; js "services"; js "alert"]).
Proof. apply world_inv. Qed.

(** Two files whose data URLs differ. *)
Definition file_a : file := mkFile (js "a.png") (js "image/png") [137; 80; 78; 71]%Z.
Definition file_b : file := mkFile (js "b.jpg") (js "image/jpeg") [255; 216; 255]%Z.

Lemma data_url_ab : data_url file_a <> data_url file_b.
Proof.
  intros H. assert (Hb : bool_decide (data_url file_a = data_url file_b) = true)
    by (by apply bool_decide_eq_true).
  vm_compute in Hb. discriminate.
Qed.

(** The image preview can show another file than the selected one:
    when the user picks a file [fa], then a file [fb] before the first read
    completes, and the read of [fb] completes first, the [onload] of [fa]
    overwrites the preview, so [selectedImage] is [fb] while [imagePreview]
    is the data URL of [fa]. *)
Theorem preview_race :
  exists w fa fb, world_reachable w /\ data_url fa <> data_url fb /\
    selectedImage (page w) = Some fb /\ imagePreview (page w) = data_url fa.
Proof.
  exists (mkWorld (mkState [] [] false (Some file_b) (data_url file_a)) []), file_a, file_b.
  split; [|split; [exact data_url_ab|done]].
  eapply rtc_l; [eapply (wstep_user _ file_input (UFile (Some file_a))); reflexivity|].
  eapply rtc_l; [eapply (wstep_user _ file_input (UFile (Some file_b))); reflexivity|].
  eapply rtc_l; [apply (wstep_load _ 1 file_b); reflexivity|].
  eapply rtc_l; [apply (wstep_load _ 0 file_a); reflexivity|].
  apply rtc_refl.
Qed.

(** C25: When the reads complete in the order the files were picked, the
    preview shown once no read is pending is the selected image: its data
    URL decodes back to exactly that file's media type and bytes. *)
Theorem preview_in_order_roundtrip w g :
  fifo_reachable w -> pending w = [] -> selectedImage (page w) = Some g -> file_ok g ->
  parse_data_url (imagePreview (page w)) = Some (file_type g, file_bytes g).
Proof.
  intros Hr Hp Hsel Hok. pose proof (fifo_reachable_inv w Hr) as Hi. unfold fifo_inv in Hi.
  rewrite Hp, Hsel in Hi. destruct Hi as [[? _]|(g' & [= <-] & ->)]; [discriminate|].
  by apply parse_data_url_roundtrip.
Qed.

(** ** Concrete runs (Scenarios A and B of the specification) *)

Definition scenario_a : state :=
  mkState (js "help") (js "Need two people to move a couch") false None [].
Definition scenario_b : state := mkState [] (js "short") false None [].

Lemma submit_click_witness :
  react view run scenario_a submit_button UClick =
    Some (scenario_a, [Navigate (js "/push-confirmation")]) /\
  react view run scenario_b submit_button UClick = None.
Proof. split; rewrite submit_click; vm_compute; reflexivity. Defined.

(** The handler alone would accept scenario B with a category. *)
Lemma handleSubmit_short :
  snd (handleSubmit (set_category scenario_b (js "help"))) = [Navigate (js "/push-confirmation")] /\
  isFormValid (set_category scenario_b (js "help")) = false.
Proof. vm_compute. split; reflexivity. Qed.

Lemma world_reachable_help : world_reachable (mkWorld (set_category initial (js "help")) []).
Proof.
  eapply rtc_l; [eapply (wstep_user _ category_select (USelect (js "help"))); reflexivity|].
  apply rtc_refl.
Qed.

Lemma description_and_category_bounds_witness :
  length (description (set_category initial (js "help"))) <= 500 /\
  (category (set_category initial (js "help")) = [] \/
   category (set_category initial (js "help")) ∈ [js "help"; js "work"; js "services"; js "alert"]).
Proof. exact (description_and_category_bounds _ world_reachable_help). Defined.

(** Pick [fa], pick [fb], the reads complete in order: the preview is [fb]. *)
Definition in_order_world : world :=
  mkWorld (mkState [] [] false (Some file_b) (data_url file_b)) [].

Lemma in_order_world_reachable : fifo_reachable in_order_world.
Proof.
  eapply rtc_l; [eapply (fifo_user _ file_input (UFile (Some file_a))); reflexivity|].
  eapply rtc_l; [eapply (fifo_user _ file_input (UFile (Some file_b))); reflexivity|].
  eapply rtc_l; [apply (fifo_load _ file_a [file_b]); reflexivity|].
  eapply rtc_l; [apply (fifo_load _ file_b []); reflexivity|].
  apply rtc_refl.
Qed.

Lemma preview_in_order_roundtrip_witness :
  parse_data_url (imagePreview (page in_order_world)) = Some (file_type file_b, file_bytes file_b).
Proof.
  apply (preview_in_order_roundtrip in_order_world file_b in_order_world_reachable eq_refl eq_refl).
  split; [apply (bool_decide_unpack _); vm_compute; reflexivity|].
  repeat constructor; unfold byte_ok; lia.
Defined.

End CreatePost.
