(* ===== verification/Home.v ===== *)
(** * Home: src/client/pages/Home.tsx

    [Post] (lines 8-17) with its category enum, the seed [mockPosts]
    (lines 19-57), [categoryColors] (lines 59-64), the feed state
    [useState(mockPosts)] (line 67) and the three card handlers:
    [handleInterested] and [handlePushAgain] only log (lines 69-71, 77-79),
    [handleIgnore] filters the post out (lines 73-75).  The view (lines
    81-232) renders the header links, one card per post and the bottom
    navigation. *)

From Stdlib Require Import ZArith Lia.
From stdpp Require Import base list decidable.
From S2P Require Import Prelude JsString ListStore View.

Module Home.

Inductive post_category : Type := Help | Work | Services | Alert.

#[export] Instance category_eq_dec : EqDecision post_category.
Proof. solve_decision. Defined.

Definition category_label (c : post_category) : jsstr :=
  match c with
  | Help => js "Help" | Work => js "Work" | Services => js "Services" | Alert => js "Alert"
  end.

Record post : Type := mkPost {
  id : jsstr;
  userName : jsstr;
  userAvatar : jsstr;
  location : jsstr;
  category : post_category;
  timeAgo : jsstr;
  description : jsstr;
  isAnonymous : option bool
}.

#[export] Instance post_keyed : Keyed post := id.

(** "₹" is U+20B9. *)
Definition rupee : jsstr := [0x20B9%Z].

Definition mockPosts : list post := [
  mkPost (js "1") (js "Priya Sharma") (js "/placeholder.svg") (js "0.2 km away") Help
    (js "2 minutes ago")
    (js "Need help moving furniture to my new apartment. Looking for 2-3 people who can help for 2 hours. Will provide snacks and drinks!")
    None;
  mkPost (js "2") (js "Anonymous User") (js "/placeholder.svg") (js "0.5 km away") Alert
    (js "15 minutes ago")
    (js "Lost golden retriever near Central Park. Goes by the name Max. Please contact if found. Reward offered.")
    (Some true);
  mkPost (js "3") (js "Rohit Kumar") (js "/placeholder.svg") (js "0.8 km away") Services
    (js "1 hour ago")
    (js "Professional house cleaning services available. 5 years experience. Reasonable rates. Contact for booking.")
    None;
  mkPost (js "4") (js "Meera Patel") (js "/placeholder.svg") (js "1.2 km away") Work
    (js "3 hours ago")
    (js "Looking for a freelance graphic designer for social media posts. Budget: " ++ rupee ++
     js "5000-8000 per month. Portfolio required.")
    None].

Definition categoryColors (c : post_category) : jsstr :=
  match c with
  | Help => js "bg-blue-100 text-blue-800"
  | Work => js "bg-green-100 text-green-800"
  | Services => js "bg-purple-100 text-purple-800"
  | Alert => js "bg-red-100 text-red-800"
  end.

(** The feed: [posts]. *)
Abbreviation state := (list post).

Definition initial : state := mockPosts.

Inductive action : Type :=
  | Interested (postId : jsstr)   (** [onClick={() => handleInterested(post.id)}] *)
  | Ignore (postId : jsstr)       (** [onClick={() => handleIgnore(post.id)}] *)
  | PushAgain (postId : jsstr).   (** [onClick={() => handlePushAgain(post.id)}] *)

Definition handleInterested (posts : state) (postId : jsstr) : state * list effect :=
  (posts, [ConsoleLog [js "Interested in post:"; postId]]).

Definition handleIgnore (posts : state) (postId : jsstr) : state * list effect :=
  (removeById postId posts, []).

Definition handlePushAgain (posts : state) (postId : jsstr) : state * list effect :=
  (posts, [ConsoleLog [js "Push again:"; postId]]).

Definition run (posts : state) (a : action) : state * list effect :=
  match a with
  | Interested i => handleInterested posts i
  | Ignore i => handleIgnore posts i
  | PushAgain i => handlePushAgain posts i
  end.

(** [post.isAnonymous ? ... : ...]: an absent flag is falsy. *)
Definition is_anon (p : post) : bool :=
  match isAnonymous p with Some b => b | None => false end.

(** "•" is U+2022. *)
Definition bullet : jsstr := [0x2022%Z].

Definition post_card (p : post) : node action :=
  NBox None [
    NBox None [
      NBox None [
        NBox None [NImg (userAvatar p) [];
                   NText (if is_anon p then js "?" else charAt0 (userName p))];
        NBox None [NText (if is_anon p then js "Anonymous User" else userName p);
                   NBox None [NText (location p); NText bullet;
                              NBox None [NText (timeAgo p)]]]];
      NBox None [NText (category_label (category p))]];
    NText (description p);
    NBox None [
      NButton false (Some (Interested (id p))) [NText (js "Interested")];
      NButton false (Some (Ignore (id p))) [];
      NButton false (Some (PushAgain (id p))) []]].

Definition view (posts : state) : list (node action) :=
  [NBox None [
    (* header *)
    NBox None [NBox None [
      NBox None [NText (js "Bartr"); NBox None [NText (js "Koramangala, Bangalore")]];
      NBox None [NLink (js "/notifications") [NButton false None [NBox None []]];
                 NLink (js "/profile") [NBox None [NImg (js "/placeholder.svg") []; NText (js "U")]]]]];
    (* create post button *)
    NBox None [NLink (js "/create-post") [NButton false None [NText (js "What do you need today?")]]];
    (* feed *)
    NBox None (map post_card posts ++
               [NBox None [NButton false None [NText (js "Load more posts")]]]);
    (* bottom navigation *)
    NBox None [NBox None [
      NLink (js "/home") [NBox None []; NText (js "Home")];
      NLink (js "/create-post") [NBox None []; NText (js "Create")];
      NLink (js "/notifications") [NBox None [NBox None []]; NText (js "Alerts")];
      NLink (js "/profile") [NBox None []; NText (js "Profile")]]]]].

(** The path of the buttons of the [i]-th card. *)
Definition interested_button (i : nat) : list nat := [0; 2; i; 2; 0].
Definition ignore_button (i : nat) : list nat := [0; 2; i; 2; 1].
Definition push_again_button (i : nat) : list nat := [0; 2; i; 2; 2].

Definition reachable : state -> Prop := reach view run initial.

(** ** Lemmas *)

Lemma feed_lookup posts i p :
  posts !! i = Some p ->
  (map post_card posts ++ [NBox None [NButton false None [NText (js "Load more posts")]]]) !! i =
  Some (post_card p).
Proof.
  intros Hi. rewrite lookup_app_l by (rewrite length_map; by eapply lookup_lt_Some).
  by rewrite list_lookup_fmap, Hi.
Qed.

(** A click on a button of the [i]-th card runs that button's handler. *)
Lemma post_card_click posts i p j a :
  posts !! i = Some p ->
  [Interested (id p); Ignore (id p); PushAgain (id p)] !! j = Some a ->
  react view run posts [0; 2; i; 2; j] UClick = Some (run posts a).
Proof.
  intros Hi Hj. pose proof (feed_lookup _ _ _ Hi) as Hf. unfold react, view.
  remember (map post_card posts ++ _) as feed eqn:Efeed. clear Efeed.
  simpl. rewrite Hf. simpl.
  destruct j as [|[|[|j]]]; simpl in Hj; simplify_eq/=; reflexivity.
Qed.

Lemma mockPosts_NoDup : NoDup (ids mockPosts).
Proof.
  vm_compute. repeat constructor;
    intros H; repeat (apply elem_of_cons in H as [H|H]; [simplify_eq|]);
    by apply not_elem_of_nil in H.
Qed.

Lemma home_inv_run posts h : posts `sublist_of` mockPosts -> fst (run posts h) `sublist_of` mockPosts.
Proof.
  intros Hs. destruct h; simpl; [done| |done].
  etrans; [apply removeById_sublist|exact Hs].
Qed.

Lemma home_view_nest posts : forallb nest_ok (view posts) = true.
Proof.
  assert (H : forallb nest_ok (map post_card posts) = true).
  { apply forallb_forall. intros c Hc. apply in_map_iff in Hc as (p & <- & _). reflexivity. }
  unfold view. simpl. rewrite forallb_app, H. reflexivity.
Qed.

Lemma reachable_sublist posts : reachable posts -> posts `sublist_of` mockPosts.
Proof.
  intros Hr. refine (reach_inv view run initial home_view_nest
    (fun ps => ps `sublist_of` mockPosts) _ _ posts Hr); [done|].
  intros ps h Hs _. by apply home_inv_run.
Qed.

Lemma reachable_NoDup posts : reachable posts -> NoDup (ids posts).
Proof.
  intros Hr. eapply sublist_NoDup; [apply mockPosts_NoDup|].
  apply sublist_map, reachable_sublist, Hr.
Qed.

(** Every feed of the form "seed without the ids [D]" is reachable:
    dismiss the posts of [D] still shown, one after the other. *)
Lemma reachable_without D : reachable (without D mockPosts).
Proof.
  induction D as [|k D IH].
  - rewrite without_nil. apply reach_init.
  - rewrite <- removeById_without. set (ps := without D mockPosts) in *.
    destruct (decide (k ∈ ids ps)) as [Hin|Hn]; [|by rewrite removeById_absent].
    apply list_elem_of_In, in_map_iff in Hin as (p & <- & Hp%list_elem_of_In).
    apply list_elem_of_lookup_1 in Hp as (i & Hi).
    exact (reach_step _ _ _ _ _ _ _ _ IH (post_card_click ps i p 1 (Ignore (id p)) Hi eq_refl)).
Qed.

Lemma reachable_is_without posts : reachable posts -> exists D, posts = without D mockPosts.
Proof.
  intros Hr. refine (reach_inv view run initial home_view_nest
    (fun ps => exists D, ps = without D mockPosts) _ _ posts Hr).
  - exists []. exact (eq_sym (without_nil mockPosts)).
  - intros ps [k|k|k] (D & ->) _; cbn [fst run handleInterested handleIgnore handlePushAgain];
      [by exists D| |by exists D].
    exists (k :: D). apply removeById_without.
Qed.

(** ** Properties *)

(** C19: Dismissing the [i]-th card of a reachable feed (the X button)
    removes exactly that post: one element fewer, the others in their
    order, and the post gone. *)
Theorem ignore_click posts i p :
  reachable posts -> posts !! i = Some p ->
  react view run posts (ignore_button i) UClick = Some (removeById (id p) posts, []) /\
  S (length (removeById (id p) posts)) = length posts /\
  removeById (id p) posts `sublist_of` posts /\
  p ∉ removeById (id p) posts.
Proof.
  intros Hr Hi. split; [exact (post_card_click posts i p 1 (Ignore (id p)) Hi eq_refl)|].
  assert (Hin : id p ∈ ids posts).
  { apply list_elem_of_In, in_map, list_elem_of_In. by eapply list_elem_of_lookup_2. }
  split; [apply removeById_length_present; [by apply reachable_NoDup|done]|].
  split; [apply removeById_sublist|]. rewrite elem_of_removeById. intros [_ Hk]. by apply Hk.
Qed.

(** C20: The feeds of the mounted Home screen are exactly the seed with
    some posts dismissed: a feed is reachable if and only if it is
    [mockPosts] without the posts whose ids lie in some set [D].  So the
    feed depends only on which posts were dismissed, never on the order of
    the dismissals or on the other buttons. *)
Theorem reachable_feed_iff posts : reachable posts <-> exists D, posts = without D mockPosts.
Proof. split; [apply reachable_is_without|intros (D & ->); apply reachable_without]. Qed.

(** "Interested" and "Push again" only log to the console and leave
    the feed unchanged. *)
Theorem log_only_clicks posts i p :
  posts !! i = Some p ->
  react view run posts (interested_button i) UClick =
    Some (posts, [ConsoleLog [js "Interested in post:"; id p]]) /\
  react view run posts (push_again_button i) UClick =
    Some (posts, [ConsoleLog [js "Push again:"; id p]]).
Proof.
  intros Hi. split; [exact (post_card_click posts i p 0 _ Hi eq_refl)|exact (post_card_click posts i p 2 _ Hi eq_refl)].
Qed.

(** C32: An anonymous post's card shows "Anonymous User" and the fallback
    "?" in place of the author's name, but it still renders the author's
    [userAvatar] image. *)
Theorem anonymous_card p :
  is_anon p = true ->
  js "Anonymous User" ∈ node_texts (post_card p) /\ js "?" ∈ node_texts (post_card p) /\
  userAvatar p ∈ node_images (post_card p).
Proof.
  intros Ha. unfold post_card. simpl. rewrite Ha. simpl.
  split; [|split]; elem_of_list.
Qed.

(** ** Witnesses *)

Lemma anonymous_card_witness :
  js "Anonymous User" ∈ node_texts (post_card (nth 1 mockPosts (mkPost [] [] [] [] Help [] [] None))) /\
  js "?" ∈ node_texts (post_card (nth 1 mockPosts (mkPost [] [] [] [] Help [] [] None))) /\
  js "/placeholder.svg" ∈ node_images (post_card (nth 1 mockPosts (mkPost [] [] [] [] Help [] [] None))).
Proof. exact (anonymous_card (nth 1 mockPosts (mkPost [] [] [] [] Help [] [] None)) eq_refl). Defined.

Lemma ignore_click_witness :
  react view run mockPosts (ignore_button 1) UClick =
    Some (removeById (js "2") mockPosts, []) /\
  S (length (removeById (js "2") mockPosts)) = length mockPosts /\
  removeById (js "2") mockPosts `sublist_of` mockPosts /\
  nth 1 mockPosts (mkPost [] [] [] [] Help [] [] None) ∉ removeById (js "2") mockPosts.
Proof. exact (ignore_click mockPosts 1 _ (reach_init _ _ _) eq_refl). Defined.

Lemma log_only_clicks_witness :
  react view run mockPosts (interested_button 0) UClick =
    Some (mockPosts, [ConsoleLog [js "Interested in post:"; js "1"]]) /\
  react view run mockPosts (push_again_button 0) UClick =
    Some (mockPosts, [ConsoleLog [js "Push again:"; js "1"]]).
Proof. exact (log_only_clicks mockPosts 0 _ eq_refl). Defined.

End Home.
