(* ===== verification/Notifications.v ===== *)
(** * Notifications: src/client/pages/Notifications.tsx

    [Notification] (lines 8-18), the seed [mockNotifications] (lines
    20-70), [getNotificationIcon] (lines 72-83), the list state (line 86),
    [markAsRead] (lines 88-92) and [markAllAsRead] (lines 94-96), both
    through the list store, [unreadCount] (line 98) and the view (lines
    100-231): the "Mark all read" button exists only while something is
    unread, and a click anywhere on an unread card marks it read. *)

From Stdlib Require Import ZArith Lia.
From stdpp Require Import base list decidable.
From S2P Require Import Prelude JsString ListStore View.

Module Notifications.

(** ['response' | 'interested' | 'system'] *)
Inductive ntype : Type := Response | InterestedN | SystemN.

#[export] Instance ntype_eq_dec : EqDecision ntype.
Proof. solve_decision. Defined.

Record notification : Type := mkNotification {
  id : jsstr;
  type : ntype;
  title : jsstr;
  description : jsstr;
  timeAgo : jsstr;
  isRead : bool;
  userAvatar : option jsstr;
  userName : option jsstr;
  postCategory : option jsstr
}.

#[export] Instance notification_keyed : Keyed notification := id.

Definition mockNotifications : list notification := [
  mkNotification (js "1") Response (js "New Response to Your Help Request")
    (js "Rahul Kumar responded to your furniture moving request") (js "2 minutes ago") false
    (Some (js "/placeholder.svg")) (Some (js "Rahul Kumar")) (Some (js "Help"));
  mkNotification (js "2") InterestedN (js "3 People Interested")
    (js "Multiple users showed interest in your graphic design work post") (js "1 hour ago") false
    None None (Some (js "Work"));
  mkNotification (js "3") Response (js "Response to Alert")
    (js "Someone found information about your lost dog Max") (js "3 hours ago") true
    (Some (js "/placeholder.svg")) (Some (js "Priya Sharma")) (Some (js "Alert"));
  mkNotification (js "4") SystemN (js "Post Expired")
    (js "Your house cleaning services post has expired after 24 hours") (js "1 day ago") true
    None None (Some (js "Services"));
  mkNotification (js "5") InterestedN (js "High Interest!")
    (js "8 users are interested in your tutoring services") (js "2 days ago") true
    None None (Some (js "Services"))].

(** The lucide icons the code chooses between, by component name; icons
    that do not depend on the state are not modelled. *)
Inductive icon : Type := MessageCircle | ThumbsUp | Clock | CheckCircle2.

Definition icon_src (i : icon) : jsstr :=
  match i with
  | MessageCircle => js "lucide:MessageCircle" | ThumbsUp => js "lucide:ThumbsUp"
  | Clock => js "lucide:Clock" | CheckCircle2 => js "lucide:CheckCircle2"
  end.

Definition getNotificationIcon (t : ntype) : icon :=
  match t with
  | Response => MessageCircle
  | InterestedN => ThumbsUp
  | SystemN => Clock
  end.

Abbreviation state := (list notification).

Definition initial : state := mockNotifications.

(** [{ ...notif, isRead: true }] *)
Definition read (n : notification) : notification :=
  mkNotification (id n) (type n) (title n) (description n) (timeAgo n) true
    (userAvatar n) (userName n) (postCategory n).

Definition markAsRead (notifications : state) (notificationId : jsstr) : state :=
  updateById notificationId read notifications.

Definition markAllAsRead (notifications : state) : state := updateAll read notifications.

Definition unreadCount (notifications : state) : nat :=
  length (List.filter (fun n => negb (isRead n)) notifications).

Inductive action : Type :=
  | MarkAllAsRead                    (** [onClick={markAllAsRead}] *)
  | CardClick (n : notification).    (** [onClick={() => !n.isRead && markAsRead(n.id)}] *)

Definition run (notifications : state) (a : action) : state * list effect :=
  match a with
  | MarkAllAsRead => (markAllAsRead notifications, [])
  | CardClick n => (if isRead n then notifications else markAsRead notifications (id n), [])
  end.

(** "â€¢": the bullet of line 183 as the source file spells it (U+00E2,
    U+20AC, U+00A2: the UTF-8 bytes of "•" read as Windows-1252). *)
Definition separator : jsstr := [0xE2; 0x20AC; 0xA2]%Z.

Definition card (n : notification) : node action :=
  NBox (Some (CardClick n)) ([
    NBox None [
      (* icon or avatar *)
      NBox None [match userAvatar n with
                 | Some src =>
                     if truthy_str src then
                       NBox None (NImg src [] :: match userName n with
                                                 | Some u => [NText (charAt0 u)]
                                                 | None => []
                                                 end)
                     else NBox None [NImg (icon_src (getNotificationIcon (type n))) []]
                 | None => NBox None [NImg (icon_src (getNotificationIcon (type n))) []]
                 end];
      (* content *)
      NBox None [NBox None [
        NBox None [NText (title n); NText (description n);
                   NBox None (NText (timeAgo n) ::
                              match postCategory n with
                              | Some c => if truthy_str c then [NText separator; NBox None [NText c]]
                                          else [NText c]
                              | None => []
                              end)];
        (* read indicator *)
        NBox None [if isRead n then NImg (icon_src CheckCircle2) [] else NBox None []]]]]] ++
    (* actions for unread responses *)
    (if bool_decide (type n = Response) && negb (isRead n) then
       [NBox None [NBox None [NButton false None [NText (js "View Response")];
                              NButton false None [NText (js "Message User")]]]]
     else [])).

Definition view (notifications : state) : list (node action) :=
  [NBox None [
    (* header *)
    NBox None [NBox None ([
      NBox None [NLink (js "/home") [];
                 NBox None (NText (js "Notifications") ::
                            if 0 <? unreadCount notifications
                            then [NBox None [NText (js_of_nat (unreadCount notifications));
                                             NText (js " unread")]]
                            else [])]] ++
      (if 0 <? unreadCount notifications
       then [NButton false (Some MarkAllAsRead) [NText (js "Mark all read")]] else []))];
    (* list *)
    NBox None [
      if length notifications =? 0 then
        NBox None [NBox None [NBox None []];
                   NText (js "No notifications yet");
                   NText (js "You'll see responses and updates here")]
      else NBox None (map card notifications)];
    (* bottom spacing *)
    NBox None []]].

Definition mark_all_button : list nat := [0; 0; 0; 1].
Definition card_path (i : nat) : list nat := [0; 1; 0; i].

Definition reachable : state -> Prop := reach view run initial.

(** ** Lemmas *)

Lemma read_key n : key (read n) = key n.
Proof. reflexivity. Qed.

Lemma unreadCount_cons n l :
  unreadCount (n :: l) = (if isRead n then 0 else 1) + unreadCount l.
Proof. unfold unreadCount. simpl. by destruct (isRead n). Qed.

Lemma unreadCount_markAll l : unreadCount (markAllAsRead l) = 0.
Proof. induction l as [|n l IH]; [done|]. unfold markAllAsRead, updateAll in *. simpl. done. Qed.

(** With unique ids, marking an unread notification read lowers the unread
    count by exactly one. *)
Lemma unreadCount_markAsRead l i n :
  NoDup (ids l) -> l !! i = Some n -> isRead n = false ->
  S (unreadCount (markAsRead l (id n))) = unreadCount l.
Proof.
  revert i. induction l as [|x l IH]; intros i Hnd Hi Hn; [done|].
  inversion Hnd as [|? ? Hx Hnd']; subst.
  unfold markAsRead, updateById in *. simpl. rewrite !unreadCount_cons.
  destruct i as [|i]; simpl in Hi.
  - injection Hi as ->. rewrite jseqb_refl. simpl. rewrite Hn.
    fold (updateById (id n) read l). rewrite updateById_absent; [lia|done].
  - assert (Hne : key x <> id n).
    { intros Hk. apply Hx. rewrite Hk. apply list_elem_of_In, in_map.
      apply list_elem_of_In. by eapply list_elem_of_lookup_2. }
    apply jseqb_false in Hne. change (jseqb (key x) (id n)) with (jseqb (key x) (id n)).
    rewrite Hne. rewrite <- (IH i); [lia|done|done|done].
Qed.

Lemma list_lookup l i n :
  l !! i = Some n ->
  (if length l =? 0 then NBox None [NBox None [NBox None []];
                                    NText (js "No notifications yet");
                                    NText (js "You'll see responses and updates here")]
   else NBox None (map card l)) = NBox None (map card l) /\
  map card l !! i = Some (card n).
Proof.
  intros Hi. split.
  - apply lookup_lt_Some in Hi. destruct (length l =? 0) eqn:E; [|done]. apply Nat.eqb_eq in E. lia.
  - by rewrite list_lookup_fmap, Hi.
Qed.

(** How a seed notification may have changed: not at all, or marked read. *)
Definition evolves (n0 n : notification) : Prop := n = n0 \/ n = read n0.

Lemma evolves_map (f : notification -> notification) l0 l :
  (forall n0 n, evolves n0 n -> evolves n0 (f n)) ->
  Forall2 evolves l0 l -> Forall2 evolves l0 (List.map f l).
Proof. intros Hf. induction 1; simpl; constructor; auto. Qed.

Lemma evolves_read n0 n : evolves n0 n -> evolves n0 (read n).
Proof. intros [->| ->]; right; reflexivity. Qed.

Lemma evolves_run l0 l h : Forall2 evolves l0 l -> Forall2 evolves l0 (fst (run l h)).
Proof.
  intros H. destruct h as [|n]; simpl.
  - by apply evolves_map; [apply evolves_read|].
  - destruct (isRead n); [done|]. apply evolves_map; [|done].
    intros n0 x Hx. destruct (jseqb (key x) (id n)); [by apply evolves_read|done].
Qed.

Lemma evolves_id n0 n : evolves n0 n -> id n = id n0.
Proof. by intros [->| ->]. Qed.

Lemma ids_evolves l0 l : Forall2 evolves l0 l -> ids l = ids l0.
Proof. induction 1 as [|n0 n l0 l Hn _ IH]; simpl; [done|]. f_equal; [apply (evolves_id _ _ Hn)|done]. Qed.

(** A map that never turns a read notification unread does not raise the
    unread count. *)
Lemma unreadCount_map_le (f : notification -> notification) l :
  (forall x, isRead x = true -> isRead (f x) = true) -> unreadCount (List.map f l) <= unreadCount l.
Proof.
  intros Hf. induction l as [|x l IH]; [done|]. simpl. rewrite !unreadCount_cons.
  destruct (isRead x) eqn:E; [rewrite (Hf x E)|destruct (isRead (f x))]; lia.
Qed.

Lemma unreadCount_run_le l h : unreadCount (fst (run l h)) <= unreadCount l.
Proof.
  destruct h as [|n]; simpl.
  - rewrite unreadCount_markAll. lia.
  - destruct (isRead n); [done|]. apply unreadCount_map_le.
    intros x Hx. by destruct (jseqb (key x) (id n)).
Qed.

Lemma notifications_view_nest l : forallb nest_ok (view l) = true.
Proof.
  assert (H : forallb nest_ok (map card l) = true).
  { apply forallb_forall. intros c Hc. apply in_map_iff in Hc as (n & <- & _). unfold card.
    simpl. repeat case_match; reflexivity. }
  unfold view. simpl. repeat case_match; simpl; rewrite ?H; reflexivity.
Qed.

Lemma reachable_evolves l : reachable l -> Forall2 evolves mockNotifications l.
Proof.
  intros Hr. refine (reach_inv view run initial notifications_view_nest (Forall2 evolves mockNotifications) _ _ l Hr).
  - unfold initial. induction mockNotifications as [|x l0 IH]; constructor; [by left|done].
  - intros l' h Hl _. by apply evolves_run.
Qed.

(** ** Properties *)

(** C21: "Mark all read" leaves no unread notification and keeps the ids,
    their order and the number of notifications. *)
Theorem mark_all_read l :
  unreadCount (markAllAsRead l) = 0 /\ ids (markAllAsRead l) = ids l /\
  length (markAllAsRead l) = length l.
Proof.
  split; [apply unreadCount_markAll|]. split; [apply ids_updateAll, read_key|apply length_map].
Qed.

(** The "Mark all read" button exists exactly while some notification
    is unread, and clicking it marks all of them read. *)
Theorem mark_all_click l :
  react view run l mark_all_button UClick =
  if 0 <? unreadCount l then Some (markAllAsRead l, []) else None.
Proof. unfold react, view. simpl. by destruct (0 <? unreadCount l). Qed.

(** A click on the [i]-th card marks that notification read when it is
    unread and changes nothing when it is already read. *)
Theorem card_click l i n :
  l !! i = Some n ->
  react view run l (card_path i) UClick =
  Some (if isRead n then l else markAsRead l (id n), []).
Proof.
  intros Hi. destruct (list_lookup l i n Hi) as [Hif Hc].
  unfold react, view. rewrite Hif. remember (map card l) as cards eqn:E; clear E.
  simpl. rewrite Hc. simpl. by destruct (isRead n).
Qed.

(** C34: The "View Response" button of an unread response has no handler
    of its own: its click bubbles to the card and only marks the
    notification read. *)
Theorem view_response_click l i n :
  l !! i = Some n -> type n = Response -> isRead n = false ->
  react view run l (card_path i ++ [1; 0; 0]) UClick = Some (markAsRead l (id n), []).
Proof.
  intros Hi Ht Hn. destruct (list_lookup l i n Hi) as [Hif Hc].
  unfold react, view. rewrite Hif. remember (map card l) as cards eqn:E; clear E.
  simpl. rewrite Hc. unfold card. rewrite Ht, Hn. simpl. by rewrite Hn.
Qed.

(** C22: In a reachable list, marking an unread notification read lowers
    the unread count by exactly one and keeps the ids. *)
Theorem mark_one_read l i n :
  reachable l -> l !! i = Some n -> isRead n = false ->
  S (unreadCount (markAsRead l (id n))) = unreadCount l /\ ids (markAsRead l (id n)) = ids l.
Proof.
  intros Hr Hi Hn. split; [|apply ids_updateById, read_key].
  apply (unreadCount_markAsRead _ i); [|done|done].
  rewrite (ids_evolves _ _ (reachable_evolves _ Hr)). vm_compute.
  repeat constructor; intros H; repeat (apply elem_of_cons in H as [H|H]; [simplify_eq|]);
    by apply not_elem_of_nil in H.
Qed.

(** C33: Every reachable list is the seed in which some notifications have
    been marked read: no notification is removed, added or reordered, and
    no other field changes. *)
Theorem reachable_only_reads l : reachable l -> Forall2 evolves mockNotifications l.
Proof. apply reachable_evolves. Qed.

(** C28: No user event raises the unread count. *)
Theorem unread_never_increases l path ev l' e :
  react view run l path ev = Some (l', e) -> unreadCount l' <= unreadCount l.
Proof.
  intros Hr. destruct (react_cases view run notifications_view_nest _ _ _ _ _ Hr)
    as (r & _ & [(_ & -> & _)|(h & _ & _ & -> & _)]); [done|].
  apply unreadCount_run_le.
Qed.

(** C23: The bulk update of [markAllAsRead] (Notifications.tsx lines
    94-96) is equivalent to the single-card update [markAsRead] (lines
    88-92) applied to every id of the list, one after the other. *)
Theorem markAll_equiv l : markAllAsRead l = fold_left markAsRead (ids l) l.
Proof. apply (updateAll_fold read read_key). by intros []. Qed.

(** ** Witnesses (Scenario D of the specification) *)

Lemma mark_all_click_witness :
  unreadCount mockNotifications = 2 /\
  react view run mockNotifications mark_all_button UClick =
    Some (markAllAsRead mockNotifications, []) /\
  unreadCount (markAllAsRead mockNotifications) = 0 /\
  ids (markAllAsRead mockNotifications) = ids mockNotifications.
Proof.
  split; [reflexivity|]. split; [exact (mark_all_click mockNotifications)|].
  split; reflexivity.
Defined.

Definition default_notification : notification :=
  mkNotification [] SystemN [] [] [] true None None None.

Lemma card_click_witness :
  react view run mockNotifications (card_path 0) UClick =
    Some (markAsRead mockNotifications (js "1"), []).
Proof. exact (card_click mockNotifications 0 _ eq_refl). Defined.

Lemma view_response_click_witness :
  react view run mockNotifications (card_path 0 ++ [1; 0; 0]) UClick =
    Some (markAsRead mockNotifications (js "1"), []).
Proof.
  exact (view_response_click mockNotifications 0 (nth 0 mockNotifications default_notification)
           eq_refl eq_refl eq_refl).
Defined.

Lemma mark_one_read_witness :
  S (unreadCount (markAsRead mockNotifications (js "2"))) = unreadCount mockNotifications /\
  ids (markAsRead mockNotifications (js "2")) = ids mockNotifications.
Proof.
  exact (mark_one_read mockNotifications 1 (nth 1 mockNotifications default_notification)
           (reach_init _ _ _) eq_refl eq_refl).
Defined.

Lemma reachable_only_reads_witness :
  Forall2 evolves mockNotifications (markAllAsRead mockNotifications).
Proof.
  apply reachable_only_reads. eapply (reach_step _ _ _ _ mark_all_button UClick); [apply reach_init|].
  reflexivity.
Defined.

Lemma unread_never_increases_witness :
  unreadCount (markAllAsRead mockNotifications) <= unreadCount mockNotifications.
Proof.
  apply (unread_never_increases _ mark_all_button UClick _ []).
  reflexivity.
Defined.

End Notifications.
