(* ===== verification/Profile.v ===== *)
(** * Profile: src/client/pages/Profile.tsx

    The profile's own posts and badges ([Post] and [Badge], lines 17-32;
    [mockPosts] and [mockBadges], lines 34-83), the colour tables (lines
    85-96), the tab state [useState("posts")] (line 99) and the view (lines
    101-289).  The tabs are Radix [Tabs]: a trigger sets [activeTab] to its
    value and a [TabsContent] is rendered only when its value is the active
    one.

    The badges show [new Date(badge.earnedDate).toLocaleDateString()]; that
    text depends on the browser's time zone and locale, so the view takes
    the formatting function [localeDate] of the host as a parameter; with
    the en-US format and a fixed zone it is [date_string_locale] of
    [JsDate]. *)

From Stdlib Require Import ZArith Lia.
From stdpp Require Import base list decidable.
From S2P Require Import Prelude JsString JsDate View.

Module Profile.

Inductive post_category : Type := Help | Work | Services | Alert.
Inductive post_status : Type := Active | Completed | Expired.

Record post : Type := mkPost {
  id : jsstr;
  category : post_category;
  description : jsstr;
  timeAgo : jsstr;
  status : post_status;
  responseCount : nat
}.

Record badge : Type := mkBadge {
  badge_id : jsstr;
  name : jsstr;
  icon : jsstr;
  badge_description : jsstr;
  earnedDate : jsstr
}.

Definition category_label (c : post_category) : jsstr :=
  match c with
  | Help => js "Help" | Work => js "Work" | Services => js "Services" | Alert => js "Alert"
  end.

Definition status_label (st : post_status) : jsstr :=
  match st with Active => js "active" | Completed => js "completed" | Expired => js "expired" end.

Definition mockPosts : list post := [
  mkPost (js "1") Help (js "Need help moving furniture to my new apartment") (js "2 hours ago") Active 5;
  mkPost (js "2") Services (js "Professional house cleaning services available") (js "1 day ago")
    Completed 12;
  mkPost (js "3") Work (js "Looking for freelance graphic designer") (js "3 days ago") Expired 8].

(** The emoji icons: U+1F91D, U+2B50, U+1F525. *)
Definition handshake : jsstr := [0xD83E; 0xDD1D]%Z.
Definition star : jsstr := [0x2B50%Z].
Definition fire : jsstr := [0xD83D; 0xDD25]%Z.

Definition mockBadges : list badge := [
  mkBadge (js "1") (js "Helper") handshake (js "Helped 5+ neighbors") (js "2024-01-15");
  mkBadge (js "2") (js "Reliable") star (js "4.8+ star rating") (js "2024-01-20");
  mkBadge (js "3") (js "Active Member") fire (js "30+ posts created") (js "2024-02-01")].

Definition categoryColors (c : post_category) : jsstr :=
  match c with
  | Help => js "bg-blue-100 text-blue-800"
  | Work => js "bg-green-100 text-green-800"
  | Services => js "bg-purple-100 text-purple-800"
  | Alert => js "bg-red-100 text-red-800"
  end.

Definition statusColors (st : post_status) : jsstr :=
  match st with
  | Active => js "bg-green-100 text-green-800"
  | Completed => js "bg-blue-100 text-blue-800"
  | Expired => js "bg-gray-100 text-gray-800"
  end.

(** [activeTab] *)
Abbreviation state := jsstr.

Definition initial : state := js "posts".

Inductive action : Type :=
  | SetActiveTab (v : jsstr).   (** [onValueChange={setActiveTab}], from a trigger *)

Definition run (activeTab : state) (a : action) : state * list effect :=
  match a with SetActiveTab v => (v, []) end.

Section View.
(** [new Date(d).toLocaleDateString()] in the user's browser. *)
Variable localeDate : jsstr -> jsstr.

Definition post_item (p : post) : node action :=
  NBox None [
    NBox None [NBox None [NText (category_label (category p))];
               NBox None [NText (status_label (status p))]];
    NText (description p);
    NBox None [NText (timeAgo p);
               NBox None [NText (js_of_nat (responseCount p)); NText (js " responses")]]].

Definition badge_item (b : badge) : node action :=
  NBox None [NBox None [
    NBox None [NText (icon b)];
    NBox None [NText (name b); NText (badge_description b);
               NBox None [NBox None [NText (js "Earned on"); NText (js " ");
                                     NText (localeDate (earnedDate b))]]]]].

Definition badge_progress : node action :=
  NBox None [NText (js "Next Badge Progress");
             NBox None [NBox None [
               NBox None [NText (js "Super Helper (Help 10+ people)"); NText (js "7/10")];
               NBox None [NBox None []]]]].

(** The rendered [TabsContent]s: each only when its value is active. *)
Definition tab_panels (activeTab : state) : list (node action) :=
  (if jseqb activeTab (js "posts") then
     [NBox None (map post_item mockPosts ++
                 [NBox None [NButton false None [NText (js "Load more posts")]]])]
   else []) ++
  (if jseqb activeTab (js "badges") then
     [NBox None [NBox None (map badge_item mockBadges); badge_progress]]
   else []).

Definition view (activeTab : state) : list (node action) :=
  [NBox None [
    (* header *)
    NBox None [NBox None [NLink (js "/home") []; NText (js "Profile"); NButton false None []]];
    (* profile header *)
    NBox None [NBox None [
      NBox None [NBox None [NImg (js "/placeholder.svg") []; NText (js "AS")];
                 NButton false None []];
      NText (js "Arjun Sharma");
      NBox None [NText (js "Koramangala, Bangalore")];
      NText (js "Software developer who loves helping the community. Always ready to lend a hand! "
             ++ handshake);
      NBox None [NBox None [NText (js "4.8"); NBox None [NText (js "Rating")]];
                 NBox None [NText (js "32"); NText (js "Posts")];
                 NBox None [NText (js "15"); NText (js "Helped")]];
      NBox None [NText (js "Member since January 2024")]]];
    (* tabs *)
    NBox None [NBox None (
      NBox None [NButton false (Some (SetActiveTab (js "posts"))) [NText (js "My Posts")];
                 NButton false (Some (SetActiveTab (js "badges"))) [NText (js "Badges")]]
      :: tab_panels activeTab)];
    (* bottom spacing *)
    NBox None []]].

Definition reachable : state -> Prop := reach view run initial.
End View.

Definition tab_trigger (j : nat) : list nat := [0; 2; 0; 0; j].

Section Props.
Variable localeDate : jsstr -> jsstr.

Lemma profile_view_nest s : forallb nest_ok (view localeDate s) = true.
Proof. unfold view, tab_panels. simpl. repeat case_match; reflexivity. Qed.

Lemma profile_view_offers s h :
  offers (view localeDate s) h -> h = SetActiveTab (js "posts") \/ h = SetActiveTab (js "badges").
Proof. unfold view, tab_panels. simpl. repeat case_match; simpl; intros Hoff; naive_solver. Qed.

Definition tab_inv (s : state) : Prop := s = js "posts" \/ s = js "badges".

Lemma reachable_tab s : reachable localeDate s -> tab_inv s.
Proof.
  intros Hr. refine (reach_inv (view localeDate) run initial profile_view_nest tab_inv _ _ s Hr).
  - by left.
  - intros s' h _ Hoff. apply profile_view_offers in Hoff as [-> | ->]; [by left|by right].
Qed.

(** In every reachable state of the Profile screen exactly one of
    the two tab panels is rendered, the one of the active tab. *)
Theorem one_tab_panel s :
  reachable localeDate s ->
  (s = js "posts" \/ s = js "badges") /\ length (tab_panels localeDate s) = 1.
Proof.
  intros Hr. destruct (reachable_tab s Hr) as [-> | ->]; split; auto; reflexivity.
Qed.

(** The triggers "My Posts" and "Badges" select their tab, whichever
    tab is active. *)
Theorem tab_trigger_click s :
  react (view localeDate) run s (tab_trigger 0) UClick = Some (js "posts", []) /\
  react (view localeDate) run s (tab_trigger 1) UClick = Some (js "badges", []).
Proof. split; reflexivity. Qed.
End Props.

Lemma one_tab_panel_witness :
(js "badges" = js "posts" \/ js "badges" = js "badges") /\
length (tab_panels (fun d => d) (js "badges")) = 1.
Proof.
apply (one_tab_panel (fun d => d)).
eapply (reach_step _ _ _ _ (tab_trigger 1) UClick); [apply reach_init|].
reflexivity.
Defined.

(** ** The badge dates the Badges tab renders *)

(** The texts of a rendered view, in document order. *)
Definition view_texts (ns : list (node action)) : list jsstr := concat (map node_texts ns).

(** The dates shown after an "Earned on" and a space. *)
Fixpoint earned_dates (ts : list jsstr) : list jsstr :=
  match ts with
  | [] => []
  | t :: ts' =>
      match ts' with
      | sp :: d :: _ => if jseqb t (js "Earned on") && jseqb sp (js " ") then [d] else []
      | _ => []
      end ++ earned_dates ts'
  end.

(** The dates of the badges, as stored. *)
Definition badge_dates : list jsstr := earnedDate <$> mockBadges.

(** The view depends on the formatting function only at the badge dates. *)
Lemma view_ext ld1 ld2 s :
  (forall d, d ∈ badge_dates -> ld1 d = ld2 d) -> view ld1 s = view ld2 s.
Proof.
  intros H. unfold view, tab_panels, badge_item. cbn [map mockBadges earnedDate].
  rewrite !H by (apply (bool_decide_unpack _); vm_compute; reflexivity). reflexivity.
Qed.

Lemma badge_dates_parsed d : d ∈ badge_dates -> exists D, parse_date_only d = Some (D * msPerDay)%Z.
Proof.
  intros Hd. repeat (apply elem_of_cons in Hd as [->|Hd]; [eexists; reflexivity|]).
  by apply not_elem_of_nil in Hd.
Qed.

(** Two zones on the same side of UTC show a badge date alike. *)
Lemma badge_date_same_side offset offset' d :
  (-1440 < offset < 1440)%Z -> (-1440 < offset' < 1440)%Z -> (offset <? 0)%Z = (offset' <? 0)%Z ->
  d ∈ badge_dates -> date_string_locale offset d = date_string_locale offset' d.
Proof.
  intros Ho Ho' Hs Hd. destruct (badge_dates_parsed d Hd) as (D & HD).
  by rewrite (date_string_locale_parsed offset _ D), (date_string_locale_parsed offset' _ D), Hs.
Qed.

(** C26: The Badges tab shows, after each "Earned on", the result of
    [new Date(badge.earnedDate).toLocaleDateString()] (Profile.tsx line
    250): in every time zone west of UTC the day before the badge's date,
    since the date-only strings are read as UTC midnight; east of UTC, and
    in UTC, the badge's own date. *)
Theorem badge_dates_shift offset :
  (-1440 < offset < 1440)%Z ->
  earned_dates (view_texts (view (date_string_locale offset) (js "badges"))) =
  if (offset <? 0)%Z then [js "1/14/2024"; js "1/19/2024"; js "1/31/2024"]
  else [js "1/15/2024"; js "1/20/2024"; js "2/1/2024"].
Proof.
  intros Ho. set (rep := if (offset <? 0)%Z then (-1)%Z else 0%Z).
  rewrite (view_ext _ (date_string_locale rep)).
  - unfold rep. destruct (offset <? 0)%Z; vm_compute; reflexivity.
  - intros d Hd. apply badge_date_same_side; [done| |unfold rep; destruct (offset <? 0)%Z eqn:E; [done|]|done].
    + unfold rep. destruct (offset <? 0)%Z; lia.
    + apply Z.ltb_ge in E. reflexivity.
Qed.

(** In Bangalore (UTC+5:30) the Badges tab shows the right dates; in New
    York (UTC-5) each badge shows the day before. *)
Lemma badge_dates_shift_witness :
  earned_dates (view_texts (view (date_string_locale (-300)) (js "badges"))) =
    [js "1/14/2024"; js "1/19/2024"; js "1/31/2024"] /\
  earned_dates (view_texts (view (date_string_locale 330) (js "badges"))) =
    [js "1/15/2024"; js "1/20/2024"; js "2/1/2024"].
Proof. split; [apply (badge_dates_shift (-300))|apply (badge_dates_shift 330)]; lia. Defined.

End Profile.
