(* ===== verification/Welcome.v ===== *)
(** * Welcome: src/client/pages/Welcome.tsx

    A stateless screen (lines 4-91): branding, two feature tiles and the
    "Get Started" link to [/login]. *)

From Stdlib Require Import ZArith Lia.
From stdpp Require Import base list decidable.
From S2P Require Import Prelude View.

Module Welcome.

(** The screen binds no handler. *)
Inductive action : Type := .

Abbreviation state := unit.

Definition run (s : state) (a : action) : state * list effect := match a with end.

Definition view (s : state) : list (node action) :=
  [NBox None [
    (* logo and branding *)
    NBox None [NBox None []; NText (js "Bartr 3.0"); NText (js "Need something? Just Bartr it.")];
    (* illustration *)
    NBox None [NBox None [NBox None [NBox None []; NBox None [NText (js "Connect with your neighbors")]]]];
    (* features *)
    NBox None [NBox None [NBox None [NBox None []; NText (js "Help Requests")];
                          NBox None [NBox None []; NText (js "Work & Services")]]];
    (* get started *)
    NBox None [NLink (js "/login") [NButton false None [NText (js "Get Started")]];
               NText (js "Join your hyperlocal community today")]]].

Definition get_started : list nat := [0; 3; 0; 0].

End Welcome.
