(* ===== verification/Timers.v ===== *)
(** * Timers: the browser's [setTimeout] / [clearTimeout] (HTML Standard)

    The host keeps a clock (milliseconds), the next timer id and the list
    of active timers, each with its id, its due time and what its callback
    does (a list of effects).  [setTimeout] clamps a negative delay to 0
    and appends a timer with a fresh id; [clearTimeout] removes the timer
    with the given id; a full page load ([window.location.href = ...])
    discards every timer of the old document.  Among the timers that are
    due, the earliest due time runs first, and among equal due times the
    one scheduled first.  The typeclass [TimerHost] (with its laws
    [TimerHostLaws]) is the interface a screen's effect relies on; the
    host is its instance.  This is a model of the host, not of the
    repository's code. *)

From Stdlib Require Import ZArith Lia.
From stdpp Require Import base list decidable.
From S2P Require Import Prelude.

Module Timers.

Record timer : Type := mkTimer { tid : nat; due : Z; callback : list effect }.

Record host : Type := mkHost { now : Z; next_tid : nat; timers : list timer }.

(** Timer ids are positive. *)
Definition initial_host : host := mkHost 0 1 [].

Definition setTimeout (h : host) (cb : list effect) (delay : Z) : host * nat :=
  (mkHost (now h) (S (next_tid h)) (timers h ++ [mkTimer (next_tid h) (now h + Z.max 0 delay) cb]),
   next_tid h).

Definition clearTimeout (h : host) (id : nat) : host :=
  mkHost (now h) (next_tid h) (List.filter (fun t => negb (tid t =? id)) (timers h)).

Definition page_unload (h : host) : host := mkHost (now h) (next_tid h) [].

Definition advance (h : host) (dt : Z) : host := mkHost (now h + dt) (next_tid h) (timers h).

(** The timer with the least due time, the first one among equals. *)
Fixpoint earliest (ts : list timer) : option timer :=
  match ts with
  | [] => None
  | t :: ts' =>
      match earliest ts' with
      | Some u => if (due u <? due t)%Z then Some u else Some t
      | None => Some t
      end
  end.

(** The timer that runs next, if one is due. *)
Definition due_timer (h : host) : option timer :=
  match earliest (timers h) with
  | Some t => if (due t <=? now h)%Z then Some t else None
  | None => None
  end.

(** Running a timer removes it from the active timers. *)
Definition remove_timer (h : host) (t : timer) : host := clearTimeout h (tid t).

(** ** Laws *)

Lemma earliest_in ts t : earliest ts = Some t -> t ∈ ts.
Proof.
  revert t. induction ts as [|u ts IH]; intros t; simpl; [discriminate|].
  destruct (earliest ts) as [v|] eqn:E.
  - destruct (due v <? due u)%Z; intros [= <-]; [apply elem_of_cons; right; by apply IH|].
    apply elem_of_cons; by left.
  - intros [= <-]. apply elem_of_cons; by left.
Qed.

Lemma due_timer_in h t : due_timer h = Some t -> t ∈ timers h.
Proof.
  unfold due_timer. destruct (earliest (timers h)) eqn:E; [|discriminate].
  destruct (due t0 <=? now h)%Z; [intros [= <-]; by apply earliest_in|discriminate].
Qed.

(** ** The interface a screen needs of the host's timers

    A client schedules with [th_set] (which returns the id it was given)
    and cancels with [th_clear]; the laws are those of the HTML Standard's
    timer list, which the concrete host above satisfies. *)

Class TimerHost (H : Type) := {
  th_timers : H -> list timer;
  th_fresh : H -> nat;
  th_set : H -> list effect -> Z -> H * nat;
  th_clear : H -> nat -> H
}.

Class TimerHostLaws (H : Type) `{TimerHost H} := {
  th_set_id h cb d : snd (th_set h cb d) = th_fresh h;
  th_set_timers h cb d :
    exists t, th_timers (fst (th_set h cb d)) = th_timers h ++ [mkTimer (th_fresh h) t cb];
  th_clear_timers h id : th_timers (th_clear h id) = List.filter (fun t => negb (tid t =? id)) (th_timers h)
}.

Section Scoped.
Context `{TimerHostLaws H}.

(** Scheduling a timer and cancelling it by the id received gives back the
    timers of before, when the fresh id was not in use. *)
Lemma set_clear_restores h cb d :
  Forall (fun t => tid t <> th_fresh h) (th_timers h) ->
  th_timers (th_clear (fst (th_set h cb d)) (snd (th_set h cb d))) = th_timers h.
Proof.
  intros Hf. rewrite th_clear_timers, th_set_id. destruct (th_set_timers h cb d) as [t ->].
  rewrite filter_app. simpl. rewrite Nat.eqb_refl. simpl. rewrite app_nil_r.
  apply filter_all_true. eapply Forall_impl; [|exact Hf]. simpl. intros u Hu.
  apply negb_true_iff, Nat.eqb_neq, Hu.
Qed.
End Scoped.

#[export] Instance host_timers : TimerHost host := {
  th_timers := timers; th_fresh := next_tid; th_set := setTimeout; th_clear := clearTimeout }.

#[export] Instance host_timer_laws : TimerHostLaws host.
Proof.
  split; [done| |done].
  intros h cb d. eexists. reflexivity.
Qed.

(** [set_clear_restores] for the browser host, whose ids below [next_tid]
    are the used ones. *)
Lemma host_set_clear h cb d :
  Forall (fun t => tid t < next_tid h) (timers h) ->
  timers (clearTimeout (fst (setTimeout h cb d)) (snd (setTimeout h cb d))) = timers h.
Proof.
  intros Hf. pose proof (set_clear_restores (H := host) h cb d) as Hr. cbn in Hr.
  apply Hr. eapply Forall_impl; [|exact Hf]. simpl. lia.
Qed.

End Timers.
