(* ===== verification/PushConfirmation.v ===== *)
(** * PushConfirmation: src/client/pages/PushConfirmation.tsx

    The effect of lines 7-14 runs once when the screen mounts: it schedules
    [window.location.href = '/home'] after 5000 ms and returns a cleanup
    that clears that timer when the screen unmounts.  The view (lines
    16-122) is static: a success message, two stats, three next steps and
    the links "View Responses" ([/notifications]) and "Back to Feed"
    ([/home]).  That the cleanup releases exactly what the setup acquired
    is proved against the [TimerHost] interface of [Timers]. *)

From Stdlib Require Import ZArith Lia.
From stdpp Require Import base list decidable.
From S2P Require Import Prelude View Timers.

Module PushConfirmation.

Import Timers.

(** The screen keeps no state of its own: only the id the effect got from
    [setTimeout], which its cleanup closes over. *)
Abbreviation state := nat.

Inductive action : Type := .

Definition run (s : state) (a : action) : state * list effect := match a with end.

(** [() => { window.location.href = '/home'; }] *)
Definition redirect : list effect := [AssignLocation (js "/home")].

Definition redirect_delay : Z := 5000.

(** The body of the effect: [const timer = setTimeout(..., 5000)]. *)
Definition effect_setup (h : host) : host * state := setTimeout h redirect redirect_delay.

(** The cleanup it returns: [() => clearTimeout(timer)]. *)
Definition effect_cleanup (timer : state) (h : host) : host := clearTimeout h timer.

(** "🎉" is U+1F389. *)
Definition party : jsstr := [0xD83C; 0xDF89]%Z.

Definition next_step (k msg : jsstr) : node action := NBox None [NBox None [NText k]; NText msg].

Definition view (s : state) : list (node action) :=
  [NBox None [
    (* success animation *)
    NBox None [NBox None [NBox None [NBox None []]; NBox None [NBox None []]; NBox None [NBox None []]];
               NText (party ++ js " Post Pushed Successfully!");
               NText (js "Your post has been pushed to");
               NText (js "50+ users nearby!")];
    (* stats *)
    NBox None [NBox None [NBox None [
      NBox None [NBox None []; NText (js "53"); NText (js "Users Reached")];
      NBox None [NBox None []; NText (js "2.1 km"); NText (js "Push Radius")]]]];
    (* what's next *)
    NBox None [NText (js "What happens next?");
               NBox None [next_step (js "1") (js "Nearby users will see your post in their feed");
                          next_step (js "2") (js "Interested users will respond to your request");
                          next_step (js "3") (js "You'll get notifications for all responses")]];
    (* actions *)
    NBox None [NLink (js "/notifications") [NButton false None [NText (js "View Responses")]];
               NLink (js "/home") [NButton false None [NText (js "Back to Feed")]]];
    NText (js "Redirecting to home in 5 seconds...")]].

Definition view_responses : list nat := [0; 3; 0; 0].
Definition back_to_feed : list nat := [0; 3; 1; 0].

(** C17: The effect is a scoped resource (spec sections 5 and 9): its
    cleanup, run on the id its setup received, gives back the host's
    timers of before, when the host's ids are fresh. *)
Theorem setup_cleanup_restores h :
  Forall (fun t => tid t < next_tid h) (timers h) ->
  timers (effect_cleanup (snd (effect_setup h)) (fst (effect_setup h))) = timers h.
Proof.
  unfold effect_cleanup, effect_setup. apply host_set_clear.
Qed.

Lemma setup_cleanup_restores_witness :
  timers (effect_cleanup (snd (effect_setup initial_host)) (fst (effect_setup initial_host))) = [].
Proof. apply (setup_cleanup_restores initial_host). constructor. Defined.

End PushConfirmation.
