(* ===== verification/App.v ===== *)
(** * App: the screens composed by the router, with the browser's timers

    The route table (App.tsx, which is not among the sources: modelled from
    the specification, section 6) maps the seven paths to their screens.
    The app state is the mounted screen with its local state, the browser
    (clock and active timers) and the console output.  A user event is
    dispatched to the mounted screen's view; the effects it requests are
    then applied in order:
    - [Navigate to] (a [Link] or [navigate()]): to the current path it
      changes nothing (the route element stays mounted); otherwise the
      screen unmounts, running its effect cleanups, and the screen of [to]
      mounts with a fresh state, running its effects;
    - [AssignLocation href]: a full page load; every timer of the old
      document is discarded and the screen of [href] mounts;
    - [ConsoleLog] appends to the console; [ReadAsDataURL] adds a pending
      read to the mounted CreatePost screen (reads of an unmounted screen
      are dropped: their [setImagePreview] would be a no-op).
    Time passes by [tick]: the clock advances and the timers that are due
    run in order.  [app_step] is the step function and [app_reach] the
    reachable states from the welcome screen at time 0. *)

From Stdlib Require Import ZArith Lia.
From stdpp Require Import base list decidable sets.
From S2P Require Import Prelude JsString DataUrl View Timers Login CreatePost Home Notifications Profile.
From S2P Require Import Welcome PushConfirmation.

Module App.

Import Timers.

Inductive route : Type :=
  | RWelcome | RLogin | RHome | RCreatePost | RPushConfirmation | RNotifications | RProfile.

(** [<Route path=... element=... />] for the seven routes. *)
Definition route_of_path (p : jsstr) : option route :=
  if jseqb p (js "/") then Some RWelcome
  else if jseqb p (js "/login") then Some RLogin
  else if jseqb p (js "/home") then Some RHome
  else if jseqb p (js "/create-post") then Some RCreatePost
  else if jseqb p (js "/push-confirmation") then Some RPushConfirmation
  else if jseqb p (js "/notifications") then Some RNotifications
  else if jseqb p (js "/profile") then Some RProfile
  else None.

Inductive mounted : Type :=
  | SWelcome
  | SLogin (s : Login.state)
  | SHome (s : Home.state)
  | SCreatePost (s : CreatePost.state) (pending : list file)
  | SPushConfirmation (timer : nat)
  | SNotifications (s : Notifications.state)
  | SProfile (s : Profile.state)
  | SNotFound (path : jsstr).

Record app : Type := mkApp { screen : mounted; browser : host; console : list (list jsstr) }.

Definition screen_path (sc : mounted) : jsstr :=
  match sc with
  | SWelcome => js "/"
  | SLogin _ => js "/login"
  | SHome _ => js "/home"
  | SCreatePost _ _ => js "/create-post"
  | SPushConfirmation _ => js "/push-confirmation"
  | SNotifications _ => js "/notifications"
  | SProfile _ => js "/profile"
  | SNotFound p => p
  end.

(** Mounting the screen of a path: its initial state and its effects. *)
Definition mount (p : jsstr) (h : host) : mounted * host :=
  match route_of_path p with
  | Some RWelcome => (SWelcome, h)
  | Some RLogin => (SLogin Login.initial, h)
  | Some RHome => (SHome Home.initial, h)
  | Some RCreatePost => (SCreatePost CreatePost.initial [], h)
  | Some RPushConfirmation =>
      let '(h', t) := PushConfirmation.effect_setup h in (SPushConfirmation t, h')
  | Some RNotifications => (SNotifications Notifications.initial, h)
  | Some RProfile => (SProfile Profile.initial, h)
  | None => (SNotFound p, h)
  end.

(** Unmounting runs the cleanups of the screen's effects. *)
Definition unmount (sc : mounted) (h : host) : host :=
  match sc with
  | SPushConfirmation t => PushConfirmation.effect_cleanup t h
  | _ => h
  end.

Definition apply_effect (a : app) (e : effect) : app :=
  match e with
  | ConsoleLog args => mkApp (screen a) (browser a) (console a ++ [args])
  | ReadAsDataURL f =>
      match screen a with
      | SCreatePost s pend => mkApp (SCreatePost s (pend ++ [f])) (browser a) (console a)
      | _ => a
      end
  | Navigate to =>
      if jseqb (screen_path (screen a)) to then a
      else let '(sc, h) := mount to (unmount (screen a) (browser a)) in mkApp sc h (console a)
  | AssignLocation href =>
      let '(sc, h) := mount href (page_unload (browser a)) in mkApp sc h (console a)
  end.

Definition apply_effects (a : app) (es : list effect) : app := fold_left apply_effect es a.

(** Running due timers, earliest first; each run removes its timer. *)
Fixpoint fire (fuel : nat) (a : app) : app :=
  match fuel with
  | 0 => a
  | S n =>
      match due_timer (browser a) with
      | None => a
      | Some t => fire n (apply_effects (mkApp (screen a) (remove_timer (browser a) t) (console a))
                                        (callback t))
      end
  end.

(** [dt] milliseconds pass. *)
Definition tick (dt : Z) (a : app) : app :=
  let a1 := mkApp (screen a) (advance (browser a) dt) (console a) in
  fire (length (timers (browser a1))) a1.

Inductive app_event : Type :=
  | AUser (path : list nat) (ev : uevent)
  | ATick (dt : Z)
  | AReaderLoad (i : nat).

Definition app_init : app :=
  let '(sc, h) := mount (js "/") initial_host in mkApp sc h [].

Section WithHost.
(** The browser's [toLocaleDateString] (used by Profile). *)
Variable localeDate : jsstr -> jsstr.

Definition lift {S A B : Type} (f : S -> B) (r : option (S * A)) : option (B * A) :=
  match r with Some (s, e) => Some (f s, e) | None => None end.

(** The mounted screen's reaction to a user event. *)
Definition screen_react (sc : mounted) (path : list nat) (ev : uevent) :
    option (mounted * list effect) :=
  match sc with
  | SWelcome => lift (fun _ => SWelcome) (react Welcome.view Welcome.run tt path ev)
  | SLogin s => lift SLogin (react Login.view Login.run s path ev)
  | SHome s => lift SHome (react Home.view Home.run s path ev)
  | SCreatePost s pend =>
      lift (fun s' => SCreatePost s' pend) (react CreatePost.view CreatePost.run s path ev)
  | SPushConfirmation t =>
      lift SPushConfirmation (react PushConfirmation.view PushConfirmation.run t path ev)
  | SNotifications s => lift SNotifications (react Notifications.view Notifications.run s path ev)
  | SProfile s => lift SProfile (react (Profile.view localeDate) Profile.run s path ev)
  | SNotFound _ => None
  end.

Definition app_step (a : app) (e : app_event) : option app :=
  match e with
  | AUser path ev =>
      match screen_react (screen a) path ev with
      | Some (sc, es) => Some (apply_effects (mkApp sc (browser a) (console a)) es)
      | None => None
      end
  | ATick dt => if (0 <=? dt)%Z then Some (tick dt a) else None
  | AReaderLoad i =>
      match screen a with
      | SCreatePost s pend =>
          match pend !! i with
          | Some f =>
              Some (mkApp (SCreatePost (fst (CreatePost.run s (CreatePost.PreviewLoaded (data_url f))))
                                       (delete i pend))
                          (browser a) (console a))
          | None => None
          end
      | _ => None
      end
  end.

Inductive app_reach : app -> Prop :=
  | app_reach_init : app_reach app_init
  | app_reach_step a e a' : app_reach a -> app_step a e = Some a' -> app_reach a'.
End WithHost.

(** Events run in order; [None] as soon as one does not apply. *)
Fixpoint run_events (ld : jsstr -> jsstr) (a : app) (evs : list app_event) : option app :=
match evs with
| [] => Some a
| e :: evs' => match app_step ld a e with Some a' => run_events ld a' evs' | None => None end
end.

(** ** The redirect timer is owned by the mounted PushConfirmation screen *)

Definition app_inv (a : app) : Prop :=
match screen a with
| SPushConfirmation id =>
    exists d, timers (browser a) = [mkTimer id d PushConfirmation.redirect] /\
              (d <= now (browser a) + PushConfirmation.redirect_delay)%Z
| _ => timers (browser a) = []
end.

Lemma mount_inv p h c :
timers h = [] -> app_inv (let '(sc, h') := mount p h in mkApp sc h' c) /\
now (snd (mount p h)) = now h.
Proof.
intros Hh. unfold mount. destruct (route_of_path p) as [[]|]; simpl; auto.
unfold PushConfirmation.effect_setup, setTimeout, app_inv. simpl. rewrite Hh. simpl.
split; [|done]. eexists. split; [reflexivity|]. unfold PushConfirmation.redirect_delay. lia.
Qed.

Lemma unmount_clears a : app_inv a -> timers (unmount (screen a) (browser a)) = [].
Proof.
unfold app_inv. destruct a as [[] h c]; simpl; auto.
intros (d & Ht & _). unfold PushConfirmation.effect_cleanup, clearTimeout. simpl.
rewrite Ht. simpl. by rewrite Nat.eqb_refl.
Qed.

(** A full page load discards every timer, whatever the state before. *)
Lemma apply_assign_inv a href : app_inv (apply_effect a (AssignLocation href)).
Proof.
simpl. pose proof (mount_inv href (page_unload (browser a)) (console a) eq_refl) as [H _].
by destruct (mount href _).
Qed.

Lemma apply_effect_inv a e : app_inv a -> app_inv (apply_effect a e).
Proof.
intros Hi. destruct e as [to|href|args|f]; simpl.
- destruct (jseqb (screen_path (screen a)) to); [done|].
  pose proof (mount_inv to (unmount (screen a) (browser a)) (console a) (unmount_clears a Hi)) as [H _].
  by destruct (mount to _).
- apply apply_assign_inv.
- by destruct a as [[] h c].
- destruct a as [[] h c]; simpl in *; done.
Qed.

Lemma apply_effects_inv a es : app_inv a -> app_inv (apply_effects a es).
Proof. revert a. induction es as [|e es IH]; intros a Hi; simpl; [done|]. by apply IH, apply_effect_inv. Qed.

Lemma push_view_nest t : forallb nest_ok (PushConfirmation.view t) = true.
Proof. reflexivity. Qed.

(** PushConfirmation binds no handler: a user event keeps its timer id. *)
Lemma push_react t path ev t' e :
react PushConfirmation.view PushConfirmation.run t path ev = Some (t', e) -> t' = t.
Proof.
intros Hr. destruct (react_cases _ _ push_view_nest _ _ _ _ _ Hr)
  as (r & _ & [(_ & -> & _)|(h & _ & _ & _ & _)]); [done|destruct h].
Qed.

Lemma screen_react_inv ld a path ev sc es :
app_inv a -> screen_react ld (screen a) path ev = Some (sc, es) ->
app_inv (mkApp sc (browser a) (console a)).
Proof.
unfold app_inv. destruct a as [[] h c]; simpl; intros Hi Hr;
  repeat match goal with
  | H : lift _ ?r = Some _ |- _ => destruct r as [[? ?]|] eqn:?; simplify_eq/=
  end; try done.
by rewrite (push_react _ _ _ _ _ ltac:(eassumption)).
Qed.

Lemma fire_inv n a : app_inv a -> app_inv (fire n a).
Proof.
revert a. induction n as [|n IH]; intros a Hi; simpl; [done|].
destruct (due_timer (browser a)) as [t|] eqn:Hd; [|done].
apply IH. apply due_timer_in in Hd. unfold app_inv in Hi.
destruct (screen a); try (rewrite Hi in Hd; by apply not_elem_of_nil in Hd).
destruct Hi as (d & Ht & _). rewrite Ht in Hd. apply list_elem_of_singleton in Hd as ->.
apply apply_assign_inv.
Qed.

Lemma tick_inv dt a : (0 <= dt)%Z -> app_inv a -> app_inv (tick dt a).
Proof.
intros Hdt Hi. unfold tick. apply fire_inv. unfold app_inv in *. simpl.
destruct (screen a); try done. destruct Hi as (d & Ht & Hle). exists d. split; [done|lia].
Qed.

Lemma app_step_inv ld a e a' : app_inv a -> app_step ld a e = Some a' -> app_inv a'.
Proof.
intros Hi Hs. destruct e as [path ev|dt|i]; simpl in Hs.
- destruct (screen_react ld (screen a) path ev) as [[sc es]|] eqn:Hr; [|discriminate].
  injection Hs as <-. apply apply_effects_inv. by eapply screen_react_inv.
- destruct (0 <=? dt)%Z eqn:Hdt; [|discriminate]. injection Hs as <-.
  apply tick_inv; [by apply Z.leb_le|done].
- unfold app_inv in *. destruct a as [[] h c]; simpl in *; try discriminate.
  destruct (pending !! i); [|discriminate]. by injection Hs as <-.
Qed.

Lemma app_reach_inv ld a : app_reach ld a -> app_inv a.
Proof.
induction 1 as [|a e a' _ IH Hs]; [|by eapply app_step_inv].
unfold app_init. pose proof (mount_inv (js "/") initial_host [] eq_refl) as [H _].
by destruct (mount _ _).
Qed.

Lemma run_events_reach ld a evs a' :
app_reach ld a -> run_events ld a evs = Some a' -> app_reach ld a'.
Proof.
revert a. induction evs as [|e evs IH]; intros a Hr; simpl; [by intros [= <-]|].
destruct (app_step ld a e) as [a1|] eqn:Hs; [|discriminate]. apply IH. by econstructor.
Qed.

(** ** How time passes *)

Definition on_confirmation (sc : mounted) : bool :=
match sc with SPushConfirmation _ => true | _ => false end.

(** Off the confirmation screen there is no timer: time only passes. *)
Lemma tick_idle a dt :
app_inv a -> on_confirmation (screen a) = false ->
tick dt a = mkApp (screen a) (advance (browser a) dt) (console a).
Proof.
unfold app_inv, tick. destruct a as [[] [n k ts] c]; simpl; intros Hi Hc; try discriminate;
  by subst.
Qed.

(** On the confirmation screen the redirect runs exactly when it is due. *)
Lemma tick_confirmation a dt id d :
screen a = SPushConfirmation id ->
timers (browser a) = [mkTimer id d PushConfirmation.redirect] ->
tick dt a =
  if (d <=? now (browser a) + dt)%Z
  then mkApp (SHome Home.initial) (mkHost (now (browser a) + dt) (next_tid (browser a)) [])
             (console a)
  else mkApp (screen a) (advance (browser a) dt) (console a).
Proof.
destruct a as [sc [n k ts] c]; simpl. intros -> ->.
unfold tick, advance. simpl. unfold due_timer. simpl. destruct (d <=? n + dt)%Z; reflexivity.
Qed.

(** With the timer owned by the confirmation screen, waiting the delay
    reloads the page at /home. *)
Lemma tick_redirect a id dt :
app_inv a -> screen a = SPushConfirmation id -> (PushConfirmation.redirect_delay <= dt)%Z ->
screen (tick dt a) = SHome Home.initial /\ timers (browser (tick dt a)) = [].
Proof.
intros Hi Hs Hdt. unfold app_inv in Hi.
rewrite Hs in Hi. destruct Hi as (d & Hts & Hd).
rewrite (tick_confirmation a dt id d Hs Hts).
by replace (d <=? now (browser a) + dt)%Z with true by (symmetry; apply Z.leb_le; lia).
Qed.

(** C1: In every reachable state of the app, every active timer is the
  redirect scheduled by the mounted PushConfirmation screen, under the id
  that screen keeps for its cleanup: leaving the screen cancels it. *)
Theorem timer_ownership ld a t :
app_reach ld a -> t ∈ timers (browser a) ->
screen a = SPushConfirmation (tid t) /\ callback t = PushConfirmation.redirect.
Proof.
intros Hr Ht. pose proof (app_reach_inv ld a Hr) as Hi. unfold app_inv in Hi.
destruct (screen a); try (rewrite Hi in Ht; by apply not_elem_of_nil in Ht).
destruct Hi as (d & Hts & _). rewrite Hts in Ht. apply list_elem_of_singleton in Ht as ->.
done.
Qed.

(** C4: Once the user has left the confirmation screen (by its buttons or
  any other way), no redirect happens: passing time changes nothing but
  the clock. *)
Theorem no_stale_redirect ld a dt :
app_reach ld a -> on_confirmation (screen a) = false ->
tick dt a = mkApp (screen a) (advance (browser a) dt) (console a).
Proof. intros Hr Hc. apply tick_idle; [by eapply app_reach_inv|done]. Qed.

(** C2: From the confirmation screen, at the latest 5000 ms later the page
  is reloaded at /home: the Home screen with the seed feed, and no timer. *)
Theorem redirect_after_delay ld a id dt :
app_reach ld a -> screen a = SPushConfirmation id -> (PushConfirmation.redirect_delay <= dt)%Z ->
screen (tick dt a) = SHome Home.initial /\ timers (browser (tick dt a)) = [].
Proof. intros Hr. apply tick_redirect, (app_reach_inv ld a Hr). Qed.

(** ** The navigation graph *)

Definition effect_target (e : effect) : option jsstr :=
  match e with Navigate t | AssignLocation t => Some t | _ => None end.

(** Where a user event on each screen can lead: the [to] of its links and
    the targets of its handlers. *)
Definition nav_targets (sc : mounted) : list jsstr :=
  match sc with
  | SWelcome => [js "/login"]
  | SLogin _ => [js "/"; js "/home"]
  | SHome _ => [js "/notifications"; js "/profile"; js "/create-post"; js "/home"]
  | SCreatePost _ _ => [js "/home"; js "/push-confirmation"]
  | SPushConfirmation _ => [js "/notifications"; js "/home"]
  | SNotifications _ | SProfile _ => [js "/home"]
  | SNotFound _ => []
  end.

Definition targets_ok (allowed : list jsstr) (es : list effect) : bool :=
  forallb (fun x => match effect_target x with Some t => bool_decide (t ∈ allowed) | None => true end) es.

Lemma targets_ok_spec allowed es :
  targets_ok allowed es = true <-> forall x t, x ∈ es -> effect_target x = Some t -> t ∈ allowed.
Proof.
  unfold targets_ok. rewrite forallb_forall. split.
  - intros H x t Hx Ht. specialize (H x (proj1 (list_elem_of_In _ _) Hx)). rewrite Ht in H.
    by apply bool_decide_eq_true in H.
  - intros H x Hx. apply list_elem_of_In in Hx. destruct (effect_target x) eqn:Ht; [|done].
    apply bool_decide_eq_true. by eapply H.
Qed.

Section Targets.
Context {S A : Type} (view : S -> list (node A)) (run : S -> A -> S * list effect).
Hypothesis view_nest : forall s, forallb nest_ok (view s) = true.

Lemma react_targets allowed s path ev s' es :
  links (view s) ⊆ allowed ->
  (forall h, offers (view s) h -> targets_ok allowed (snd (run s h)) = true) ->
  react view run s path ev = Some (s', es) -> targets_ok allowed es = true.
Proof.
  intros Hl Hh Hr. apply targets_ok_spec. intros x t Hx Ht.
  destruct (react_effects view run view_nest _ _ _ _ _ _ Hr Hx) as [(h & Hoff & Hxh)|(to & -> & Hto)].
  - by apply (proj1 (targets_ok_spec _ _) (Hh h Hoff) x).
  - simpl in Ht. injection Ht as <-. by apply Hl.
Qed.
End Targets.

(** The links of each screen. *)

Ltac links_simpl :=
  repeat (first [progress simpl | progress rewrite ?links_fix, ?links_app, ?app_nil_r | case_match]).

Lemma login_links s : links (Login.view s) = [js "/"; js "/home"].
Proof.
  destruct s as [[] ph o [e1 e2]];
    unfold Login.view, Login.phone_form, Login.otp_form, Login.error_line; links_simpl; reflexivity.
Qed.

Lemma post_card_links p : node_links (Home.post_card p) = [].
Proof. unfold Home.post_card. links_simpl; reflexivity. Qed.

Lemma home_links posts : links (Home.view posts) =
  [js "/notifications"; js "/profile"; js "/create-post"; js "/home"; js "/create-post";
   js "/notifications"; js "/profile"].
Proof. unfold Home.view. links_simpl. by rewrite links_map_nil by apply post_card_links. Qed.

Lemma createpost_links s : links (CreatePost.view s) = [js "/home"].
Proof. unfold CreatePost.view. links_simpl; reflexivity. Qed.

Lemma card_links n : node_links (Notifications.card n) = [].
Proof. unfold Notifications.card. links_simpl; reflexivity. Qed.

Lemma notifications_links l : links (Notifications.view l) = [js "/home"].
Proof. unfold Notifications.view. links_simpl; rewrite ?links_map_nil by apply card_links; reflexivity. Qed.

Lemma profile_links ld s : links (Profile.view ld s) = [js "/home"].
Proof. unfold Profile.view, Profile.tab_panels. links_simpl; reflexivity. Qed.

Ltac sub_tac := apply (bool_decide_unpack _); vm_compute; reflexivity.

Lemma screen_react_targets ld sc path ev sc' es :
  screen_react ld sc path ev = Some (sc', es) -> targets_ok (nav_targets sc) es = true.
Proof.
  destruct sc; simpl; intros Hr; try discriminate;
    destruct (react _ _ _ path ev) as [[? ?]|] eqn:Hre; simplify_eq/=; eapply react_targets; try exact Hre.
  - intros []. reflexivity.
  - sub_tac.
  - intros h. destruct h.
  - exact Login.login_view_nest.
  - rewrite login_links. sub_tac.
  - intros h _. destruct h; simpl; unfold Login.handleOtpSubmit; repeat case_match; reflexivity.
  - exact Home.home_view_nest.
  - rewrite home_links. sub_tac.
  - intros h _. by destruct h.
  - exact CreatePost.createpost_view_nest.
  - rewrite createpost_links. sub_tac.
  - intros h _. destruct h; simpl; unfold CreatePost.handleSubmit, CreatePost.handleImageUpload;
      repeat case_match; reflexivity.
  - exact push_view_nest.
  - sub_tac.
  - intros h. destruct h.
  - exact Notifications.notifications_view_nest.
  - rewrite notifications_links. sub_tac.
  - intros h _. destruct h; simpl; repeat case_match; reflexivity.
  - exact (Profile.profile_view_nest ld).
  - rewrite profile_links. sub_tac.
  - intros h _. by destruct h.
Qed.

(** ** Where the app can go *)

Lemma mount_path p h : screen_path (fst (mount p h)) = p.
Proof.
  unfold mount, route_of_path.
  repeat match goal with |- context [jseqb p ?q] =>
    let E := fresh "E" in destruct (jseqb p q) eqn:E; [apply jseqb_true in E; by subst|] end.
  done.
Qed.

Lemma screen_react_path ld sc path ev sc' es :
  screen_react ld sc path ev = Some (sc', es) -> screen_path sc' = screen_path sc.
Proof.
  destruct sc; simpl; intros Hr; try discriminate;
    destruct (react _ _ _ path ev) as [[? ?]|]; simplify_eq/=; done.
Qed.

(** After a list of effects the app is where it was or at the target of
    one of the effects. *)
Lemma apply_effects_path a es :
  screen_path (screen (apply_effects a es)) = screen_path (screen a) \/
  exists x, x ∈ es /\ effect_target x = Some (screen_path (screen (apply_effects a es))).
Proof.
  revert a. induction es as [|e es IH]; intros a; simpl; [by left|].
  destruct (IH (apply_effect a e)) as [H|(x & Hx & Ht)];
    [|right; exists x; split; [by apply elem_of_cons; right|done]].
  rewrite H. destruct e as [to|href|args|f]; simpl.
  - destruct (jseqb (screen_path (screen a)) to); [by left|].
    right. exists (Navigate to). split; [by apply elem_of_cons; left|].
    destruct (mount to _) as [sc h] eqn:Hm. simpl. f_equal.
    pose proof (mount_path to (unmount (screen a) (browser a))) as Hp. by rewrite Hm in Hp.
  - right. exists (AssignLocation href). split; [by apply elem_of_cons; left|].
    destruct (mount href _) as [sc h] eqn:Hm. simpl. f_equal.
    pose proof (mount_path href (page_unload (browser a))) as Hp. by rewrite Hm in Hp.
  - by left.
  - left. by destruct a as [[] ? ?].
Qed.

(** A user event leaves the app on its screen or at one of its targets. *)
Lemma user_step_path ld a path ev a' :
  app_step ld a (AUser path ev) = Some a' ->
  screen_path (screen a') = screen_path (screen a) \/ screen_path (screen a') ∈ nav_targets (screen a).
Proof.
  simpl. destruct (screen_react ld (screen a) path ev) as [[sc es]|] eqn:Hr; [|discriminate].
  intros [= <-]. pose proof (screen_react_targets _ _ _ _ _ _ Hr) as Ht.
  destruct (apply_effects_path (mkApp sc (browser a) (console a)) es) as [H|(x & Hx & Hxt)].
  - left. rewrite H. simpl. by eapply screen_react_path.
  - right. by apply (proj1 (targets_ok_spec _ _) Ht x).
Qed.

Lemma tick_screen dt a :
  app_inv a ->
  screen (tick dt a) = screen a \/
  (on_confirmation (screen a) = true /\ screen (tick dt a) = SHome Home.initial).
Proof.
  intros Hi. destruct (on_confirmation (screen a)) eqn:Hc.
  - unfold app_inv in Hi. destruct (screen a) eqn:Hs; try discriminate. destruct Hi as (d & Hts & _).
    rewrite (tick_confirmation a dt _ d Hs Hts). destruct (d <=? _)%Z; [right|left]; done.
  - left. by rewrite tick_idle.
Qed.

(** Every step, of the user or of a timer, keeps the app on its screen
    or follows an edge of [nav_targets]. *)
Lemma step_path ld a e a' :
  app_inv a -> app_step ld a e = Some a' ->
  screen_path (screen a') = screen_path (screen a) \/ screen_path (screen a') ∈ nav_targets (screen a).
Proof.
  intros Hi Hs. destruct e as [path ev|dt|i].
  - by eapply user_step_path.
  - simpl in Hs. destruct (0 <=? dt)%Z; [|discriminate]. injection Hs as <-.
    destruct (tick_screen dt a Hi) as [->|[Hc ->]]; [by left|right].
    destruct (screen a); try discriminate. simpl. elem_of_list.
  - simpl in Hs. destruct (screen a); try discriminate. destruct (_ !! i); [|discriminate].
    injection Hs as <-. by left.
Qed.

Lemma nav_targets_routes sc t : t ∈ nav_targets sc -> route_of_path t <> None.
Proof.
  destruct sc; simpl; intros Ht;
    repeat (apply elem_of_cons in Ht as [->|Ht]; [discriminate|]); by apply not_elem_of_nil in Ht.
Qed.

Lemma app_reach_routes ld a : app_reach ld a -> route_of_path (screen_path (screen a)) <> None.
Proof.
  induction 1 as [|a e a' Hr IH Hs]; [by vm_compute|].
  destruct (step_path ld a e a' (app_reach_inv _ _ Hr) Hs) as [->|Ht]; [done|].
  by eapply nav_targets_routes.
Qed.

(** The [onClick] of CreatePost that leads to the confirmation is the
    submit button's, which is enabled only for a valid form. *)
Lemma createpost_to_confirmation s path ev s' es x :
  react CreatePost.view CreatePost.run s path ev = Some (s', es) -> x ∈ es ->
  effect_target x = Some (js "/push-confirmation") -> CreatePost.isFormValid s = true.
Proof.
  intros Hr Hx Ht.
  destruct (react_effects _ _ CreatePost.createpost_view_nest _ _ _ _ _ _ Hr Hx) as [(h & Hoff & Hxh)|(to & -> & Hto)].
  - apply CreatePost.createpost_view_offers in Hoff as [(v & -> & _)|[(v & -> & _)|[(fo & ->)|[(b & ->)|[-> Hv]]]]];
      simpl in Hxh; try (by apply not_elem_of_nil in Hxh); [|done].
    destruct fo; simpl in Hxh; [|by apply not_elem_of_nil in Hxh].
    apply list_elem_of_singleton in Hxh as ->. discriminate.
  - rewrite createpost_links in Hto. apply list_elem_of_singleton in Hto as ->. discriminate.
Qed.

Lemma push_target sc : js "/push-confirmation" ∈ nav_targets sc -> exists s pend, sc = SCreatePost s pend.
Proof.
  destruct sc; intros H; eauto; exfalso; revert H; apply (bool_decide_unpack _); vm_compute; reflexivity.
Qed.

(** ** The redirect is due exactly 5000 ms after the screen mounts *)

Definition fresh_timer (a : app) : Prop :=
  match screen a with
  | SPushConfirmation id =>
      timers (browser a) = [mkTimer id (now (browser a) + PushConfirmation.redirect_delay) PushConfirmation.redirect]
  | _ => True
  end.

Lemma mount_fresh p h c : timers h = [] -> fresh_timer (let '(sc, h') := mount p h in mkApp sc h' c).
Proof.
  intros Hh. unfold mount, fresh_timer. destruct (route_of_path p) as [[]|]; simpl; auto.
  unfold PushConfirmation.effect_setup, setTimeout. simpl. by rewrite Hh.
Qed.

Lemma apply_effect_fresh_timer a e : app_inv a -> fresh_timer a -> fresh_timer (apply_effect a e).
Proof.
  intros Hi Hf. destruct e as [to|href|args|f]; simpl.
  - destruct (jseqb (screen_path (screen a)) to); [done|].
    pose proof (mount_fresh to (unmount (screen a) (browser a)) (console a) (unmount_clears a Hi)).
    by destruct (mount to _).
  - pose proof (mount_fresh href (page_unload (browser a)) (console a) eq_refl). by destruct (mount href _).
  - by destruct a as [[] h c].
  - destruct a as [[] h c]; simpl in *; done.
Qed.

Lemma apply_effects_fresh_timer a es : app_inv a -> fresh_timer a -> fresh_timer (apply_effects a es).
Proof.
  revert a. induction es as [|e es IH]; intros a Hi Hf; simpl; [done|].
  apply IH; [by apply apply_effect_inv|by apply apply_effect_fresh_timer].
Qed.

Lemma screen_react_confirmation ld sc path ev sc' es :
  screen_react ld sc path ev = Some (sc', es) -> on_confirmation sc' = on_confirmation sc.
Proof.
  destruct sc; simpl; intros Hr; try discriminate;
    destruct (react _ _ _ path ev) as [[? ?]|]; simplify_eq/=; done.
Qed.

(** A step that enters the confirmation screen leaves its fresh timer. *)
Lemma entry_fresh_timer ld a e a' :
  app_inv a -> app_step ld a e = Some a' ->
  on_confirmation (screen a) = false -> on_confirmation (screen a') = true -> fresh_timer a'.
Proof.
  intros Hi Hs Hc Hc'. destruct e as [path ev|dt|i]; simpl in Hs.
  - destruct (screen_react ld (screen a) path ev) as [[sc es]|] eqn:Hre; [|discriminate].
    injection Hs as <-. apply apply_effects_fresh_timer; [by eapply screen_react_inv|].
    unfold fresh_timer. simpl. rewrite <- (screen_react_confirmation _ _ _ _ _ _ Hre) in Hc.
    by destruct sc.
  - destruct (0 <=? dt)%Z; [|discriminate]. injection Hs as <-.
    destruct (tick_screen dt a Hi) as [H|[H _]]; [rewrite H in Hc'|]; congruence.
  - destruct (screen a); try discriminate. destruct (_ !! i); [|discriminate].
    injection Hs as <-. discriminate.
Qed.

(** ** The app's navigation *)

(** C12: Every step of the app, a user event as well as a timer, keeps the
    current route or follows an edge of the navigation graph
    [nav_targets]: the links and handlers of the screens, e.g. Welcome
    only to /login and CreatePost only to /home and /push-confirmation. *)
Theorem navigation_graph ld a e a' :
  app_reach ld a -> app_step ld a e = Some a' ->
  screen_path (screen a') = screen_path (screen a) \/ screen_path (screen a') ∈ nav_targets (screen a).
Proof. intros Hr. apply step_path. by eapply app_reach_inv. Qed.

(** C13: No reachable state shows the not-found page: every link and
    navigation of the screens names one of the seven routes. *)
Theorem no_dead_links ld a : app_reach ld a -> route_of_path (screen_path (screen a)) <> None.
Proof. apply app_reach_routes. Qed.

(** C5: The confirmation screen is entered only from the CreatePost screen
    with a valid form (a category and more than 10 characters of trimmed
    description), or is already mounted. *)
Theorem confirmation_entry ld a e a' id :
  app_reach ld a -> app_step ld a e = Some a' -> screen a' = SPushConfirmation id ->
  on_confirmation (screen a) = true \/
  exists s pend, screen a = SCreatePost s pend /\ CreatePost.isFormValid s = true.
Proof.
  intros Hr Hs Ha. destruct e as [path ev|dt|i]; simpl in Hs.
  - destruct (screen_react ld (screen a) path ev) as [[sc es]|] eqn:Hre; [|discriminate].
    injection Hs as <-.
    destruct (apply_effects_path (mkApp sc (browser a) (console a)) es) as [Hp|(x & Hx & Ht)];
      [rewrite Ha in Hp; simpl in Hp|rewrite Ha in Ht; simpl in Ht].
    + rewrite (screen_react_path _ _ _ _ _ _ Hre) in Hp. left.
      destruct (screen a); simpl in Hre, Hp; try done; exfalso; revert Hp;
        apply (bool_decide_unpack _); vm_compute; reflexivity.
    + pose proof (proj1 (targets_ok_spec _ _) (screen_react_targets _ _ _ _ _ _ Hre) x _ Hx Ht) as Hin.
      destruct (push_target _ Hin) as (s & pend & Hsa). right. exists s, pend. split; [done|].
      rewrite Hsa in Hre. simpl in Hre.
      destruct (react CreatePost.view CreatePost.run s path ev) as [[s' es']|] eqn:Hc; simplify_eq/=.
      by eapply createpost_to_confirmation.
  - destruct (0 <=? dt)%Z; [|discriminate]. injection Hs as <-.
    destruct (tick_screen dt a (app_reach_inv _ _ Hr)) as [H|[_ H]]; rewrite H in Ha; [|discriminate].
    left. by rewrite Ha.
  - destruct (screen a); try discriminate. destruct (_ !! i); [|discriminate].
    injection Hs as <-. discriminate.
Qed.

(** C3: Entering the confirmation screen schedules the redirect exactly
    5000 ms ahead: for less than 5000 ms after the entering step, time
    passing leaves the user on the screen (with C2, the redirect happens
    5000 ms after the entry when the user stays). *)
Theorem no_early_redirect ld a e a' dt :
  app_reach ld a -> app_step ld a e = Some a' ->
  on_confirmation (screen a) = false -> on_confirmation (screen a') = true ->
  (0 <= dt < PushConfirmation.redirect_delay)%Z ->
  screen (tick dt a') = screen a'.
Proof.
  intros Hr Hs Hc Hc' Hdt. pose proof (entry_fresh_timer ld a e a' (app_reach_inv _ _ Hr) Hs Hc Hc') as Hf.
  unfold fresh_timer in Hf. destruct (screen a') eqn:Ha; try discriminate.
  rewrite (tick_confirmation a' dt _ _ Ha Hf).
  by replace (now (browser a') + PushConfirmation.redirect_delay <=? now (browser a') + dt)%Z
    with false by (symmetry; apply Z.leb_gt; lia).
Qed.

(** ** A session: welcome, skip the login, post a request, wait, leave *)

Definition to_confirmation : list app_event :=
[AUser Welcome.get_started UClick;
 AUser Login.skip_link UClick;
 AUser [0; 1; 0; 0] UClick;
 AUser CreatePost.category_select (USelect (js "help"));
 AUser CreatePost.description_input (UInput (js "Need help moving a sofa"));
 AUser CreatePost.submit_button UClick].

Definition leave_early : list app_event :=
[ATick 2000; AUser PushConfirmation.view_responses UClick].

Definition session (evs : list app_event) : app :=
match run_events (fun d => d) app_init evs with Some a => a | None => app_init end.

Lemma session_reach evs :
run_events (fun d => d) app_init evs = Some (session evs) -> app_reach (fun d => d) (session evs).
Proof. intros H. eapply run_events_reach; [constructor|exact H]. Qed.

Lemma timer_ownership_witness :
screen (session to_confirmation) = SPushConfirmation 1 /\
callback (mkTimer 1 5000 PushConfirmation.redirect) = PushConfirmation.redirect.
Proof.
apply (timer_ownership (fun d => d) (session to_confirmation) (mkTimer 1 5000 PushConfirmation.redirect)).
- apply session_reach. vm_compute. reflexivity.
- vm_compute. left.
Defined.

Lemma no_stale_redirect_witness :
tick 5000 (session (to_confirmation ++ leave_early)) =
mkApp (screen (session (to_confirmation ++ leave_early)))
      (advance (browser (session (to_confirmation ++ leave_early))) 5000)
      (console (session (to_confirmation ++ leave_early))).
Proof.
apply (no_stale_redirect (fun d => d)).
- apply session_reach. vm_compute. reflexivity.
- vm_compute. reflexivity.
Defined.

Lemma redirect_after_delay_witness :
screen (tick 5000 (session to_confirmation)) = SHome Home.initial /\
timers (browser (tick 5000 (session to_confirmation))) = [].
Proof.
apply (redirect_after_delay (fun d => d) _ 1).
- apply session_reach. vm_compute. reflexivity.
- vm_compute. reflexivity.
- vm_compute. discriminate.
Defined.

Definition before_submit : list app_event := removelast to_confirmation.

Definition submit_event : app_event := AUser CreatePost.submit_button UClick.

Lemma navigation_graph_witness :
  screen_path (screen (session (to_confirmation ++ leave_early))) =
    screen_path (screen (session (to_confirmation ++ [ATick 2000]))) \/
  screen_path (screen (session (to_confirmation ++ leave_early))) ∈
    nav_targets (screen (session (to_confirmation ++ [ATick 2000]))).
Proof.
  apply (navigation_graph (fun d => d) _ (AUser PushConfirmation.view_responses UClick)).
  - apply session_reach. vm_compute. reflexivity.
  - vm_compute. reflexivity.
Defined.

Lemma no_dead_links_witness :
  route_of_path (screen_path (screen (session (to_confirmation ++ leave_early)))) <> None.
Proof. apply (no_dead_links (fun d => d)). apply session_reach. vm_compute. reflexivity. Defined.

Lemma confirmation_entry_witness :
  on_confirmation (screen (session before_submit)) = true \/
  exists s pend, screen (session before_submit) = SCreatePost s pend /\ CreatePost.isFormValid s = true.
Proof.
  apply (confirmation_entry (fun d => d) _ submit_event (session to_confirmation) 1).
  - apply session_reach. vm_compute. reflexivity.
  - vm_compute. reflexivity.
  - vm_compute. reflexivity.
Defined.

Lemma no_early_redirect_witness :
  screen (tick 4999 (session to_confirmation)) = screen (session to_confirmation).
Proof.
  apply (no_early_redirect (fun d => d) (session before_submit) submit_event).
  - apply session_reach. vm_compute. reflexivity.
  - vm_compute. reflexivity.
  - vm_compute. reflexivity.
  - vm_compute. reflexivity.
  - unfold PushConfirmation.redirect_delay. lia.
Defined.

End App.
