(* ===== verification/AppCompose.v ===== *)
(** * AppCompose: the screens inside the app

    [App] runs the screens under one router and one browser: a user event
    goes to the mounted screen ([App.screen_react]), its effects run in
    order ([App.apply_effects]), time passes ([App.tick]) and [FileReader]s
    complete ([App.AReaderLoad]).  This file shows that the composition
    adds no behaviour to a screen: every screen mounted in a reachable
    app is a reachable state of that screen's own model ([reach] of its
    file, and [CreatePost.world_reachable] for CreatePost with its pending
    reads).  Each app step is a stutter of the mounted screen, a fresh
    mount, or one step of the screen's own model (the simulation diagram
    of [screen_ok_step]).  The theorems of the screen files therefore hold
    of the whole app; the ones stated here use it: Home is reachable
    from every state, every edge of the navigation table can be taken from every
    state of its screen, and the preview race of CreatePost occurs in the
    full app. *)

From Stdlib Require Import ZArith Lia.
From stdpp Require Import base list decidable relations.
From S2P Require Import Prelude JsString DataUrl View Timers Login CreatePost Home Notifications Profile.
From S2P Require Import ListStore Welcome PushConfirmation App.

Module Compose.

Import Timers App.

#[local] Existing Instance Home.post_keyed.

(** ** The screens' own models, read off a mounted screen *)

Section WithLocale.
Variable ld : jsstr -> jsstr.

Definition screen_ok (sc : mounted) : Prop :=
  match sc with
  | SLogin s => Login.reachable s
  | SHome s => Home.reachable s
  | SCreatePost s pend => CreatePost.world_reachable (CreatePost.mkWorld s pend)
  | SNotifications l => Notifications.reachable l
  | SProfile s => Profile.reachable ld s
  | SNotFound p => route_of_path p = None
  | SWelcome | SPushConfirmation _ => True
  end.

(** [screen_ok] once the reads requested by [es] are added to the pending
    reads of a mounted CreatePost. *)
Definition ok_with (sc : mounted) (es : list effect) : Prop :=
  match sc with
  | SCreatePost s pend => CreatePost.world_reachable (CreatePost.mkWorld s (pend ++ CreatePost.reads es))
  | _ => screen_ok sc
  end.

End WithLocale.

(** An effect list whose reads all come before its first navigation. *)
Fixpoint reads_before_nav (es : list effect) : Prop :=
  match es with
  | [] => True
  | Navigate _ :: es' | AssignLocation _ :: es' => CreatePost.reads es' = []
  | _ :: es' => reads_before_nav es'
  end.

(** ** Effects: a handler requests at most one *)

Lemma reads_nil_before_nav es : CreatePost.reads es = [] -> reads_before_nav es.
Proof.
  induction es as [|[] es IH]; simpl; intros H; auto; discriminate.
Qed.

Lemma link_reads g : CreatePost.reads (link_effect g) = [].
Proof. by destruct g. Qed.

Lemma handler_then_link e g : length e <= 1 -> reads_before_nav (e ++ link_effect g).
Proof.
  intros He. destruct e as [|x [|y e]]; simpl in *; [|destruct x|lia].
  all: try apply reads_nil_before_nav; apply link_reads.
Qed.

(** The events of a screen whose handlers request at most one effect
    have their reads before their navigation. *)
Lemma react_reads_before_nav {S A} (view : S -> list (node A)) run s path ev s' es :
  (forall s, forallb nest_ok (view s) = true) ->
  (forall s h, length (snd (run s h)) <= 1) ->
  react view run s path ev = Some (s', es) -> reads_before_nav es.
Proof.
  intros Hn H1 Hr. destruct (react_cases view run Hn _ _ _ _ _ Hr)
    as (r & _ & [(_ & _ & ->)|(h & _ & _ & _ & ->)]).
  - exact (handler_then_link [] _ (Nat.le_0_l 1)).
  - apply handler_then_link, H1.
Qed.

Ltac one_effect := intros s h; destruct h; cbn;
  try unfold Login.handleOtpSubmit, CreatePost.handleImageUpload, CreatePost.handleSubmit;
  repeat (case_match; cbn); lia.

Lemma login_one_effect : forall s h, length (snd (Login.run s h)) <= 1.
Proof. one_effect. Qed.

Lemma home_one_effect : forall s h, length (snd (Home.run s h)) <= 1.
Proof. one_effect. Qed.

Lemma createpost_one_effect : forall s h, length (snd (CreatePost.run s h)) <= 1.
Proof. one_effect. Qed.

Lemma notifications_one_effect : forall s h, length (snd (Notifications.run s h)) <= 1.
Proof. one_effect. Qed.

Lemma profile_one_effect : forall s h, length (snd (Profile.run s h)) <= 1.
Proof. one_effect. Qed.

Lemma welcome_view_nest s : forallb nest_ok (Welcome.view s) = true.
Proof. reflexivity. Qed.

Lemma no_effect {S A} (run : S -> A -> S * list effect) :
  (A -> False) -> forall s h, length (snd (run s h)) <= 1.
Proof. intros HA s h. destruct (HA h). Qed.

(** ** One app step is a stutter, a fresh mount or a step of the screen *)

Section Simulation.
Variable ld : jsstr -> jsstr.

Lemma ok_with_nil sc : ok_with ld sc [] <-> screen_ok ld sc.
Proof. destruct sc; simpl; try done. by rewrite app_nil_r. Qed.

Lemma ok_with_skip sc e es :
  CreatePost.reads [e] = [] -> ok_with ld sc (e :: es) <-> ok_with ld sc es.
Proof. intros He. destruct sc; try done. destruct e; simpl in *; [done|done|done|discriminate]. Qed.

Lemma mount_ok p h es : CreatePost.reads es = [] -> ok_with ld (fst (mount p h)) es.
Proof.
  intros Hr. unfold mount. destruct (route_of_path p) as [[]|] eqn:E; simpl; try constructor;
    [rewrite Hr; apply rtc_refl|exact E].
Qed.

Lemma mount_app_ok p h c es :
  CreatePost.reads es = [] -> ok_with ld (screen (let '(sc, h') := mount p h in mkApp sc h' c)) es.
Proof. intros Hr. pose proof (mount_ok p h es Hr). by destruct (mount p h). Qed.

Lemma apply_effects_ok a es :
  reads_before_nav es -> ok_with ld (screen a) es -> screen_ok ld (screen (apply_effects a es)).
Proof.
  revert a. induction es as [|e es IH]; intros a Hb Hok; simpl.
  { by apply ok_with_nil. }
  destruct e as [to|href|args|f]; simpl in Hb; unfold apply_effect.
  - apply IH; [by apply reads_nil_before_nav|]. destruct (jseqb (screen_path (screen a)) to).
    + exact (proj1 (ok_with_skip _ (Navigate to) es eq_refl) Hok).
    + by apply mount_app_ok.
  - apply IH; [by apply reads_nil_before_nav|]. by apply mount_app_ok.
  - apply IH; [done|]. exact (proj1 (ok_with_skip _ (ConsoleLog args) es eq_refl) Hok).
  - apply IH; [done|]. destruct a as [sc h c]; destruct sc; simpl in *; try done.
    by rewrite <- app_assoc.
Qed.

Lemma reach_react {S A} (view : S -> list (node A)) run init s path ev s' es :
  reach view run init s -> react view run s path ev = Some (s', es) -> reach view run init s'.
Proof. intros Hs Hr. by eapply reach_step. Qed.

Lemma screen_react_ok sc path ev sc' es :
  screen_ok ld sc -> screen_react ld sc path ev = Some (sc', es) ->
  ok_with ld sc' es /\ reads_before_nav es.
Proof.
  intros Hok Hr. destruct sc; simpl in Hok, Hr; try discriminate;
    match type of Hr with lift _ ?r = _ => destruct r as [[s1 e1]|] eqn:Hre end;
    simplify_eq/=.
  - split; [done|]. exact (react_reads_before_nav _ _ _ _ _ _ _ welcome_view_nest (no_effect _ (fun a : Welcome.action => match a with end)) Hre).
  - split; [by eapply reach_react|]. exact (react_reads_before_nav _ _ _ _ _ _ _ Login.login_view_nest login_one_effect Hre).
  - split; [by eapply reach_react|]. exact (react_reads_before_nav _ _ _ _ _ _ _ Home.home_view_nest home_one_effect Hre).
  - split; [|exact (react_reads_before_nav _ _ _ _ _ _ _ CreatePost.createpost_view_nest createpost_one_effect Hre)].
    eapply rtc_r; [exact Hok|]. by apply (CreatePost.wstep_user (CreatePost.mkWorld s pending) path ev).
  - split; [done|]. exact (react_reads_before_nav _ _ _ _ _ _ _ push_view_nest (no_effect _ (fun a : PushConfirmation.action => match a with end)) Hre).
  - split; [by eapply reach_react|]. exact (react_reads_before_nav _ _ _ _ _ _ _ Notifications.notifications_view_nest notifications_one_effect Hre).
  - split; [by eapply reach_react|]. exact (react_reads_before_nav _ _ _ _ _ _ _ (Profile.profile_view_nest ld) profile_one_effect Hre).
Qed.

Lemma screen_ok_step a e a' :
  app_inv a -> screen_ok ld (screen a) -> app_step ld a e = Some a' -> screen_ok ld (screen a').
Proof.
  intros Hi Hok Hs. destruct e as [path ev|dt|i]; simpl in Hs.
  - destruct (screen_react ld (screen a) path ev) as [[sc es]|] eqn:Hr; [|discriminate].
    injection Hs as <-. destruct (screen_react_ok _ _ _ _ _ Hok Hr) as [Hw Hb].
    by apply apply_effects_ok.
  - destruct (0 <=? dt)%Z; [|discriminate]. injection Hs as <-.
    destruct (tick_screen dt a Hi) as [->|[_ ->]]; [done|constructor].
  - destruct a as [sc h c]; destruct sc; simpl in *; try discriminate.
    destruct (pending !! i) as [f|] eqn:Hf; [|discriminate]. injection Hs as <-. simpl.
    eapply rtc_r; [exact Hok|]. by apply (CreatePost.wstep_load (CreatePost.mkWorld s pending) i f).
Qed.
End Simulation.

(** ** Every screen of the app runs as its own model *)

(** C14: The composition refines the screens: in every reachable state of
    the app, the mounted screen's state is a reachable state of that
    screen's own model ([reach] of its view and handlers, started from
    its [useState] initial values), CreatePost's together with its pending
    [FileReader]s ([world_reachable]); and a not-found screen is mounted
    only for a path without a route.  Router, effects, timers and reads
    add no state change a screen could not make on its own. *)
Theorem app_screens_ok ld a : app_reach ld a -> screen_ok ld (screen a).
Proof.
  induction 1 as [|a e a' Hr IH Hs].
  - apply ok_with_nil. exact (mount_app_ok ld (js "/") initial_host [] [] eq_refl).
  - exact (screen_ok_step ld a e a' (app_reach_inv _ _ Hr) IH Hs).
Qed.

(** ** Home is at most two events away *)

(** The back arrows of CreatePost, Notifications and Profile. *)
Definition createpost_back : list nat := [0; 0; 0].
Definition notifications_back : list nat := [0; 0; 0; 0; 0].
Definition profile_back : list nat := [0; 0; 0; 0].

(** The events that lead home from a mounted screen: the Welcome screen's
    "Get Started" then "Skip for now", Login's "Skip for now", a back
    arrow, or on the confirmation screen the wait for the redirect. *)
Definition way_home (sc : mounted) : list app_event :=
  match sc with
  | SWelcome => [AUser Welcome.get_started UClick; AUser Login.skip_link UClick]
  | SLogin _ => [AUser Login.skip_link UClick]
  | SHome _ | SNotFound _ => []
  | SCreatePost _ _ => [AUser createpost_back UClick]
  | SPushConfirmation _ => [ATick PushConfirmation.redirect_delay]
  | SNotifications _ => [AUser notifications_back UClick]
  | SProfile _ => [AUser profile_back UClick]
  end.

Lemma navigate_home a :
  screen_path (screen a) <> js "/home" ->
  screen (apply_effects a [Navigate (js "/home")]) = SHome Home.initial.
Proof.
  intros Hp. cbn [apply_effects fold_left]. unfold apply_effect.
  rewrite (proj2 (jseqb_false _ _) Hp). reflexivity.
Qed.

(** A user event whose only effect is the navigation home, off Home. *)
Lemma user_home ld a path :
  screen_path (screen a) <> js "/home" ->
  (exists sc, screen_react ld (screen a) path UClick = Some (sc, [Navigate (js "/home")]) /\
              screen_path sc = screen_path (screen a)) ->
  exists a', app_step ld a (AUser path UClick) = Some a' /\ screen a' = SHome Home.initial.
Proof.
  intros Hp (sc & Hr & Hsc). simpl. rewrite Hr. eexists. split; [reflexivity|].
  apply navigate_home. simpl. by rewrite Hsc.
Qed.

Lemma run_events_single ld a e a' : app_step ld a e = Some a' -> run_events ld a [e] = Some a'.
Proof. simpl. by intros ->. Qed.

(** C15: Home is never more than two events away: from every reachable
    state of the app, the events of [way_home] (at most two: a back arrow,
    "Skip for now", "Get Started" then "Skip for now", or waiting 5000 ms
    on the confirmation screen) all apply and end on /home.  No screen is
    a trap. *)
Theorem home_within_two_steps ld a :
  app_reach ld a ->
  exists evs a', length evs <= 2 /\ run_events ld a evs = Some a' /\ screen_path (screen a') = js "/home".
Proof.
  intros Hr. pose proof (app_screens_ok ld a Hr) as Hok. pose proof (app_reach_inv ld a Hr) as Hi.
  exists (way_home (screen a)).
  destruct a as [sc h c]; destruct sc as [|s|s|s pend|t|l|s|p]; simpl in Hok; cbn [way_home screen].
  - eexists. split; [simpl; lia|]. split; reflexivity.
  - destruct (user_home ld (mkApp (SLogin s) h c) Login.skip_link) as (a' & Hs & Ha');
      [discriminate|exists (SLogin s); split; [|done]|].
    { change (lift SLogin (react Login.view Login.run s Login.skip_link UClick) =
              Some (SLogin s, [Navigate (js "/home")])). by rewrite Login.skip_click. }
    exists a'. split; [simpl; lia|]. by rewrite (run_events_single _ _ _ _ Hs), Ha'.
  - exists (mkApp (SHome s) h c). split; [simpl; lia|split; reflexivity].
  - destruct (user_home ld (mkApp (SCreatePost s pend) h c) createpost_back) as (a' & Hs & Ha');
      [discriminate|by eexists; split|].
    exists a'. split; [simpl; lia|]. by rewrite (run_events_single _ _ _ _ Hs), Ha'.
  - eexists. split; [simpl; lia|]. split; [reflexivity|].
    destruct (tick_redirect (mkApp (SPushConfirmation t) h c) t PushConfirmation.redirect_delay Hi eq_refl)
      as [-> _]; [lia|done].
  - destruct (user_home ld (mkApp (SNotifications l) h c) notifications_back) as (a' & Hs & Ha');
      [discriminate|by eexists; split|].
    exists a'. split; [simpl; lia|]. by rewrite (run_events_single _ _ _ _ Hs), Ha'.
  - destruct (user_home ld (mkApp (SProfile s) h c) profile_back) as (a' & Hs & Ha');
      [discriminate|by eexists; split|].
    exists a'. split; [simpl; lia|]. by rewrite (run_events_single _ _ _ _ Hs), Ha'.
  - by destruct (app_reach_routes ld _ Hr).
Qed.

(** ** What the composition shows *)

(** The events of the race: to CreatePost, pick [file_a], pick [file_b],
    then the read of [file_b] completes before the read of [file_a]. *)
Definition race_events : list app_event :=
  [AUser Welcome.get_started UClick; AUser Login.skip_link UClick; AUser [0; 1; 0; 0] UClick;
   AUser CreatePost.file_input (UFile (Some CreatePost.file_a));
   AUser CreatePost.file_input (UFile (Some CreatePost.file_b));
   AReaderLoad 1; AReaderLoad 0].

(** C24: The preview race of CreatePost happens in the whole app: from the
    welcome screen, the run [race_events] reaches a CreatePost screen with
    no read pending whose [selectedImage] is [file_b] while its
    [imagePreview] is the data URL of [file_a]. *)
Theorem app_preview_race ld :
  exists a s, app_reach ld a /\ screen a = SCreatePost s [] /\
    CreatePost.selectedImage s = Some CreatePost.file_b /\
    CreatePost.imagePreview s = data_url CreatePost.file_a /\
    data_url CreatePost.file_a <> data_url CreatePost.file_b.
Proof.
  exists (mkApp (SCreatePost (CreatePost.mkState [] [] false (Some CreatePost.file_b)
                                (data_url CreatePost.file_a)) []) initial_host []).
  eexists. split; [|split; [reflexivity|split; [reflexivity|split; [reflexivity|exact CreatePost.data_url_ab]]]].
  eapply (run_events_reach ld app_init race_events); [constructor|]. vm_compute. reflexivity.
Qed.

(** ** Every edge of the navigation table can be taken *)

(** The header arrow of Login, and the bell, avatar, "What do you need
    today?" and Home tab of the Home screen. *)
Definition login_back : list nat := [0; 0; 0].
Definition home_bell : list nat := [0; 0; 0; 1; 0].
Definition home_avatar : list nat := [0; 0; 0; 1; 1].
Definition home_create : list nat := [0; 1; 0].
Definition home_tab : list nat := [0; 3; 0; 0].

(** Choose a category, type a description of more than 10 characters and
    press "Push to Nearby Users". *)
Definition fill_and_submit : list app_event :=
  [AUser CreatePost.category_select (USelect (js "help"));
   AUser CreatePost.description_input (UInput (js "Need help moving a sofa"));
   AUser CreatePost.submit_button UClick].

(** For each target of [nav_targets], the events that take the edge. *)
Definition edges (sc : mounted) : list (jsstr * list app_event) :=
  match sc with
  | SWelcome => [(js "/login", [AUser Welcome.get_started UClick])]
  | SLogin _ => [(js "/", [AUser login_back UClick]); (js "/home", [AUser Login.skip_link UClick])]
  | SHome _ => [(js "/notifications", [AUser home_bell UClick]); (js "/profile", [AUser home_avatar UClick]);
                (js "/create-post", [AUser home_create UClick]); (js "/home", [AUser home_tab UClick])]
  | SCreatePost _ _ => [(js "/home", [AUser createpost_back UClick]); (js "/push-confirmation", fill_and_submit)]
  | SPushConfirmation _ => [(js "/notifications", [AUser PushConfirmation.view_responses UClick]);
                            (js "/home", [AUser PushConfirmation.back_to_feed UClick])]
  | SNotifications _ => [(js "/home", [AUser notifications_back UClick])]
  | SProfile _ => [(js "/home", [AUser profile_back UClick])]
  | SNotFound _ => []
  end.

Lemma edges_targets sc : fst <$> edges sc = nav_targets sc.
Proof. by destruct sc. Qed.

(** C16: The navigation table is exact: every target of [nav_targets] (the
    edges C13 proves the only ones) is reached from every state of its
    screen, whatever that state, by at most three events ([edges]); the
    confirmation in particular by filling the form and submitting. *)
Theorem nav_targets_realised ld a t :
  t ∈ nav_targets (screen a) ->
  exists evs a', length evs <= 3 /\ run_events ld a evs = Some a' /\ screen_path (screen a') = t.
Proof.
  rewrite <- edges_targets. intros ([t' evs] & -> & Hin)%list_elem_of_fmap. exists evs.
  destruct a as [sc h c]; destruct sc; simpl in Hin;
    repeat (apply elem_of_cons in Hin as [Hin|Hin];
            [simplify_eq; eexists; split; [simpl; lia|split; reflexivity]|]);
    by apply not_elem_of_nil in Hin.
Qed.

(** ** Witnesses *)

Lemma app_screens_ok_witness : screen_ok (fun d => d) (screen (session before_submit)).
Proof. apply (app_screens_ok (fun d => d)). apply session_reach. vm_compute. reflexivity. Defined.

Lemma home_within_two_steps_witness :
  exists evs a', length evs <= 2 /\ run_events (fun d => d) (session to_confirmation) evs = Some a' /\
    screen_path (screen a') = js "/home".
Proof. apply (home_within_two_steps (fun d => d)). apply session_reach. vm_compute. reflexivity. Defined.

Lemma nav_targets_realised_witness :
  exists evs a', length evs <= 3 /\
    run_events (fun d => d) (session before_submit) evs = Some a' /\
    screen_path (screen a') = js "/push-confirmation".
Proof. apply (nav_targets_realised (fun d => d)). vm_compute. right. left. Defined.

End Compose.
